(** * tablet-resource-manager: the metrics collection and aggregation engine

    A shallow embedding of the server's collectors
    ([collectors/host.js], [memory.js], [cpu.js], [disk.js], [network.js],
    [android.js]) and of the [GET /api/metrics] handler of [index.js].

    Conventions of the embedding.
    - A JavaScript string is a [string] of code units below 256.
    - A JavaScript number is a [jsnum]: [NaN], the two infinities, or an
      exact rational.  Rounding of IEEE doubles and the negative zero are
      not represented.
    - A JavaScript value is a [value]; an object is an association list
      in insertion order, which is the order of [Object.keys].
    - Module-level [let] variables of a collector are the fields of that
      collector's state record, passed in and out explicitly.
    - Everything a collector asks of the outside (clock, platform, [os],
      [fs], [child_process]) is answered by an [Env]; every call to [fs]
      or [child_process] is recorded in a trace of [call]s.
    - The host does not change while one collector runs: the same call
      made twice by one collection gets the same answer.
    - A thrown error is its [message]; [console.error] is not represented. *)

From Stdlib Require Import String Ascii List ZArith QArith Qround Bool Lia Lqa.
From Stdlib Require Import DecimalString DecimalPos DecimalN Nnat.
From Stdlib Require Import Sorted.
Import ListNotations.
Local Close Scope Q_scope.
Local Open Scope string_scope.
Local Open Scope list_scope.

(* ================================================================== *)
(** ** JavaScript strings *)

Module JsString.

(** White space and line terminators of [String.prototype.trim] and of the
    regular-expression class [\s], restricted to code units below 256. *)
Definition is_ws (c : ascii) : bool :=
  match nat_of_ascii c with
  | 9 | 10 | 11 | 12 | 13 | 32 | 160 => true
  | _ => false
  end.

Definition LF : ascii := ascii_of_nat 10.

Definition is_empty (s : string) : bool :=
  match s with EmptyString => true | String _ _ => false end.

Fixpoint trimStart (s : string) : string :=
  match s with
  | EmptyString => EmptyString
  | String c s' => if is_ws c then trimStart s' else s
  end.

Fixpoint trimEnd (s : string) : string :=
  match s with
  | EmptyString => EmptyString
  | String c s' =>
      let r := trimEnd s' in
      if is_ws c && is_empty r then EmptyString else String c r
  end.

Definition trim (s : string) : string := trimEnd (trimStart s).

(** [s.split(sep)] for a one-character separator. *)
Fixpoint split (sep : ascii) (s : string) : list string :=
  match s with
  | EmptyString => [EmptyString]
  | String c s' =>
      if Ascii.eqb c sep then EmptyString :: split sep s'
      else match split sep s' with
           | h :: t => String c h :: t
           | [] => [String c EmptyString]
           end
  end.

(** [s.split(/\s+/)]: the pieces between maximal runs of white space.
    [skipping] tells that the previous character belonged to a run. *)
Fixpoint split_ws_from (skipping : bool) (s : string) : list string :=
  match s with
  | EmptyString => [EmptyString]
  | String c s' =>
      if is_ws c then
        if skipping then split_ws_from true s'
        else EmptyString :: split_ws_from true s'
      else match split_ws_from false s' with
           | h :: t => String c h :: t
           | [] => [String c EmptyString]
           end
  end.

Definition split_ws (s : string) : list string := split_ws_from false s.

(** [s.startsWith(p)]. *)
Definition startsWith (s p : string) : bool := String.prefix p s.

(** [s.replace(c, '')] for a one-character pattern: the first occurrence
    only. *)
Fixpoint remove_first (c : ascii) (s : string) : string :=
  match s with
  | EmptyString => EmptyString
  | String a s' => if Ascii.eqb a c then s' else String a (remove_first c s')
  end.

(** [s.includes(p)]. *)
Fixpoint includes (s p : string) : bool :=
  String.prefix p s ||
  match s with
  | EmptyString => false
  | String _ s' => includes s' p
  end.

Fixpoint repeat_char (c : ascii) (n : nat) : string :=
  match n with
  | O => EmptyString
  | S n' => String c (repeat_char c n')
  end.

Definition padStart (n : nat) (c : ascii) (s : string) : string :=
  repeat_char c (n - String.length s) ++ s.

End JsString.

(* ================================================================== *)
(** ** JavaScript numbers *)

Module JsNum.
Local Open Scope Q_scope.

Inductive jsnum : Type :=
| NaN
| PInf
| NInf
| Num (q : Q).

Definition of_Z (z : Z) : jsnum := Num (inject_Z z).

Definition Qltb (a b : Q) : bool := negb (Qle_bool b a).

Definition neg (a : jsnum) : jsnum :=
  match a with
  | NaN => NaN
  | PInf => NInf
  | NInf => PInf
  | Num q => Num (- q)
  end.

Definition add (a b : jsnum) : jsnum :=
  match a, b with
  | NaN, _ | _, NaN => NaN
  | PInf, NInf | NInf, PInf => NaN
  | PInf, _ | _, PInf => PInf
  | NInf, _ | _, NInf => NInf
  | Num x, Num y => Num (x + y)
  end.

Definition sub (a b : jsnum) : jsnum := add a (neg b).

(** Sign of a number: [Gt] positive, [Lt] negative, [Eq] zero;
    [None] for [NaN]. *)
Definition sign (a : jsnum) : option comparison :=
  match a with
  | NaN => None
  | PInf => Some Gt
  | NInf => Some Lt
  | Num q => Some (Qcompare q 0)
  end.

Definition mul (a b : jsnum) : jsnum :=
  match a, b with
  | Num x, Num y => Num (x * y)
  | _, _ =>
      match sign a, sign b with
      | Some Gt, Some Gt | Some Lt, Some Lt => PInf
      | Some Gt, Some Lt | Some Lt, Some Gt => NInf
      | _, _ => NaN
      end
  end.

(** Division as JavaScript has it: a finite number divided by zero is an
    infinity (or [NaN] for [0/0]), never an error. *)
Definition div (a b : jsnum) : jsnum :=
  match a, b with
  | NaN, _ | _, NaN => NaN
  | Num x, Num y =>
      match Qcompare y 0 with
      | Eq => match Qcompare x 0 with
              | Eq => NaN
              | Gt => PInf
              | Lt => NInf
              end
      | _ => Num (x / y)
      end
  | Num _, _ => Num 0
  | PInf, Num y => if Qltb y 0 then NInf else PInf
  | NInf, Num y => if Qltb y 0 then PInf else NInf
  | _, _ => NaN
  end.

(** [a < b]; any comparison with [NaN] is false. *)
Definition lt (a b : jsnum) : bool :=
  match a, b with
  | NaN, _ | _, NaN => false
  | _, NInf => false
  | PInf, _ => false
  | NInf, _ => true
  | _, PInf => true
  | Num x, Num y => Qltb x y
  end.

Definition gt (a b : jsnum) : bool := lt b a.

(** [a >= b]. *)
Definition ge (a b : jsnum) : bool :=
  match a, b with
  | NaN, _ | _, NaN => false
  | _, _ => negb (lt a b)
  end.

(** [a === b] on numbers. *)
Definition strict_eq (a b : jsnum) : bool :=
  match a, b with
  | PInf, PInf | NInf, NInf => true
  | Num x, Num y => Qeq_bool x y
  | _, _ => false
  end.

(** [Math.min(a, b)] and [Math.max(a, b)]: [NaN] when an argument is. *)
Definition min (a b : jsnum) : jsnum :=
  match a, b with
  | NaN, _ | _, NaN => NaN
  | _, _ => if lt b a then b else a
  end.

Definition max (a b : jsnum) : jsnum :=
  match a, b with
  | NaN, _ | _, NaN => NaN
  | _, _ => if lt a b then b else a
  end.

(** Truthiness of a number: everything but [0] and [NaN]. *)
Definition truthy (a : jsnum) : bool :=
  match a with
  | NaN => false
  | Num q => negb (Qeq_bool q 0)
  | _ => true
  end.

(** [Math.floor] and [Math.round] (halves go up). *)
Definition floor (a : jsnum) : jsnum :=
  match a with
  | Num q => of_Z (Qfloor q)
  | _ => a
  end.

Definition round (a : jsnum) : jsnum :=
  match a with
  | Num q => of_Z (Qfloor (q + (1 # 2)))
  | _ => a
  end.

(** Equality of numbers up to the representation of the rational. *)
Definition equiv (a b : jsnum) : Prop :=
  match a, b with
  | NaN, NaN | PInf, PInf | NInf, NInf => True
  | Num x, Num y => x == y
  | _, _ => False
  end.

(** ** [Number.prototype.toFixed] *)

(** The integer [n] for which [n / 10^d] is closest to [q >= 0], the
    larger one of two. *)
Definition scaled (d : nat) (q : Q) : N :=
  Z.to_N (Qfloor (q * inject_Z (10 ^ Z.of_nat d) + (1 # 2))).

Definition digits_of_N (n : N) : string :=
  DecimalString.NilEmpty.string_of_uint (N.to_uint n).

Definition digits_of_Z (z : Z) : string := digits_of_N (Z.to_N z).

Definition digit_char (k : N) : ascii := ascii_of_N (48 + k).

(** The last [d] decimal digits of [m], before [rest]. *)
Fixpoint fixed_width (d : nat) (m : N) (rest : string) : string :=
  match d with
  | O => rest
  | S d' => fixed_width d' (m / 10) (String (digit_char (m mod 10)) rest)
  end.

Definition fixed_digits (d : nat) (n : N) : string :=
  let p := (10 ^ N.of_nat d)%N in
  let int_part := digits_of_N (n / p) in
  match d with
  | O => int_part
  | _ => int_part ++ String "." (fixed_width d (n mod p) EmptyString)
  end.

(** [x.toFixed(d)], in positional notation for every finite [x] (the
    exponential notation of numbers from 1e21 on is not represented).
    The rational is rounded as it is, so the digits are those of
    JavaScript when [x] is the exact value of the double, as for an
    integer below 2^53 divided by a power of two. *)
Definition toFixed (d : nat) (x : jsnum) : string :=
  match x with
  | NaN => "NaN"
  | PInf => "Infinity"
  | NInf => "-Infinity"
  | Num q =>
      if Qltb q 0 then String "-" (fixed_digits d (scaled d (- q)))
      else fixed_digits d (scaled d q)
  end.

(** Decimal digits of an integer, as [String(n)] prints a safe integer. *)
Definition string_of_Z (z : Z) : string :=
  if (z <? 0)%Z then "-" ++ digits_of_Z (- z) else digits_of_Z z.

End JsNum.

Export JsNum(jsnum, NaN, PInf, NInf, Num).

(* ================================================================== *)
(** ** Parsing numbers *)

Module JsParse.
Import JsString.

Definition digit_value (radix : N) (c : ascii) : option N :=
  let n := N_of_ascii c in
  let v :=
    if (48 <=? n)%N && (n <=? 57)%N then Some (n - 48)%N
    else if (97 <=? n)%N && (n <=? 122)%N then Some (n - 87)%N
    else if (65 <=? n)%N && (n <=? 90)%N then Some (n - 55)%N
    else None in
  match v with
  | Some d => if (d <? radix)%N then Some d else None
  | None => None
  end.

(** Digits of [s] in [radix] from its start: their value, how many there
    are, and the rest of [s]. *)
Fixpoint take_digits (radix : N) (acc : N) (count : nat) (s : string)
  : N * nat * string :=
  match s with
  | EmptyString => (acc, count, s)
  | String c s' =>
      match digit_value radix c with
      | Some d => take_digits radix (acc * radix + d)%N (S count) s'
      | None => (acc, count, s)
      end
  end.

Definition strip_sign (s : string) : bool * string :=
  match s with
  | String "-" r => (true, r)
  | String "+" r => (false, r)
  | _ => (false, s)
  end.

Definition strip_hex_prefix (s : string) : N * string :=
  match s with
  | String "0" (String "x" r) => (16%N, r)
  | String "0" (String "X" r) => (16%N, r)
  | _ => (10%N, s)
  end.

(** [parseInt(x)] without a radix: the longest prefix of digits after
    white space, a sign and a hexadecimal prefix.  [None] is [undefined],
    an array slot past the end.  The integer is exact: this is the
    number JavaScript returns for digit runs of a value up to 2^53; above
    it JavaScript returns the nearest double, and [Infinity] from about
    1.8e308 on, which is not represented.  Statements that depend on the
    parsed value bound the counts by 2^53. *)
Definition parseInt (x : option string) : jsnum :=
  match x with
  | None => NaN
  | Some s =>
      let '(negative, s1) := strip_sign (trimStart s) in
      let '(radix, s2) := strip_hex_prefix s1 in
      match take_digits radix 0 0 s2 with
      | (n, S _, _) => JsNum.of_Z (if negative then - Z.of_N n else Z.of_N n)
      | _ => NaN
      end
  end.

Definition whole_digits (radix : N) (s : string) : jsnum :=
  match take_digits radix 0 0 s with
  | (n, S _, EmptyString) => JsNum.of_Z (Z.of_N n)
  | _ => NaN
  end.

(** The exponent part [e[+-]digits] of a decimal literal, which must end
    the string; no exponent part is exponent 0. *)
Definition exponent_part (s : string) : option Z :=
  match s with
  | EmptyString => Some 0%Z
  | String c r =>
      if Ascii.eqb c "e" || Ascii.eqb c "E" then
        let '(negative, r1) := strip_sign r in
        match take_digits 10 0 0 r1 with
        | (n, S _, EmptyString) =>
            Some (if negative then - Z.of_N n else Z.of_N n)%Z
        | _ => None
        end
      else None
  end.

Definition pow10 (e : Z) : Q :=
  if (e <? 0)%Z then (1 # Pos.pow 10 (Z.to_pos (- e)))%Q
  else inject_Z (10 ^ e).

(** [StrUnsignedDecimalLiteral] without [Infinity]. *)
Definition unsigned_decimal (s : string) : option Q :=
  let '(int_part, int_count, r) := take_digits 10 0 0 s in
  let '(frac_part, frac_count, r1) :=
    match r with
    | String "." r' => take_digits 10 0 0 r'
    | _ => (0%N, O, r)
    end in
  match int_count, frac_count with
  | O, O => None
  | _, _ =>
      match exponent_part r1 with
      | Some e =>
          Some ((inject_Z (Z.of_N int_part)
                 + inject_Z (Z.of_N frac_part) * pow10 (- Z.of_nat frac_count))
                * pow10 e)%Q
      | None => None
      end
  end.

(** The exponent that starts [s], if one does: [e[+-]digits]. *)
Definition exponent_prefix (s : string) : Z :=
  match s with
  | EmptyString => 0%Z
  | String c r =>
      if Ascii.eqb c "e" || Ascii.eqb c "E" then
        let '(negative, r1) := strip_sign r in
        match take_digits 10 0 0 r1 with
        | (n, S _, _) => (if negative then - Z.of_N n else Z.of_N n)%Z
        | _ => 0%Z
        end
      else 0%Z
  end.

(** The number that the longest decimal literal at the start of [u]
    denotes: digits, a fraction, an exponent. *)
Definition decimal_prefix (u : string) : option Q :=
  let '(int_part, int_count, r) := take_digits 10 0 0 u in
  let '(frac_part, frac_count, r1) :=
    match r with
    | String "." r' => take_digits 10 0 0 r'
    | _ => (0%N, O, r)
    end in
  match int_count, frac_count with
  | O, O => None
  | _, _ =>
      Some ((inject_Z (Z.of_N int_part)
             + inject_Z (Z.of_N frac_part) * pow10 (- Z.of_nat frac_count))
            * pow10 (exponent_prefix r1))%Q
  end.

(** [parseFloat(s)]: the longest prefix of [s], after leading white
    space, that is a decimal literal. *)
Definition parseFloat (s : string) : jsnum :=
  let '(negative, u) := strip_sign (trimStart s) in
  if startsWith u "Infinity" then (if negative then NInf else PInf)
  else match decimal_prefix u with
       | Some q => Num (if negative then - q else q)%Q
       | None => NaN
       end.

(** [Number(s)], the conversion applied to a string operand of [>]: the
    whole trimmed string has to be a numeric literal. *)
Definition toNumber (s : string) : jsnum :=
  let t := trim s in
  match t with
  | EmptyString => Num 0
  | String "0" (String "x" r) | String "0" (String "X" r) => whole_digits 16 r
  | String "0" (String "o" r) | String "0" (String "O" r) => whole_digits 8 r
  | String "0" (String "b" r) | String "0" (String "B" r) => whole_digits 2 r
  | _ =>
      let '(negative, u) := strip_sign t in
      if String.eqb u "Infinity" then (if negative then NInf else PInf)
      else match unsigned_decimal u with
           | Some q => Num (if negative then - q else q)%Q
           | None => NaN
           end
  end.

End JsParse.

(* ================================================================== *)
(** ** JavaScript values *)

Module JsValue.

#[warnings="-register-all"]
Inductive value : Type :=
| VUndefined
| VNull
| VBool (b : bool)
| VNum (n : jsnum)
| VStr (s : string)
| VArr (items : list value)
| VObj (fields : list (string * value)).

Fixpoint assoc (k : string) (fields : list (string * value)) : value :=
  match fields with
  | [] => VUndefined
  | (k', v) :: rest => if String.eqb k' k then v else assoc k rest
  end.

(** [v?.k] for the property names this program reads: own properties of
    an object; [length] of an array or a string; anything else, and any
    property of a primitive, [null] or [undefined], is [undefined]. *)
Definition get (v : value) (k : string) : value :=
  match v with
  | VObj fields => assoc k fields
  | VArr items =>
      if String.eqb k "length" then VNum (JsNum.of_Z (Z.of_nat (length items)))
      else VUndefined
  | VStr s =>
      if String.eqb k "length"
      then VNum (JsNum.of_Z (Z.of_nat (String.length s)))
      else VUndefined
  | _ => VUndefined
  end.

(** [obj[k] = v]: an existing key keeps its place, a new key goes last.
    On an object that has no key [__proto__] of its own, an assignment
    to [__proto__] reaches the accessor of [Object.prototype] and adds no
    key.  (Keys that are array indices, which [Object.keys] lists first,
    are not told apart.) *)
Fixpoint set (k : string) (v : value) (fields : list (string * value))
  : list (string * value) :=
  match fields with
  | [] => if String.eqb k "__proto__" then [] else [(k, v)]
  | (k', v') :: rest =>
      if String.eqb k' k then (k, v) :: rest else (k', v') :: set k v rest
  end.

Definition truthy (v : value) : bool :=
  match v with
  | VUndefined | VNull => false
  | VBool b => b
  | VNum n => JsNum.truthy n
  | VStr s => negb (JsString.is_empty s)
  | VArr _ | VObj _ => true
  end.

(** [a || b]. *)
Definition or_else (a b : value) : value := if truthy a then a else b.

Definition has_key (k : string) (v : value) : bool :=
  match v with
  | VObj fields => existsb (fun kv => String.eqb (fst kv) k) fields
  | _ => false
  end.

Definition is_string (v : value) : bool :=
  match v with VStr _ => true | _ => false end.

Definition is_object (v : value) : bool :=
  match v with VObj _ => true | _ => false end.

End JsValue.

Export JsValue(value, VUndefined, VNull, VBool, VNum, VStr, VArr, VObj).

(* ================================================================== *)
(** ** The outside world and the effects of a collector *)

Module Effects.

(** A synchronous call that leaves the process. *)
Inductive call : Type :=
| ExecSync (command : string)
| ReadFileSync (path : string)
| ExistsSync (path : string)
| ReaddirSync (path : string).

(** What a call that may throw gives back: a result, or the [message] of
    the [Error] thrown. *)
Inductive res (A : Type) : Type :=
| Ok (a : A)
| Throw (message : string).
Arguments Ok {A} a.
Arguments Throw {A} message.

(** A computation: its outcome and the calls it made, in order. *)
Definition IO (A : Type) : Type := (res A * list call)%type.

Definition ret {A} (a : A) : IO A := (Ok a, []).

Definition bind {A B} (m : IO A) (f : A -> IO B) : IO B :=
  match m with
  | (Ok a, t) => let '(r, t') := f a in (r, t ++ t')
  | (Throw e, t) => (Throw e, t)
  end.

(** [try { m } catch (error) { h error.message }]. *)
Definition try_catch {A} (m : IO A) (h : string -> IO A) : IO A :=
  match m with
  | (Ok a, t) => (Ok a, t)
  | (Throw e, t) => let '(r, t') := h e in (r, t ++ t')
  end.

Definition outcome {A} (m : IO A) : res A := fst m.
Definition trace {A} (m : IO A) : list call := snd m.

(** The [times] of an element of [os.cpus()]: milliseconds counted by
    the operating system in unsigned counters. *)
Record cpu_times : Type := {
  t_user : N; t_nice : N; t_sys : N; t_idle : N; t_irq : N
}.

(** An element of [os.cpus()]. *)
Record cpu_info : Type := {
  cpu_model : string;
  cpu_speed : N;
  cpu_times_of : cpu_times
}.

Record Env : Type := {
  Date_now : Z;                        (* Date.now() in a collector *)
  Date_now_settled : Z;                (* Date.now() after the six settled *)
  Date_toISOString : string;           (* new Date().toISOString() *)
  platform : string;                   (* process.platform, os.platform() *)
  execSync : string -> res string;
  readFileSync : string -> res string;
  existsSync : string -> bool;
  readdirSync : string -> res (list string);
  JSON_parse : string -> res value;
  Number_toString : Q -> string;       (* String(x), x finite, not an integer *)
  os_loadavg : Q * Q * Q;
  os_cpus : list cpu_info;
  os_hostname : string;
  os_arch : string;
  os_release : string;
  os_type : string;
  os_uptime : Q;
  os_totalmem : N;
  os_freemem : N;
  process_version : string;
  process_uptime : Q;
  process_memoryUsage : value;
  process_pid : N
}.

Definition exec (env : Env) (command : string) : IO string :=
  (execSync env command, [ExecSync command]).

Definition readFile (env : Env) (path : string) : IO string :=
  (readFileSync env path, [ReadFileSync path]).

Definition exists_ (env : Env) (path : string) : IO bool :=
  (Ok (existsSync env path), [ExistsSync path]).

Definition readdir (env : Env) (path : string) : IO (list string) :=
  (readdirSync env path, [ReaddirSync path]).

End Effects.

Export Effects(call, ExecSync, ReadFileSync, ExistsSync, ReaddirSync,
               res, Ok, Throw, IO, Env).

Declare Scope io_scope.
Delimit Scope io_scope with io.
Notation "x <- m ;; k" := (Effects.bind m (fun x => k))
  (at level 61, m at next level, right associativity) : io_scope.
Notation "'try' m 'catch' e => h" := (Effects.try_catch m (fun e => h))
  (at level 62, m at level 200, e name, h at level 200) : io_scope.

(** [String(n)] for a number. *)
Definition number_to_string (env : Env) (n : jsnum) : string :=
  match n with
  | NaN => "NaN"
  | PInf => "Infinity"
  | NInf => "-Infinity"
  | Num q =>
      if Qeq_bool q (inject_Z (Qfloor q)) then JsNum.string_of_Z (Qfloor q)
      else Effects.Number_toString env q
  end.

(* ================================================================== *)
(** ** [collectors/disk.js] *)

Module Disk.
Import JsString JsParse JsValue Effects.
Local Open Scope Z_scope.

(** [let diskCache = null; let diskCacheTime = 0;] *)
Record state : Type := {
  diskCache : value;
  diskCacheTime : Z
}.

Definition initial : state := {| diskCache := VNull; diskCacheTime := 0 |}.

Definition DISK_CACHE_TTL : Z := 30000.

Definition units : list string := ["B"; "KB"; "MB"; "GB"; "TB"].

(** The [while] loop of [formatSize]; it runs at most four times, since
    [unitIndex] starts at 0 and stays below [units.length - 1]. *)
Fixpoint formatSize_loop (fuel : nat) (size : jsnum) (unitIndex : nat)
  : jsnum * nat :=
  match fuel with
  | O => (size, unitIndex)
  | S fuel' =>
      if JsNum.ge size (JsNum.of_Z 1024)
         && (unitIndex <? length units - 1)%nat
      then formatSize_loop fuel' (JsNum.div size (JsNum.of_Z 1024))
                           (S unitIndex)
      else (size, unitIndex)
  end.

Definition formatSize (bytes : jsnum) : string :=
  let '(size, unitIndex) := formatSize_loop (length units - 1) bytes 0 in
  JsNum.toFixed 1 size ++ nth unitIndex units "undefined".

(** The condition under which [parseDfOutput] skips a line. *)
Definition is_special (filesystem mountpoint : string) : bool :=
  startsWith filesystem "tmpfs" ||
  startsWith filesystem "udev" ||
  startsWith filesystem "/dev/loop" ||
  startsWith mountpoint "/snap/" ||
  startsWith mountpoint "/sys" ||
  startsWith mountpoint "/proc" ||
  startsWith mountpoint "/run".

Definition kb (field : string) : jsnum :=
  JsNum.mul (parseInt (Some field)) (JsNum.of_Z 1024).

Definition df_entry (filesystem size used available usage mountpoint : string)
  : value :=
  VObj [ ("filesystem", VStr filesystem);
         ("size", VStr (formatSize (kb size)));
         ("used", VStr (formatSize (kb used)));
         ("available", VStr (formatSize (kb available)));
         ("usage", VStr usage);
         ("usagePercent", VNum (parseInt (Some (remove_first "%" usage))));
         ("mountpoint", VStr mountpoint);
         ("sizeBytes", VNum (kb size));
         ("usedBytes", VNum (kb used));
         ("availableBytes", VNum (kb available)) ].

(** The body of the [for] loop of [parseDfOutput]: [disks] after [line]. *)
Definition parseDfOutput_line (disks : list value) (line : string)
  : list value :=
  let parts := split_ws (trim line) in
  if (6 <=? length parts)%nat then
    match parts with
    | filesystem :: size :: used :: available :: usage :: mountpoint :: _ =>
        if is_special filesystem mountpoint then disks
        else disks ++ [df_entry filesystem size used available usage mountpoint]
    | _ => disks
    end
  else disks.

Definition parseDfOutput_lines (lines : list string) : list value :=
  fold_left parseDfOutput_line lines [].

Definition parseDfOutput (output : string) : list value :=
  parseDfOutput_lines (skipn 1 (split LF (trim output))).

Definition wmic_entry (env : Env) (caption freespace size : string) : value :=
  let used := JsNum.sub (parseInt (Some size)) (parseInt (Some freespace)) in
  let usagePercent :=
    if JsNum.gt (toNumber size) (Num 0)
    then JsNum.round (JsNum.mul (JsNum.div used (parseInt (Some size)))
                                (JsNum.of_Z 100))
    else Num 0 in
  VObj [ ("filesystem", VStr caption);
         ("size", VStr (formatSize (parseInt (Some size))));
         ("used", VStr (formatSize used));
         ("available", VStr (formatSize (parseInt (Some freespace))));
         ("usage", VStr (number_to_string env usagePercent ++ "%"));
         ("usagePercent", VNum usagePercent);
         ("mountpoint", VStr caption);
         ("sizeBytes", VNum (parseInt (Some size)));
         ("usedBytes", VNum used);
         ("availableBytes", VNum (parseInt (Some freespace))) ].

(** The body of the [for] loop over the lines of the [wmic] output. *)
Definition wmic_line (env : Env) (disks : list value) (line : string)
  : list value :=
  match split_ws (trim line) with
  | caption :: freespace :: size :: _ =>
      if negb (is_empty caption) && negb (is_empty freespace)
         && negb (is_empty size)
      then disks ++ [wmic_entry env caption freespace size]
      else disks
  | _ => disks
  end.

Definition wmic_command : string :=
  "wmic logicaldisk get size,freespace,caption".

Definition failure (error message : string) : value :=
  VObj [("error", VStr error); ("message", VStr message)].

(** What the outer [catch] of [collectDiskInfo] returns. *)
Definition catch_payload (message : string) : value :=
  VArr [failure "Failed to collect disk information" message].

(** Is the cached value served at time [now]? *)
Definition cache_valid (st : state) (now : Z) : bool :=
  JsValue.truthy (diskCache st) && (now - diskCacheTime st <? DISK_CACHE_TTL).

(** [collectDiskInfo()]: the value the promise is fulfilled with, the
    calls made, and the module state afterwards. *)
Definition collectDiskInfo (env : Env) (st : state) : IO value * state :=
  let now := Date_now env in
  if cache_valid st now then (Effects.ret (diskCache st), st)
  else if String.eqb (platform env) "win32" then
    match exec env wmic_command with
    | (Ok output, t) =>
        let lines := skipn 1 (split LF (trim output)) in
        let disks := VArr (fold_left (wmic_line env) lines []) in
        ((Ok disks, t), {| diskCache := disks; diskCacheTime := now |})
    | (Throw message, t) =>
        ((Ok (VArr [failure "Failed to collect Windows disk information"
                            message]), t), st)
    end
  else
    match exec env "df -kP" with
    | (Ok output, t) =>
        let disks := VArr (parseDfOutput output) in
        ((Ok disks, t), {| diskCache := disks; diskCacheTime := now |})
    | (Throw message, t) => ((Ok (catch_payload message), t), st)
    end.

End Disk.

(* ================================================================== *)
(** ** [collectors/cpu.js] *)

Module Cpu.
Import JsString JsParse JsValue Effects.

(** The object stored in [lastCpuUsage]. *)
Record sample : Type := {
  total : jsnum;
  idle : jsnum;
  iowait : jsnum
}.

(** [let lastCpuUsage = null; let lastMeasureTime = null;] *)
Record state : Type := {
  lastCpuUsage : option sample;
  lastMeasureTime : option Z
}.

Definition initial : state :=
  {| lastCpuUsage := None; lastMeasureTime := None |}.

(** [lastCpuUsage && lastMeasureTime], and the sample when it holds. *)
Definition prior (st : state) : option sample :=
  match lastCpuUsage st, lastMeasureTime st with
  | Some s, Some t => if (t =? 0)%Z then None else Some s
  | _, _ => None
  end.

(** [arr.slice(1, 8)]. *)
Definition slice_1_8 {A} (l : list A) : list A := firstn 7 (skipn 1 l).

(** [a || 0]. *)
Definition or_zero (a : jsnum) : jsnum := if JsNum.truthy a then a else Num 0.

(** The first line of [/proc/stat], split at white space. *)
Definition cpuLine_of (cpuInfo : string) : list string :=
  split_ws (hd EmptyString (split LF (trim cpuInfo))).

(** The three numbers parsed from [/proc/stat]. *)
Definition read_sample (cpuInfo : string) : sample :=
  let cpuLine := cpuLine_of cpuInfo in
  {| total := fold_left (fun sum time => JsNum.add sum (parseInt (Some time)))
                        (slice_1_8 cpuLine) (Num 0);
     idle := parseInt (nth_error cpuLine 4);
     iowait := or_zero (parseInt (nth_error cpuLine 5)) |}.

Definition totalDiff_of (cur last : sample) : jsnum :=
  JsNum.sub (total cur) (total last).

Definition idleDiff_of (cur last : sample) : jsnum :=
  JsNum.sub (JsNum.add (idle cur) (iowait cur))
            (JsNum.add (idle last) (iowait last)).

(** [totalDiff > 0 ? ((totalDiff - idleDiff) / totalDiff) * 100 : 0]. *)
Definition delta_usage (cur last : sample) : jsnum :=
  let totalDiff := totalDiff_of cur last in
  let idleDiff := idleDiff_of cur last in
  if JsNum.gt totalDiff (Num 0)
  then JsNum.mul (JsNum.div (JsNum.sub totalDiff idleDiff) totalDiff)
                 (JsNum.of_Z 100)
  else Num 0.

(** [Math.max(0, Math.min(100, usage))]. *)
Definition clamp (usage : jsnum) : jsnum :=
  JsNum.max (Num 0) (JsNum.min (JsNum.of_Z 100) usage).

Definition load1 (env : Env) : jsnum :=
  let '(l1, _, _) := os_loadavg env in Num l1.

(** [Math.min(100, loadavg[0] * 10)]. *)
Definition load_fallback (env : Env) : jsnum :=
  JsNum.min (JsNum.of_Z 100) (JsNum.mul (load1 env) (JsNum.of_Z 10)).

(** [calculateCpuUsage()]. *)
Definition calculateCpuUsage (env : Env) (st : state) : IO jsnum * state :=
  if negb (String.eqb (platform env) "linux") then
    (Effects.ret (JsNum.mul (load1 env) (JsNum.of_Z 10)), st)
  else
    match readFile env "/proc/stat" with
    | (Ok cpuInfo, t) =>
        let cur := read_sample cpuInfo in
        let currentTime := Date_now env in
        let st' := {| lastCpuUsage := Some cur;
                      lastMeasureTime := Some currentTime |} in
        match prior st with
        | Some last => ((Ok (clamp (delta_usage cur last)), t), st')
        | None => ((Ok (load_fallback env), t), st')
        end
    | (Throw _, t) => ((Ok (load_fallback env), t), st)
    end.

Definition times_values (c : cpu_times) : list N :=
  [t_user c; t_nice c; t_sys c; t_idle c; t_irq c].

(** The callback of [cpus.map] that computes [coreUsage]. *)
Definition core_usage (cpu : cpu_info) : jsnum :=
  let times := cpu_times_of cpu in
  let total := fold_left (fun acc time => JsNum.add acc (JsNum.of_Z (Z.of_N time)))
                         (times_values times) (Num 0) in
  let idle := JsNum.of_Z (Z.of_N (t_idle times)) in
  let coreUsagePercent :=
    if JsNum.gt total (Num 0)
    then JsNum.mul (JsNum.div (JsNum.sub total idle) total) (JsNum.of_Z 100)
    else Num 0 in
  parseFloat (JsNum.toFixed 2 (JsNum.min (JsNum.of_Z 100) coreUsagePercent)).

Fixpoint coreUsage_from (index : nat) (cpus : list cpu_info)
  : list (nat * jsnum) :=
  match cpus with
  | [] => []
  | cpu :: rest => (index, core_usage cpu) :: coreUsage_from (S index) rest
  end.

Definition coreUsage_of (cpus : list cpu_info) : list (nat * jsnum) :=
  coreUsage_from 0 cpus.

Definition core_object (c : nat * jsnum) : value :=
  VObj [("core", VNum (JsNum.of_Z (Z.of_nat (fst c)))); ("usage", VNum (snd c))].

(** [if (usage === 0 && coreUsage.length > 0) usage = average]. *)
Definition with_core_average (usage : jsnum) (coreUsage : list (nat * jsnum))
  : jsnum :=
  if JsNum.strict_eq usage (Num 0) && (0 <? length coreUsage)%nat then
    let totalCoreUsage :=
      fold_left (fun sum core => JsNum.add sum (snd core)) coreUsage (Num 0) in
    JsNum.div totalCoreUsage (JsNum.of_Z (Z.of_nat (length coreUsage)))
  else usage.

Definition loadavg_values (env : Env) : list value :=
  let '(l1, l5, l15) := os_loadavg env in
  map (fun load => VNum (parseFloat (JsNum.toFixed 3 (Num load)))) [l1; l5; l15].

(** What the [catch] of [collectCpuInfo] returns. *)
Definition catch_payload (message : string) : value :=
  VObj [ ("error", VStr "Failed to collect CPU information");
         ("message", VStr message);
         ("usage", VNum (Num 0));
         ("loadavg", VArr [VNum (Num 0); VNum (Num 0); VNum (Num 0)]);
         ("cores", VNum (Num 0)) ].

(** [collectCpuInfo()]. *)
Definition collectCpuInfo (env : Env) (st : state) : IO value * state :=
  let cpus := os_cpus env in
  let '(measured, st') := calculateCpuUsage env st in
  ((try (usage0 <- measured ;;
         let coreUsage := coreUsage_of cpus in
         let usage := with_core_average usage0 coreUsage in
         Effects.ret
           (VObj [ ("usage", VNum (parseFloat (JsNum.toFixed 2 usage)));
                   ("loadavg", VArr (loadavg_values env));
                   ("cores", VNum (JsNum.of_Z (Z.of_nat (length cpus))));
                   ("model", match cpus with
                             | c :: _ => VStr (cpu_model c)
                             | [] => VStr "Unknown"
                             end);
                   ("speed", match cpus with
                             | c :: _ => VNum (JsNum.of_Z (Z.of_N (cpu_speed c)))
                             | [] => VNum (Num 0)
                             end);
                   ("coreUsage", VArr (map core_object coreUsage)) ]))
    catch message => Effects.ret (catch_payload message))%io,
   st').

End Cpu.

(* ================================================================== *)
(** ** Conversions of values *)

Module JsConv.
Import JsString JsValue Effects.

Fixpoint join (sep : string) (l : list string) : string :=
  match l with
  | [] => EmptyString
  | [s] => s
  | s :: rest => s ++ sep ++ join sep rest
  end.

(** [String(v)], as a template literal applies it. *)
Fixpoint to_string (env : Env) (v : value) : string :=
  match v with
  | VUndefined => "undefined"
  | VNull => "null"
  | VBool true => "true"
  | VBool false => "false"
  | VNum n => number_to_string env n
  | VStr s => s
  | VArr items =>
      join "," (map (fun x => match x with
                              | VUndefined | VNull => EmptyString
                              | _ => to_string env x
                              end) items)
  | VObj _ => "[object Object]"
  end.

(** [Number(v)], as an arithmetic operator applies it. *)
Definition to_number (env : Env) (v : value) : jsnum :=
  match v with
  | VUndefined => NaN
  | VNull => Num 0
  | VBool true => Num 1
  | VBool false => Num 0
  | VNum n => n
  | VStr s => JsParse.toNumber s
  | VArr _ => JsParse.toNumber (to_string env v)
  | VObj _ => NaN
  end.

(** [v.k] where [v] may be [null] or [undefined]: that throws. *)
Definition prop (env : Env) (v : value) (k : string) : IO value :=
  match v with
  | VUndefined | VNull =>
      (Throw ("Cannot read properties of " ++ to_string env v
              ++ " (reading '" ++ k ++ "')"), [])
  | _ => Effects.ret (JsValue.get v k)
  end.

(** An [Error] object, as far as this program reads it. *)
Definition error_object (message : string) : value :=
  VObj [("message", VStr message)].

End JsConv.

(* ================================================================== *)
(** ** [collectors/android.js] *)

Module Android.
Import JsString JsParse JsValue JsConv Effects.
Local Open Scope io_scope.
Local Open Scope string_scope.

(** [let androidCache = null; let androidCacheTime = 0;] *)
Record state : Type := {
  androidCache : value;
  androidCacheTime : Z
}.

Definition initial : state := {| androidCache := VNull; androidCacheTime := 0 |}.

Definition ANDROID_CACHE_TTL : Z := 5000.

Definition isTermuxApiAvailable (env : Env) : IO bool :=
  try (_ <- exec env "which termux-battery-status" ;; Effects.ret true)
  catch _e => Effects.ret false.

Definition failure (error message : string) : value :=
  VObj [("error", VStr error); ("message", VStr message)].

(** [x ? (x / divisor).toFixed(digits) : null]. *)
Definition scaled_or_null (env : Env) (x : value) (divisor : Z) (digits : nat)
  : value :=
  if JsValue.truthy x
  then VStr (JsNum.toFixed digits
               (JsNum.div (to_number env x) (JsNum.of_Z divisor)))
  else VNull.

Definition getBatteryInfo (env : Env) : IO value :=
  try (available <- isTermuxApiAvailable env ;;
       if negb available then
         Effects.ret (failure "Termux API not available"
                              "Install termux-api package and Termux:API app")
       else
         output <- exec env "termux-battery-status" ;;
         batteryData <- (JSON_parse env output, []) ;;
         percentage <- prop env batteryData "percentage" ;;
         let field := JsValue.get batteryData in
         Effects.ret
           (VObj [ ("level", percentage);
                   ("status", field "status");
                   ("health", field "health");
                   ("plugged", field "plugged");
                   ("temperature", field "temperature");
                   ("voltage", field "voltage");
                   ("current", JsValue.or_else (field "current") (VNum (Num 0)));
                   ("temperatureCelsius",
                    scaled_or_null env (field "temperature") 10 1);
                   ("voltageVolts",
                    scaled_or_null env (field "voltage") 1000 2) ]))
  catch message =>
    Effects.ret (failure "Failed to get battery information" message).

Definition thermal_dir : string := "/sys/class/thermal".

(** [((temp / 1000) * 9/5 + 32)]. *)
Definition fahrenheit (temp : jsnum) : jsnum :=
  JsNum.add
    (JsNum.div (JsNum.mul (JsNum.div temp (JsNum.of_Z 1000)) (JsNum.of_Z 9))
               (JsNum.of_Z 5))
    (JsNum.of_Z 32).

(** The body of the loop over the entries of [/sys/class/thermal]. *)
Definition thermal_zone (env : Env) (thermalData : list (string * value))
  (zone : string) : IO (list (string * value)) :=
  if startsWith zone "thermal_zone" then
    try (let tempPath : string := thermal_dir ++ "/" ++ zone ++ "/temp" in
         let typePath : string := thermal_dir ++ "/" ++ zone ++ "/type" in
         has_temp <- exists_ env tempPath ;;
         has_type <- (if has_temp then exists_ env typePath
                      else Effects.ret false) ;;
         if has_type then
           temp_text <- readFile env tempPath ;;
           let temp := parseInt (Some (trim temp_text)) in
           type_text <- readFile env typePath ;;
           let type := trim type_text in
           let tempCelsius :=
             JsNum.toFixed 1 (JsNum.div temp (JsNum.of_Z 1000)) in
           Effects.ret
             (JsValue.set type
                (VObj [ ("zone", VStr zone);
                        ("temperature", VNum temp);
                        ("temperatureCelsius", VStr tempCelsius);
                        ("temperatureFahrenheit",
                         VStr (JsNum.toFixed 1 (fahrenheit temp))) ])
                thermalData)
         else Effects.ret thermalData)
    catch _e => Effects.ret thermalData
  else Effects.ret thermalData.

Fixpoint thermal_zones (env : Env) (thermalData : list (string * value))
  (zones : list string) : IO (list (string * value)) :=
  match zones with
  | [] => Effects.ret thermalData
  | zone :: rest =>
      thermalData' <- thermal_zone env thermalData zone ;;
      thermal_zones env thermalData' rest
  end.

Definition count_of (fields : list (string * value)) : value :=
  VNum (JsNum.of_Z (Z.of_nat (length fields))).

Definition getThermalInfo (env : Env) : IO value :=
  try (present <- exists_ env thermal_dir ;;
       thermalData <- (if present then
                         thermalZones <- readdir env thermal_dir ;;
                         thermal_zones env [] thermalZones
                       else Effects.ret []) ;;
       termux <- (match thermalData with
                  | [] => isTermuxApiAvailable env
                  | _ => Effects.ret false
                  end) ;;
       if termux then
         Effects.ret
           (VObj [ ("message",
                    VStr "Thermal sensors not accessible via standard methods");
                   ("availableZones", VNum (Num 0)) ])
       else
         Effects.ret (VObj [ ("zones", VObj thermalData);
                             ("count", count_of thermalData) ]))
  catch message =>
    Effects.ret (VObj [ ("error", VStr "Failed to get thermal information");
                        ("message", VStr message);
                        ("zones", VObj []);
                        ("count", VNum (Num 0)) ]).

Definition getprop (env : Env) (name : string) : IO string :=
  output <- exec env ("getprop " ++ name) ;; Effects.ret (trim output).

Definition getDeviceInfo (env : Env) : IO value :=
  try (termux <- isTermuxApiAvailable env ;;
       deviceInfo1 <-
         (if termux then
            try (androidVersion <- getprop env "ro.build.version.release" ;;
                 deviceModel <- getprop env "ro.product.model" ;;
                 deviceBrand <- getprop env "ro.product.brand" ;;
                 Effects.ret [ ("androidVersion", VStr androidVersion);
                               ("model", VStr deviceModel);
                               ("brand", VStr deviceBrand) ])
            catch _e => Effects.ret []
          else Effects.ret []) ;;
       deviceInfo2 <-
         (try (present <- exists_ env "/proc/version" ;;
               if present then
                 version <- readFile env "/proc/version" ;;
                 Effects.ret (JsValue.set "kernelVersion" (VStr (trim version))
                                          deviceInfo1)
               else Effects.ret deviceInfo1)
          catch _e => Effects.ret deviceInfo1) ;;
       Effects.ret (VObj deviceInfo2))
  catch message =>
    Effects.ret (failure "Failed to get device information" message).

(** An element of the array that [Promise.allSettled] resolves to. *)
Definition settled_value (r : res value) : value :=
  match r with
  | Ok v => v
  | Throw message => VObj [("error", error_object message)]
  end.

(** A call suspended at [await Promise.allSettled([...])]: the [now] it
    captured and what the three sub-probes settled to. *)
Record pending : Type := {
  now_of : Z;
  battery_of : res value;
  thermal_of : res value;
  device_of : res value
}.

Inductive started : Type :=
| Returned (v : value)
| Awaiting (p : pending).

(** What the [catch] of [collectAndroidInfo] returns. *)
Definition catch_payload (message : string) : value :=
  VObj [ ("available", VBool false);
         ("error", VStr "Failed to collect Android information");
         ("message", VStr message) ].

Definition cache_valid (st : state) (now : Z) : bool :=
  JsValue.truthy (androidCache st) &&
  (now - androidCacheTime st <? ANDROID_CACHE_TTL)%Z.

(** [collectAndroidInfo()] up to its [await]: the cache test, the
    platform test and the start of the three sub-probes, whose bodies run
    synchronously when they are called. *)
Definition collectAndroidInfo_start (env : Env) (st : state)
  : started * list call :=
  let now := Date_now env in
  if cache_valid st now then (Returned (androidCache st), [])
  else if negb (String.eqb (platform env) "linux") then
    (Returned (VObj [ ("available", VBool false);
                      ("reason", VStr ("Android features not available on "
                                       ++ platform env)) ]), [])
  else
    let '(battery, t1) := getBatteryInfo env in
    let '(thermal, t2) := getThermalInfo env in
    let '(device, t3) := getDeviceInfo env in
    (Awaiting {| now_of := now; battery_of := battery;
                 thermal_of := thermal; device_of := device |},
     (t1 ++ t2 ++ t3)%list).

(** [collectAndroidInfo()] from its [await] on; [st] is the module state
    at that moment. *)
Definition collectAndroidInfo_resume (env : Env) (p : pending) (st : state)
  : IO value * state :=
  match isTermuxApiAvailable env with
  | (Ok termuxApi, t) =>
      let result :=
        VObj [ ("available", VBool true);
               ("termuxApi", VBool termuxApi);
               ("battery", settled_value (battery_of p));
               ("thermal", settled_value (thermal_of p));
               ("device", settled_value (device_of p));
               ("timestamp", VStr (Date_toISOString env)) ] in
      ((Ok result, t),
       {| androidCache := result; androidCacheTime := now_of p |})
  | (Throw message, t) => ((Ok (catch_payload message), t), st)
  end.

(** [collectAndroidInfo()] run to completion, nothing else running
    between its two parts. *)
Definition collectAndroidInfo (env : Env) (st : state) : IO value * state :=
  match collectAndroidInfo_start env st with
  | (Returned v, t) => ((Ok v, t), st)
  | (Awaiting p, t) =>
      let '((r, t'), st') := collectAndroidInfo_resume env p st in
      ((r, (t ++ t')%list), st')
  end.

End Android.

(* ================================================================== *)
(** ** [collectors/network.js] *)

Module Network.
Import JsString JsParse JsValue JsConv Effects.
Local Open Scope io_scope.

(** [let networkCache = null; let networkCacheTime = 0;] *)
Record state : Type := {
  networkCache : value;
  networkCacheTime : Z
}.

Definition initial : state := {| networkCache := VNull; networkCacheTime := 0 |}.

Definition NETWORK_CACHE_TTL : Z := 2000.

Record counters : Type := {
  bytes : jsnum; packets : jsnum; errors : jsnum; dropped : jsnum
}.

Record stats : Type := { rx : counters; tx : counters }.

(** [interfaces[name] = s]: an existing name keeps its place, a new one
    goes last; the name [__proto__] reaches the accessor of
    [Object.prototype] and records nothing. *)
Fixpoint put (name : string) (s : stats) (interfaces : list (string * stats))
  : list (string * stats) :=
  match interfaces with
  | [] => if String.eqb name "__proto__" then [] else [(name, s)]
  | (n, s') :: rest =>
      if String.eqb n name then (name, s) :: rest
      else (n, s') :: put name s rest
  end.

Definition field (parts : list string) (i : nat) : jsnum :=
  parseInt (nth_error parts i).

(** The body of the loop over the lines of [/proc/net/dev]. *)
Definition proc_net_dev_line (interfaces : list (string * stats))
  (line : string) : list (string * stats) :=
  let parts := split_ws (trim line) in
  if (17 <=? length parts)%nat then
    let interfaceName := remove_first ":" (nth 0 parts EmptyString) in
    if String.eqb interfaceName "lo" || String.eqb (nth 1 parts EmptyString) "0"
    then interfaces
    else put interfaceName
           {| rx := {| bytes := field parts 1; packets := field parts 2;
                       errors := field parts 3; dropped := field parts 4 |};
              tx := {| bytes := field parts 9; packets := field parts 10;
                       errors := field parts 11; dropped := field parts 12 |} |}
           interfaces
  else interfaces.

Definition parseLinuxNetworkStats (env : Env) : IO (list (string * stats)) :=
  try (data <- readFile env "/proc/net/dev" ;;
       let lines := skipn 2 (split LF (trim data)) in
       Effects.ret (fold_left proc_net_dev_line lines []))
  catch _e => Effects.ret [].

Definition zero_counters : counters :=
  {| bytes := Num 0; packets := Num 0; errors := Num 0; dropped := Num 0 |}.

Definition default_stats (rx_bytes : jsnum) : list (string * stats) :=
  [("default", {| rx := {| bytes := rx_bytes; packets := Num 0;
                           errors := Num 0; dropped := Num 0 |};
                  tx := zero_counters |})].

(** The body of the loop over the lines of the [netstat -e] output:
    [stats.default.rx.bytes] after [line]. *)
Definition netstat_line (rx_bytes : jsnum) (line : string) : jsnum :=
  if includes line "Bytes" then
    let parts := split_ws (trim line) in
    if (2 <=? length parts)%nat
    then JsNum.add rx_bytes (Cpu.or_zero (field parts 1))
    else rx_bytes
  else rx_bytes.

Definition parseWindowsNetworkStats (env : Env)
  : IO (list (string * stats)) :=
  try (output <- exec env "netstat -e" ;;
       let lines := split LF (trim output) in
       Effects.ret (default_stats (fold_left netstat_line lines (Num 0))))
  catch _e => Effects.ret (default_stats (Num 0)).

Definition units : list string := ["B"; "KB"; "MB"; "GB"; "TB"].

Definition formatBytes (b : jsnum) : string :=
  if JsNum.strict_eq b (Num 0) then "0 B"
  else
    let '(size, unitIndex) := Disk.formatSize_loop (length units - 1) b 0 in
    (JsNum.toFixed 1 size ++ " " ++ nth unitIndex units "undefined")%string.

Definition formatted (s : stats) : value :=
  let side (c : counters) :=
    VObj [ ("bytes", VNum (bytes c));
           ("bytesFormatted", VStr (formatBytes (bytes c)));
           ("packets", VNum (packets c));
           ("errors", VNum (errors c));
           ("dropped", VNum (dropped c)) ] in
  let total_bytes := JsNum.add (bytes (rx s)) (bytes (tx s)) in
  VObj [ ("rx", side (rx s));
         ("tx", side (tx s));
         ("total",
          VObj [ ("bytes", VNum total_bytes);
                 ("bytesFormatted", VStr (formatBytes total_bytes));
                 ("packets", VNum (JsNum.add (packets (rx s))
                                             (packets (tx s)))) ]) ].

(** What the [catch] of [collectNetworkInfo] returns. *)
Definition catch_payload (message : string) : value :=
  VObj [ ("error", VStr "Failed to collect network information");
         ("message", VStr message) ].

Definition cache_valid (st : state) (now : Z) : bool :=
  JsValue.truthy (networkCache st) &&
  (now - networkCacheTime st <? NETWORK_CACHE_TTL)%Z.

(** [collectNetworkInfo()]. *)
Definition collectNetworkInfo (env : Env) (st : state) : IO value * state :=
  let now := Date_now env in
  if cache_valid st now then (Effects.ret (networkCache st), st)
  else
    let read :=
      if String.eqb (platform env) "linux" then parseLinuxNetworkStats env
      else if String.eqb (platform env) "win32"
           then parseWindowsNetworkStats env
           else Effects.ret [] in
    match read with
    | (Ok interfaces, t) =>
        let formattedInterfaces :=
          VObj (fold_left
                  (fun acc entry => JsValue.set (fst entry)
                                                (formatted (snd entry)) acc)
                  interfaces []) in
        ((Ok formattedInterfaces, t),
         {| networkCache := formattedInterfaces; networkCacheTime := now |})
    | (Throw message, t) => ((Ok (catch_payload message), t), st)
    end.

End Network.

(* ================================================================== *)
(** ** [collectors/host.js] and [collectors/memory.js] *)

Module Host.
Import JsValue Effects.

(** What the [catch] of [collectHostInfo] returns. *)
Definition catch_payload (message : string) : value :=
  VObj [ ("error", VStr "Failed to collect host information");
         ("message", VStr message) ].

(** [collectHostInfo()]; nothing that it calls throws in this model, so
    its [catch] never runs. *)
Definition collectHostInfo (env : Env) : IO value :=
  Effects.try_catch
    (Effects.ret
       (VObj [ ("hostname", VStr (os_hostname env));
               ("platform", VStr (platform env));
               ("arch", VStr (os_arch env));
               ("release", VStr (os_release env));
               ("type", VStr (os_type env));
               ("uptime", VNum (JsNum.floor (Num (os_uptime env))));
               ("nodeVersion", VStr (process_version env));
               ("cpuCount",
                VNum (JsNum.of_Z (Z.of_nat (length (os_cpus env))))) ]))
    (fun message => Effects.ret (catch_payload message)).

End Host.

Module Memory.
Import JsValue Effects.

Definition divided (x : jsnum) (times : nat) : jsnum :=
  Nat.iter times (fun y => JsNum.div y (JsNum.of_Z 1024)) x.

(** What the [catch] of [collectMemoryInfo] returns. *)
Definition catch_payload (message : string) : value :=
  VObj [ ("error", VStr "Failed to collect memory information");
         ("message", VStr message) ].

(** [collectMemoryInfo()]. *)
Definition collectMemoryInfo (env : Env) : IO value :=
  Effects.try_catch
    (let totalMem := JsNum.of_Z (Z.of_N (os_totalmem env)) in
     let freeMem := JsNum.of_Z (Z.of_N (os_freemem env)) in
     let usedMem := JsNum.sub totalMem freeMem in
     let fixed2 x := VStr (JsNum.toFixed 2 x) in
     Effects.ret
       (VObj [ ("total", VNum totalMem);
               ("used", VNum usedMem);
               ("free", VNum freeMem);
               ("usage",
                if JsNum.gt totalMem (Num 0)
                then fixed2 (JsNum.mul (JsNum.div usedMem totalMem)
                                       (JsNum.of_Z 100))
                else VNum (Num 0));
               ("totalMB", fixed2 (divided totalMem 2));
               ("usedMB", fixed2 (divided usedMem 2));
               ("freeMB", fixed2 (divided freeMem 2));
               ("totalGB", fixed2 (divided totalMem 3));
               ("usedGB", fixed2 (divided usedMem 3));
               ("freeGB", fixed2 (divided freeMem 3)) ]))
    (fun message => Effects.ret (catch_payload message)).

End Memory.

(* ================================================================== *)
(** ** [index.js]: the [GET /api/metrics] handler *)

Module Server.
Import JsString JsValue JsConv Effects.

(** An element of the array that [Promise.allSettled] resolves to. *)
Inductive settled : Type :=
| Fulfilled (v : value)
| Rejected (reason : value).

Definition settle (r : res value) : settled :=
  match r with
  | Ok v => Fulfilled v
  | Throw message => Rejected (error_object message)
  end.

(** [s.status === 'fulfilled' ? s.value :
     { error, message: s.reason?.message || 'Unknown error' }]. *)
Definition slot (s : settled) (error : string) : value :=
  match s with
  | Fulfilled v => v
  | Rejected reason =>
      VObj [ ("error", VStr error);
             ("message", JsValue.or_else (JsValue.get reason "message")
                                         (VStr "Unknown error")) ]
  end.

(** The six results, in the order of the array given to
    [Promise.allSettled]. *)
Record results : Type := {
  host : settled;
  memory : settled;
  cpu : settled;
  disk : settled;
  network : settled;
  android : settled
}.

(** The object literal [metrics], before [meta] is added. *)
Definition metrics_of (env : Env) (r : results) : list (string * value) :=
  [ ("timestamp", VStr (Date_toISOString env));
    ("collectionTimeMs",
     VNum (JsNum.of_Z (Date_now_settled env - Date_now env)));
    ("host", slot (host r) "Failed to collect host info");
    ("memory", slot (memory r) "Failed to collect memory info");
    ("cpu", slot (cpu r) "Failed to collect CPU info");
    ("disk", slot (disk r) "Failed to collect disk info");
    ("network", slot (network r) "Failed to collect network info");
    ("android", slot (android r) "Failed to collect Android info") ].

(** The callback of [Object.keys(metrics).forEach]: [warnings] after the
    key of [entry]. *)
Definition check_key (env : Env) (warnings : list string)
  (entry : string * value) : list string :=
  let '(key, v) := entry in
  if negb (String.eqb key "timestamp")
     && negb (String.eqb key "collectionTimeMs")
     && JsValue.truthy (JsValue.get v "error")
  then warnings ++ [(key ++ ": " ++ to_string env (JsValue.get v "error"))%string]
  else warnings.

Definition warnings_of (env : Env) (metrics : list (string * value))
  : list string :=
  fold_left (check_key env) metrics [].

Definition meta_of (env : Env) (warnings : list string) : value :=
  VObj [ ("server",
          VObj [ ("platform", VStr (platform env));
                 ("nodeVersion", VStr (process_version env));
                 ("uptime", VNum (Num (process_uptime env)));
                 ("memoryUsage", process_memoryUsage env);
                 ("pid", VNum (JsNum.of_Z (Z.of_N (process_pid env)))) ]);
         ("warnings", if (0 <? length warnings)%nat
                      then VArr (map VStr warnings) else VUndefined);
         ("status", if (length warnings =? 0)%nat
                    then VStr "ok" else VStr "partial") ].

(** The body given to [res.json] once the six promises are settled. *)
Definition respond (env : Env) (r : results) : value :=
  let metrics := metrics_of env r in
  let warnings := warnings_of env metrics in
  VObj (JsValue.set "meta" (meta_of env warnings) metrics).

(** The module states of the collectors that have one. *)
Record state : Type := {
  cpu_state : Cpu.state;
  disk_state : Disk.state;
  network_state : Network.state;
  android_state : Android.state
}.

Definition initial : state :=
  {| cpu_state := Cpu.initial; disk_state := Disk.initial;
     network_state := Network.initial; android_state := Android.initial |}.

(** One [GET /api/metrics]: the six collectors are called in the order
    of the array; each runs up to its first [await], and what runs after
    an [await] touches only that collector's own state. *)
Definition metrics_handler (env : Env) (st : state)
  : value * list call * state :=
  let '(h, t1) := Host.collectHostInfo env in
  let '(m, t2) := Memory.collectMemoryInfo env in
  let '((c, t3), cs) := Cpu.collectCpuInfo env (cpu_state st) in
  let '((d, t4), ds) := Disk.collectDiskInfo env (disk_state st) in
  let '((n, t5), ns) := Network.collectNetworkInfo env (network_state st) in
  let '((a, t6), ans) := Android.collectAndroidInfo env (android_state st) in
  (respond env {| host := settle h; memory := settle m; cpu := settle c;
                  disk := settle d; network := settle n; android := settle a |},
   t1 ++ t2 ++ t3 ++ t4 ++ t5 ++ t6,
   {| cpu_state := cs; disk_state := ds; network_state := ns;
      android_state := ans |}).

(** What a response tells: [meta.status] and [meta.warnings]. *)
Definition status_of (response : value) : value :=
  JsValue.get (JsValue.get response "meta") "status".

Definition warnings_in (response : value) : value :=
  JsValue.get (JsValue.get response "meta") "warnings".

End Server.

(* ================================================================== *)
(** ** [index.js]: the authentication middleware *)

Module Auth.
Import JsString JsValue.

(** What a middleware does with a request: it calls [next()] or it sends
    a response. *)
Inductive decision : Type :=
| Next
| Respond (status : N) (body : value).

Definition unauthorized : decision :=
  Respond 401 (VObj [("error", VStr "Unauthorized")]).

(** [authHeader && authHeader.split(' ')[1]]; [None] is [undefined]. *)
Definition token_of (authHeader : option string) : option string :=
  match authHeader with
  | None => None
  | Some h => if is_empty h then Some h else nth_error (split " " h) 1
  end.

(** [authenticateToken(req, res, next)]: [AUTH_TOKEN] is
    [process.env.AUTH_TOKEN] and [authorization] is
    [req.headers['authorization']], [None] when not set. *)
Definition authenticateToken (AUTH_TOKEN authorization : option string)
  : decision :=
  match AUTH_TOKEN with
  | None => Next
  | Some authToken =>
      if is_empty authToken then Next
      else match token_of authorization with
           | None => unauthorized
           | Some token =>
               if is_empty token || negb (String.eqb token authToken)
               then unauthorized
               else Next
           end
  end.

End Auth.

(* ================================================================== *)
(** ** Concrete hosts *)

Module Samples.
Import JsString JsValue Effects.
Local Open Scope string_scope.

Definition nl : string := String LF EmptyString.

Definition df_output : string :=
  "Filesystem     1024-blocks     Used Available Capacity Mounted on" ++ nl ++
  "/dev/sda1         61255492 12345678  45678901      22% /" ++ nl ++
  "tmpfs              8123456   812345   7311111      10% /dev/shm" ++ nl.

(** A [df -kP] listing of a container host: its root is an overlay
    mount. *)
Definition df_overlay : string :=
  "Filesystem     1024-blocks     Used Available Capacity Mounted on" ++ nl ++
  "overlay           61255492 12345678  45678901      22% /" ++ nl ++
  "tmpfs              8123456   812345   7311111      10% /dev/shm" ++ nl.

(** [/proc/stat] with idle = 100, iowait = 0, total = 1000. *)
Definition stat_1000 : string :=
  "cpu  900 0 0 100 0 0 0 0 0 0" ++ nl ++ "cpu0 900 0 0 100 0 0 0 0 0 0" ++ nl.

(** [/proc/stat] with idle = 150, iowait = 0, total = 1100. *)
Definition stat_1100 : string :=
  "cpu  950 0 0 150 0 0 0 0 0 0" ++ nl ++ "cpu0 950 0 0 150 0 0 0 0 0 0" ++ nl.

(** [/proc/stat] with idle = 50, iowait = 0, total = 900: counters
    that went back. *)
Definition stat_900 : string :=
  "cpu  850 0 0 50 0 0 0 0 0 0" ++ nl ++ "cpu0 850 0 0 50 0 0 0 0 0 0" ++ nl.

Definition one_core : list cpu_info :=
  [ {| cpu_model := "Cortex-A76"; cpu_speed := 1800;
       cpu_times_of := {| t_user := 900; t_nice := 0; t_sys := 0;
                          t_idle := 100; t_irq := 0 |} |} ].

(** A host: its platform, its clock, its load average, what [df -kP]
    answers and what [/proc/stat] holds.  No Termux tool is installed and
    no other file exists. *)
Definition host (platform_name : string) (now : Z) (load : Q)
  (df : res string) (stat : res string) : Env :=
  {| Effects.Date_now := now;
     Effects.Date_now_settled := now + 12;
     Effects.Date_toISOString := "2024-01-01T00:00:00.000Z";
     Effects.platform := platform_name;
     Effects.execSync := fun command =>
       if String.eqb command "df -kP" then df
       else Throw ("Command failed: " ++ command);
     Effects.readFileSync := fun path =>
       if String.eqb path "/proc/stat" then stat
       else Throw ("ENOENT: no such file or directory, open '" ++ path ++ "'");
     Effects.existsSync := fun _ => false;
     Effects.readdirSync := fun path =>
       Throw ("ENOENT: no such file or directory, scandir '" ++ path ++ "'");
     Effects.JSON_parse := fun _ => Throw "Unexpected end of JSON input";
     Effects.Number_toString := fun _ => EmptyString;
     Effects.os_loadavg := (load, load, load);
     Effects.os_cpus := one_core;
     Effects.os_hostname := "tablet";
     Effects.os_arch := "arm64";
     Effects.os_release := "5.10.0";
     Effects.os_type := "Linux";
     Effects.os_uptime := (12345 # 10)%Q;
     Effects.os_totalmem := 4000000000;
     Effects.os_freemem := 1000000000;
     Effects.process_version := "v18.19.0";
     Effects.process_uptime := (10 # 1)%Q;
     Effects.process_memoryUsage := VObj [];
     Effects.process_pid := 4242 |}.

Definition df_fails : res string := Throw "Command failed: df -kP".
Definition stat_missing : res string :=
  Throw "ENOENT: no such file or directory, open '/proc/stat'".

Definition half : Q := (1 # 2)%Q.

End Samples.

(* ================================================================== *)
(** * Vocabulary of the properties *)

Module DiskSpec.
Import JsString JsValue.

(** The pseudo-filesystems as the specification enumerates them: tmpfs,
    overlay mounts, and the virtual kernel mounts [/sys] and [/proc]. *)
Definition enumerated_pseudo (filesystem mountpoint : string) : bool :=
  startsWith filesystem "tmpfs" ||
  startsWith filesystem "overlay" ||
  startsWith mountpoint "/sys" ||
  startsWith mountpoint "/proc".

(** An entry whose filesystem and mountpoint the loop does not skip. *)
Definition listed (d : value) : Prop :=
  exists filesystem mountpoint,
    JsValue.get d "filesystem" = VStr filesystem /\
    JsValue.get d "mountpoint" = VStr mountpoint /\
    Disk.is_special filesystem mountpoint = false.

End DiskSpec.

Module NumSpec.
Local Open Scope Q_scope.

(** A number that is not an infinity. *)
Definition finite_or_nan (a : jsnum) : Prop :=
  match a with
  | NaN | Num _ => True
  | _ => False
  end.

(** [q] rounded to [d] decimals, halves away from zero. *)
Definition rounded (d : nat) (q : Q) : Q :=
  let p := inject_Z (10 ^ Z.of_nat d) in
  if JsNum.Qltb q 0 then - (inject_Z (Z.of_N (JsNum.scaled d (- q))) / p)
  else inject_Z (Z.of_N (JsNum.scaled d q)) / p.

(** The value of the digits of [u], read after the digits of [acc]. *)
Fixpoint uint_value (acc : N) (u : Decimal.uint) : N :=
  match u with
  | Decimal.Nil => acc
  | Decimal.D0 l => uint_value (acc * 10 + 0) l
  | Decimal.D1 l => uint_value (acc * 10 + 1) l
  | Decimal.D2 l => uint_value (acc * 10 + 2) l
  | Decimal.D3 l => uint_value (acc * 10 + 3) l
  | Decimal.D4 l => uint_value (acc * 10 + 4) l
  | Decimal.D5 l => uint_value (acc * 10 + 5) l
  | Decimal.D6 l => uint_value (acc * 10 + 6) l
  | Decimal.D7 l => uint_value (acc * 10 + 7) l
  | Decimal.D8 l => uint_value (acc * 10 + 8) l
  | Decimal.D9 l => uint_value (acc * 10 + 9) l
  end%N.

End NumSpec.

Module CpuSpec.
Import JsNum.

(** A number brought into the range [0, 100]: itself when it lies in the
    range, else the nearer end of the range. *)
Definition clamped (x : jsnum) : jsnum :=
  match x with
  | NaN => NaN
  | PInf => Num 100
  | NInf => Num 0
  | Num q =>
      if Qle_bool q 0 then Num 0
      else if Qle_bool 100 q then Num 100
      else Num q
  end.

(** The usage as the specification words it:
    [100 * (1 - idleDelta / totalDelta)] clamped to [0, 100]. *)
Definition formula_usage (idleDelta totalDelta : jsnum) : jsnum :=
  clamped (mul (of_Z 100) (sub (Num 1) (div idleDelta totalDelta))).

(** The idle delta with the I/O-wait ticks counted as idle, and the total
    delta, of two samples. *)
Definition idleDelta (cur last : Cpu.sample) : jsnum :=
  sub (add (Cpu.idle cur) (Cpu.iowait cur))
      (add (Cpu.idle last) (Cpu.iowait last)).

Definition totalDelta (cur last : Cpu.sample) : jsnum :=
  sub (Cpu.total cur) (Cpu.total last).

(** The fallback as the specification words it:
    [min(100, loadAverage1min * 10)]. *)
Definition formula_fallback (env : Env) : jsnum :=
  min (of_Z 100) (mul (Cpu.load1 env) (of_Z 10)).

(** A finite number between 0 and 100. *)
Definition in_percent_range (a : jsnum) : Prop :=
  match a with
  | Num q => (0 <= q /\ q <= 100)%Q
  | _ => False
  end.

(** The sum of the tick counts of a core. *)
Definition ticks (cpu : Effects.cpu_info) : N :=
  fold_left N.add (Cpu.times_values (Effects.cpu_times_of cpu)) 0%N.

End CpuSpec.

Module AndroidSpec.
Import JsValue Effects.

(** Successive calls of [collectAndroidInfo()], the first one in state
    [st], each on the host as it is at that moment: what they return and
    the calls they make. *)
Fixpoint successive_calls (hosts : list Env) (st : Android.state)
  : list (IO value) :=
  match hosts with
  | [] => []
  | env :: rest =>
      let '(r, st') := Android.collectAndroidInfo env st in
      r :: successive_calls rest st'
  end.

(** The object [{ available: false, reason }]. *)
Definition unavailable (reason : string) : value :=
  VObj [("available", VBool false); ("reason", VStr reason)].








End AndroidSpec.

Module StringSpec.
Import JsString.

(** A string without white space. *)
Fixpoint ws_free (s : string) : bool :=
  match s with
  | EmptyString => true
  | String c s' => negb (is_ws c) && ws_free s'
  end.

(** A column of a listing: not empty, no white space. *)
Definition is_token (s : string) : bool := negb (is_empty s) && ws_free s.

(** A string without the character [c]. *)
Fixpoint free_of (c : ascii) (s : string) : bool :=
  match s with
  | EmptyString => true
  | String a s' => negb (Ascii.eqb a c) && free_of c s'
  end.

(** A row of a columnar listing: every column but the last is followed
    by one blank and [n] more. *)
Fixpoint layout (first : string) (others : list (nat * string)) : string :=
  match others with
  | [] => first
  | (n, col) :: rest =>
      first ++ String " " (repeat_char " " n) ++ layout col rest
  end.

(** The lines of a text, each followed by a line feed. *)
Fixpoint unlines (lines : list string) : string :=
  match lines with
  | [] => EmptyString
  | l :: rest => l ++ String LF (unlines rest)
  end.

End StringSpec.

Module ParseSpec.
Import JsString JsNum StringSpec.

(** The first line of [/proc/stat] as the kernel prints it: [cpu], two
    blanks, and the counters separated by one blank. *)
Definition stat_line (counters : list N) : string :=
  layout "cpu"
    match counters with
    | [] => []
    | c :: cs => (1%nat, digits_of_N c) :: map (fun n => (0%nat, digits_of_N n)) cs
    end.

(** A line of [df -kP]: six columns, the fifth a percentage; [gap i] is
    the number of additional blanks after column [i]. *)
Definition df_row (gap : nat -> nat) (filesystem : string)
  (size used available capacity : N) (mountpoint : string) : string :=
  layout filesystem
    [ (gap 0%nat, digits_of_N size);
      (gap 1%nat, digits_of_N used);
      (gap 2%nat, digits_of_N available);
      (gap 3%nat, (digits_of_N capacity ++ "%")%string);
      (gap 4%nat, mountpoint) ].

(** A count below 2^53: a whole number that a JavaScript number holds
    as it is, and that [parseInt] returns as it is. *)
Definition exact (n : N) : bool := (n <? 2 ^ 53)%N.

(** A line of [/proc/net/dev]: the indented name of the interface with
    its colon, then the counters, each after one blank and [fst] more. *)
Definition net_dev_row (indent : nat) (name : string)
  (counters : list (nat * N)) : string :=
  (repeat_char " " indent
   ++ layout (name ++ ":")
        (map (fun c => (fst c, digits_of_N (snd c))) counters))%string.

(** The counter of column [i] of such a line, as a number. *)
Definition counter (counters : list (nat * N)) (i : nat) : jsnum :=
  of_Z (Z.of_N (snd (nth i counters (0%nat, 0%N)))).

End ParseSpec.

Module CacheSpec.
Import Effects.

(** The command that [collectDiskInfo] runs on the platform of [env]. *)
Definition disk_command (env : Env) : string :=
  if String.eqb (platform env) "win32" then Disk.wmic_command else "df -kP".

End CacheSpec.

Module UsageSpec.
Import JsValue.

(** A usage as the CPU probe may report it: [NaN], or a number between 0
    and 100. *)
Definition nan_or_percent (a : jsnum) : Prop :=
  a = NaN \/ CpuSpec.in_percent_range a.

(** The [usage] of the value that the CPU probe returns. *)
Definition usage_of (v : value) : option jsnum :=
  match JsValue.get v "usage" with
  | VNum n => Some n
  | _ => None
  end.

End UsageSpec.

Module ProbeSpec.
Import JsValue Effects.

(** The command by which the Android probe looks for the Termux tool. *)
Definition which : string := "which termux-battery-status".

(** What the Android cache holds from the start of the process on:
    nothing, or an object without an [error] key. *)
Definition sound_cache (st : Android.state) : Prop :=
  Android.androidCache st = VNull \/
  exists fields, Android.androidCache st = VObj fields /\
                 JsValue.assoc "error" fields = VUndefined.

(** The host [env] with a thermal directory that exists and cannot be
    listed. *)
Definition with_locked_thermal (env : Env) : Env :=
  {| Effects.Date_now := Effects.Date_now env;
     Effects.Date_now_settled := Effects.Date_now_settled env;
     Effects.Date_toISOString := Effects.Date_toISOString env;
     Effects.platform := Effects.platform env;
     Effects.execSync := Effects.execSync env;
     Effects.readFileSync := Effects.readFileSync env;
     Effects.existsSync := fun path =>
       String.eqb path Android.thermal_dir || Effects.existsSync env path;
     Effects.readdirSync := fun path =>
       if String.eqb path Android.thermal_dir
       then Throw "EACCES: permission denied, scandir '/sys/class/thermal'"
       else Effects.readdirSync env path;
     Effects.JSON_parse := Effects.JSON_parse env;
     Effects.Number_toString := Effects.Number_toString env;
     Effects.os_loadavg := Effects.os_loadavg env;
     Effects.os_cpus := Effects.os_cpus env;
     Effects.os_hostname := Effects.os_hostname env;
     Effects.os_arch := Effects.os_arch env;
     Effects.os_release := Effects.os_release env;
     Effects.os_type := Effects.os_type env;
     Effects.os_uptime := Effects.os_uptime env;
     Effects.os_totalmem := Effects.os_totalmem env;
     Effects.os_freemem := Effects.os_freemem env;
     Effects.process_version := Effects.process_version env;
     Effects.process_uptime := Effects.process_uptime env;
     Effects.process_memoryUsage := Effects.process_memoryUsage env;
     Effects.process_pid := Effects.process_pid env |}.

End ProbeSpec.

Module NetworkSpec.

(** Names are distinct and none is [lo] or [__proto__]. *)
Definition well_named (names : list string) : Prop :=
  NoDup names /\ ~ In "lo"%string names /\ ~ In "__proto__"%string names.

(** The counter [name] of the side [side] ([rx], [tx] or [total]) of a
    reported interface. *)
Definition reported (entry : JsValue.value) (side name : string)
  : JsValue.value :=
  JsValue.get (JsValue.get entry side) name.

End NetworkSpec.

Module ResponseSpec.
Import JsValue Server.

(** Does a slot raise a warning? *)
Definition warns (s : settled) : bool :=
  match s with
  | Fulfilled v => JsValue.truthy (JsValue.get v "error")
  | Rejected _ => true
  end.

(** The six slots of a request, in the order of the response. *)
Definition slots (r : results) : list settled :=
  [host r; memory r; cpu r; disk r; network r; android r].

End ResponseSpec.
(* ================================================================== *)
(** * Properties *)

(** ** The disk probe's denylist *)

Module DiskFacts.
Import JsString JsParse JsValue Effects DiskSpec.

Lemma parseDfOutput_line_special disks line fs size used avail usage mp rest :
  split_ws (trim line) = fs :: size :: used :: avail :: usage :: mp :: rest ->
  Disk.is_special fs mp = true ->
  Disk.parseDfOutput_line disks line = disks.
Proof.
  intros Hparts Hspecial. unfold Disk.parseDfOutput_line.
  rewrite Hparts, Hspecial. now destruct (6 <=? _)%nat.
Qed.

Lemma parseDfOutput_line_listed disks line :
  Forall listed disks -> Forall listed (Disk.parseDfOutput_line disks line).
Proof.
  intros Hdisks. unfold Disk.parseDfOutput_line.
  destruct (6 <=? _)%nat; [|assumption].
  destruct (split_ws (trim line)) as [|fs [|size [|used [|avail [|usage [|mp rest]]]]]];
    try assumption.
  destruct (Disk.is_special fs mp) eqn:Hspecial; [assumption|].
  apply Forall_app. split; [assumption|].
  constructor; [|constructor].
  exists fs, mp. repeat split; try reflexivity. exact Hspecial.
Qed.

Lemma fold_parseDfOutput_line_listed lines : forall disks,
  Forall listed disks ->
  Forall listed (fold_left Disk.parseDfOutput_line lines disks).
Proof.
  induction lines as [|line lines IH]; intros disks Hdisks; simpl.
  - assumption.
  - apply IH. now apply parseDfOutput_line_listed.
Qed.

(** C7 (as amended).  Whatever [df] printed, no entry of the parsed
    result carries a filesystem or a mountpoint that [parseDfOutput]
    skips (a filesystem starting with [tmpfs], [udev] or [/dev/loop], a
    mountpoint starting with [/snap/], [/sys], [/proc] or [/run]); and a
    line of the listing with such a filesystem or mountpoint contributes
    nothing: the result is the one of the listing without that line,
    whatever its size, used, available and usage columns say. *)
Theorem parseDfOutput_excludes_special (output : string) :
  Forall listed (Disk.parseDfOutput output) /\
  (forall before line after fs size used avail usage mp rest,
     skipn 1 (split LF (trim output)) = before ++ line :: after ->
     split_ws (trim line) = fs :: size :: used :: avail :: usage :: mp :: rest ->
     Disk.is_special fs mp = true ->
     Disk.parseDfOutput output = Disk.parseDfOutput_lines (before ++ after)).
Proof.
  split.
  - apply fold_parseDfOutput_line_listed. constructor.
  - intros before line after fs size used avail usage mp rest Hlines Hparts Hsp.
    unfold Disk.parseDfOutput, Disk.parseDfOutput_lines.
    rewrite Hlines, !fold_left_app. simpl.
    now rewrite (parseDfOutput_line_special _ _ _ _ _ _ _ _ _ Hparts Hsp).
Qed.

(** The [tmpfs] line of [Samples.df_output] is such a line. *)
Lemma parseDfOutput_excludes_special_witness :
  Disk.parseDfOutput Samples.df_output =
  Disk.parseDfOutput_lines
    ["/dev/sda1         61255492 12345678  45678901      22% /"].
Proof.
  apply (proj2 (parseDfOutput_excludes_special Samples.df_output)
           ["/dev/sda1         61255492 12345678  45678901      22% /"]
           "tmpfs              8123456   812345   7311111      10% /dev/shm"
           [] "tmpfs" "8123456" "812345" "7311111" "10%" "/dev/shm" []);
    reflexivity.
Defined.

(** C7 (counterexample).  The root of a container host is an overlay
    mount, which the specification counts among the pseudo-filesystems;
    its line is not skipped: the result has an entry for it. *)
Lemma overlay_mount_is_listed :
  enumerated_pseudo "overlay" "/" = true /\
  exists d, In d (Disk.parseDfOutput Samples.df_overlay) /\
            JsValue.get d "filesystem" = VStr "overlay" /\
            JsValue.get d "mountpoint" = VStr "/".
Proof.
  split; [reflexivity|].
  eexists. split; [left; reflexivity|]. split; reflexivity.
Qed.

End DiskFacts.

(** ** Numbers *)

Module NumFacts.
Import JsNum NumSpec.
Local Open Scope Q_scope.

Lemma Qltb_true a b : Qltb a b = true <-> a < b.
Proof.
  unfold Qltb. rewrite negb_true_iff. split.
  - intros H. apply Qnot_le_lt. intros Hle. apply Qle_bool_iff in Hle. congruence.
  - intros H. destruct (Qle_bool b a) eqn:E; [|reflexivity].
    apply Qle_bool_iff in E. lra.
Qed.

Lemma Qltb_false a b : Qltb a b = false <-> b <= a.
Proof.
  unfold Qltb. rewrite negb_false_iff. apply Qle_bool_iff.
Qed.

Lemma Qcompare_Gt a b : b < a -> (a ?= b) = Gt.
Proof. intros H. now apply Qgt_alt. Qed.

Lemma finite_or_nan_add a b :
  finite_or_nan a -> finite_or_nan b -> finite_or_nan (add a b).
Proof. destruct a, b; simpl; tauto. Qed.

Lemma finite_or_nan_sub a b :
  finite_or_nan a -> finite_or_nan b -> finite_or_nan (sub a b).
Proof. destruct a, b; simpl; tauto. Qed.

Lemma equiv_refl a : equiv a a.
Proof. destruct a; simpl; auto. reflexivity. Qed.

Lemma min_equiv c x y : x == y -> equiv (min (Num c) (Num x)) (min (Num c) (Num y)).
Proof.
  intros H. unfold min, lt.
  destruct (Qltb x c) eqn:E1, (Qltb y c) eqn:E2; simpl; try assumption; try reflexivity.
  - apply Qltb_true in E1. apply Qltb_false in E2. lra.
  - apply Qltb_true in E2. apply Qltb_false in E1. lra.
Qed.
End NumFacts.

(** ** Printing and parsing decimals *)

Module DigitFacts.
Import JsString JsParse JsNum NumSpec.

Lemma take_digits_digit radix c k acc count s :
  digit_value radix c = Some k ->
  take_digits radix acc count (String c s)
  = take_digits radix (acc * radix + k) (S count) s.
Proof. intros H. cbn [take_digits]. now rewrite H. Qed.

Lemma take_digits_stop radix c acc count s :
  digit_value radix c = None ->
  take_digits radix acc count (String c s) = (acc, count, String c s).
Proof. intros H. cbn [take_digits]. now rewrite H. Qed.

Lemma take_digits_uint u : forall acc count rest,
  take_digits 10 acc count
    (DecimalString.NilEmpty.string_of_uint u ++ rest)%string
  = take_digits 10 (uint_value acc u) (count + Decimal.nb_digits u) rest.
Proof.
  induction u; intros acc count rest;
    cbn [DecimalString.NilEmpty.string_of_uint String.append uint_value
         Decimal.nb_digits];
    try (rewrite Nat.add_0_r; reflexivity);
    erewrite take_digits_digit by reflexivity;
    rewrite IHu, Nat.add_succ_r; reflexivity.
Qed.

Lemma uint_value_pos u : forall a,
  uint_value (Npos a) u = Npos (Pos.of_uint_acc u a).
Proof.
  induction u; intros a; cbn [uint_value Pos.of_uint_acc]; try reflexivity;
    match goal with
    | |- uint_value ?x _ = _ =>
        match goal with
        | |- _ = Npos (Pos.of_uint_acc _ ?y) =>
            replace x with (Npos y) by lia
        end
    end; apply IHu.
Qed.

Lemma uint_value_of_uint u : uint_value 0 u = N.of_uint u.
Proof.
  unfold N.of_uint.
  induction u; cbn [uint_value Pos.of_uint]; try reflexivity;
    try (change (0 * 10 + 0)%N with 0%N; exact IHu);
    match goal with
    | |- uint_value ?x _ = _ =>
        let y := eval compute in x in change x with y
    end; apply uint_value_pos.
Qed.

Lemma digits_of_N_parsed n rest :
  take_digits 10 0 0 (digits_of_N n ++ rest)%string
  = take_digits 10 n (Decimal.nb_digits (N.to_uint n)) rest.
Proof.
  unfold digits_of_N. rewrite take_digits_uint, uint_value_of_uint.
  now rewrite DecimalN.Unsigned.of_to.
Qed.

Lemma append_empty_r (s : string) : (s ++ EmptyString)%string = s.
Proof. induction s as [|c s IH]; cbn; [reflexivity|now rewrite IH]. Qed.

Lemma digit_value_digit_char k :
  (k < 10)%N -> digit_value 10 (digit_char k) = Some k.
Proof.
  intros H.
  assert (k = 0 \/ k = 1 \/ k = 2 \/ k = 3 \/ k = 4 \/ k = 5 \/ k = 6
          \/ k = 7 \/ k = 8 \/ k = 9)%N
    as [->|[->|[->|[->|[->|[->|[->|[->|[->| ->]]]]]]]]] by lia;
    reflexivity.
Qed.

Lemma take_digits_fixed_width d : forall m acc count rest,
  take_digits 10 acc count (fixed_width d m rest)
  = take_digits 10 (acc * 10 ^ N.of_nat d + m mod 10 ^ N.of_nat d)%N
                (count + d) rest.
Proof.
  induction d as [|d IH]; intros m acc count rest.
  - cbn [fixed_width]. change (10 ^ N.of_nat 0)%N with 1%N.
    rewrite N.mod_1_r, N.mul_1_r, N.add_0_r, Nat.add_0_r. reflexivity.
  - cbn [fixed_width]. rewrite IH.
    rewrite (take_digits_digit 10 _ (m mod 10)%N)
      by (apply digit_value_digit_char, N.mod_lt; discriminate).
    rewrite Nat.add_succ_r. f_equal.
    rewrite Nat2N.inj_succ, N.pow_succ_r'.
    rewrite (N.Div0.mod_mul_r m 10). lia.
Qed.

Lemma to_uint_digits n : exists k, Decimal.nb_digits (N.to_uint n) = S k.
Proof.
  destruct n as [|p]; [exists 0%nat; reflexivity|].
  pose proof (DecimalPos.Unsigned.to_uint_nonnil p) as H.
  cbn [N.to_uint]. destruct (Pos.to_uint p); [congruence|..];
    eexists; reflexivity.
Qed.

(** The digits of a number start with a character that is neither white
    space nor a sign, and do not start [Infinity]. *)
Lemma digits_head n tail :
  trimStart (digits_of_N n ++ tail) = (digits_of_N n ++ tail)%string /\
  strip_sign (digits_of_N n ++ tail)
    = (false, (digits_of_N n ++ tail)%string) /\
  startsWith (digits_of_N n ++ tail) "Infinity" = false.
Proof.
  unfold digits_of_N.
  destruct (to_uint_digits n) as [k Hk].
  destruct (N.to_uint n); try discriminate Hk; repeat split.
Qed.

Lemma pow10_opp d :
  (pow10 (- Z.of_nat d) == / inject_Z (10 ^ Z.of_nat d))%Q.
Proof.
  destruct d as [|d]; [reflexivity|].
  unfold pow10.
  assert (H : (- Z.of_nat (S d) <? 0)%Z = true) by (apply Z.ltb_lt; lia).
  rewrite H, Z.opp_involutive.
  assert (Hp : (10 ^ Z.of_nat (S d))%Z = Z.pos (10 ^ Z.to_pos (Z.of_nat (S d)))).
  { rewrite Pos2Z.inj_pow, Z2Pos.id by lia. reflexivity. }
  rewrite Hp. reflexivity.
Qed.

Lemma decimal_prefix_fixed_digits d n :
  exists r, decimal_prefix (fixed_digits d n) = Some r /\
            (r == inject_Z (Z.of_N n) / inject_Z (10 ^ Z.of_nat d))%Q.
Proof.
  unfold decimal_prefix, fixed_digits.
  set (p := (10 ^ N.of_nat d)%N).
  assert (Hp : (0 < p)%N) by (unfold p; apply N.neq_0_lt_0, N.pow_nonzero; discriminate).
  assert (HpZ : Z.of_N p = (10 ^ Z.of_nat d)%Z).
  { unfold p. rewrite N2Z.inj_pow, nat_N_Z. reflexivity. }
  assert (Hn : Z.of_N n = (Z.of_N p * Z.of_N (n / p) + Z.of_N (n mod p))%Z).
  { rewrite <- N2Z.inj_mul, <- N2Z.inj_add. f_equal. apply N.div_mod. lia. }
  assert (HpQ : (0 < inject_Z (Z.of_N p))%Q).
  { change 0%Q with (inject_Z 0). rewrite <- Zlt_Qlt. lia. }
  destruct (to_uint_digits (n / p)) as [k Hk].
  destruct d as [|d].
  - assert (E : take_digits 10 0 0 (digits_of_N (n / p))
                 = (n / p, S k, EmptyString)%N).
    { rewrite <- (append_empty_r (digits_of_N (n / p))).
      rewrite digits_of_N_parsed, Hk. reflexivity. }
    rewrite E.
    eexists. split; [reflexivity|].
    change (10 ^ N.of_nat 0)%N with 1%N in p. subst p.
    rewrite N.div_1_r. cbn. field.
  - rewrite digits_of_N_parsed, Hk.
    rewrite take_digits_stop by reflexivity.
    rewrite take_digits_fixed_width. fold p.
    rewrite N.Div0.mod_mod, N.mul_0_l, N.add_0_l. cbn [take_digits Nat.add].
    eexists. split; [reflexivity|].
    rewrite pow10_opp. cbn [exponent_prefix]. rewrite <- HpZ, Hn.
    rewrite inject_Z_plus, inject_Z_mult.
    change (pow10 0) with 1%Q. field. lra.
Qed.

(** [parseFloat(x.toFixed(d))] is [x] rounded to [d] decimals. *)
Lemma parseFloat_toFixed d q :
  exists r, parseFloat (toFixed d (Num q)) = Num r /\ (r == rounded d q)%Q.
Proof.
  unfold toFixed, rounded, parseFloat.
  destruct (Qltb q 0).
  - destruct (decimal_prefix_fixed_digits d (scaled d (- q))) as (r & Hr & Heq).
    cbn [trimStart is_ws nat_of_ascii strip_sign].
    change (is_ws "-") with false. cbv iota. cbn [strip_sign].
    unfold fixed_digits in *.
    destruct (digits_head (scaled d (- q) / 10 ^ N.of_nat d)
                (match d with O => EmptyString | _ =>
                   String "." (fixed_width d (scaled d (- q) mod 10 ^ N.of_nat d)
                                           EmptyString) end))
      as (_ & _ & Hinf).
    destruct d.
    + rewrite append_empty_r in Hinf. rewrite Hinf, Hr.
      eexists. split; [reflexivity|]. now rewrite Heq.
    + rewrite Hinf, Hr. eexists. split; [reflexivity|]. now rewrite Heq.
  - destruct (decimal_prefix_fixed_digits d (scaled d q)) as (r & Hr & Heq).
    unfold fixed_digits in *.
    destruct (digits_head (scaled d q / 10 ^ N.of_nat d)
                (match d with O => EmptyString | _ =>
                   String "." (fixed_width d (scaled d q mod 10 ^ N.of_nat d)
                                           EmptyString) end))
      as (Htrim & Hsign & Hinf).
    destruct d.
    + rewrite append_empty_r in Htrim, Hsign, Hinf.
      rewrite Htrim, Hsign, Hinf, Hr. eexists. split; [reflexivity|]. exact Heq.
    + rewrite Htrim, Hsign, Hinf, Hr. eexists. split; [reflexivity|]. exact Heq.
Qed.

End DigitFacts.

(** ** The CPU probe *)

Module CpuFacts.
Import JsString JsParse JsValue Effects JsNum NumSpec NumFacts CpuSpec.
Local Open Scope Q_scope.

(** The clamp of the code, [Math.max(0, Math.min(100, x))], brings a
    finite number into the range [0, 100]. *)
Lemma clamp_clamped x y :
  x == y -> equiv (Cpu.clamp (Num x)) (clamped (Num y)).
Proof.
  intros H. unfold Cpu.clamp, clamped, min, max, lt, of_Z.
  change (inject_Z 100) with 100.
  destruct (Qle_bool y 0) eqn:E0.
  - apply Qle_bool_iff in E0.
    destruct (Qltb x 100) eqn:E1;
      [apply Qltb_true in E1|apply Qltb_false in E1; lra].
    destruct (Qltb 0 x) eqn:E2;
      [apply Qltb_true in E2; lra|]. reflexivity.
  - assert (H0 : 0 < y).
    { apply Qnot_le_lt. intros Hle. apply Qle_bool_iff in Hle. congruence. }
    destruct (Qle_bool 100 y) eqn:E100.
    + apply Qle_bool_iff in E100.
      destruct (Qltb x 100) eqn:E1;
        [apply Qltb_true in E1; lra|].
      change (Qltb 0 100) with true. cbv iota. reflexivity.
    + assert (H100 : y < 100).
      { apply Qnot_le_lt. intros Hle. apply Qle_bool_iff in Hle. congruence. }
      destruct (Qltb x 100) eqn:E1;
        [|apply Qltb_false in E1; lra].
      destruct (Qltb 0 x) eqn:E2;
        [|apply Qltb_false in E2; lra].
      exact H.
Qed.

Lemma parseInt_finite x : finite_or_nan (parseInt x).
Proof.
  unfold parseInt. destruct x as [s|]; [|exact I].
  destruct (strip_sign (trimStart s)) as [negative s1].
  destruct (strip_hex_prefix s1) as [radix s2].
  destruct (take_digits radix 0 0 s2) as [[n count] rest].
  destruct count; exact I.
Qed.

Lemma fold_add_finite l : forall acc,
  finite_or_nan acc ->
  finite_or_nan (fold_left (fun sum time => add sum (parseInt (Some time))) l acc).
Proof.
  induction l as [|x l IH]; intros acc Hacc; cbn [fold_left]; [assumption|].
  apply IH. apply finite_or_nan_add; [assumption|apply parseInt_finite].
Qed.

Lemma or_zero_finite a : finite_or_nan a -> finite_or_nan (Cpu.or_zero a).
Proof. unfold Cpu.or_zero. destruct (truthy a); simpl; auto. Qed.

Lemma read_sample_finite cpuInfo :
  finite_or_nan (Cpu.total (Cpu.read_sample cpuInfo)) /\
  finite_or_nan (Cpu.idle (Cpu.read_sample cpuInfo)) /\
  finite_or_nan (Cpu.iowait (Cpu.read_sample cpuInfo)).
Proof.
  unfold Cpu.read_sample; cbn [Cpu.total Cpu.idle Cpu.iowait]. repeat split.
  - apply fold_add_finite. exact I.
  - apply parseInt_finite.
  - apply or_zero_finite, parseInt_finite.
Qed.

Lemma delta_usage_formula_equiv cur last :
  finite_or_nan (Cpu.total cur) -> finite_or_nan (Cpu.total last) ->
  finite_or_nan (Cpu.idle cur) -> finite_or_nan (Cpu.idle last) ->
  finite_or_nan (Cpu.iowait cur) -> finite_or_nan (Cpu.iowait last) ->
  gt (Cpu.totalDiff_of cur last) (Num 0) = true ->
  equiv (Cpu.clamp (Cpu.delta_usage cur last))
        (formula_usage (idleDelta cur last) (totalDelta cur last)).
Proof.
  intros Ht Ht' Hi Hi' Hw Hw' Hgt.
  unfold formula_usage, Cpu.delta_usage. rewrite Hgt.
  change (idleDelta cur last) with (Cpu.idleDiff_of cur last).
  change (totalDelta cur last) with (Cpu.totalDiff_of cur last).
  assert (HT : finite_or_nan (Cpu.totalDiff_of cur last))
    by (apply finite_or_nan_sub; assumption).
  assert (HI : finite_or_nan (Cpu.idleDiff_of cur last))
    by (apply finite_or_nan_sub; apply finite_or_nan_add; assumption).
  destruct (Cpu.totalDiff_of cur last) as [| | |t]; try contradiction;
    try discriminate.
  unfold gt, lt in Hgt. apply Qltb_true in Hgt.
  destruct (Cpu.idleDiff_of cur last) as [| | |i]; try contradiction.
  - exact I.
  - unfold sub, neg, add, div, mul, of_Z.
    rewrite (Qcompare_Gt _ _ Hgt).
    apply clamp_clamped. field. lra.
Qed.

Lemma calculateCpuUsage_linux_read env st cpuInfo :
  Effects.platform env = "linux"%string ->
  Effects.readFileSync env "/proc/stat" = Ok cpuInfo ->
  Cpu.calculateCpuUsage env st =
  ((Ok (match Cpu.prior st with
        | Some last => Cpu.clamp (Cpu.delta_usage (Cpu.read_sample cpuInfo) last)
        | None => Cpu.load_fallback env
        end), [ReadFileSync "/proc/stat"]),
   {| Cpu.lastCpuUsage := Some (Cpu.read_sample cpuInfo);
      Cpu.lastMeasureTime := Some (Effects.Date_now env) |}).
Proof.
  intros Hp Hr. unfold Cpu.calculateCpuUsage, Effects.readFile.
  rewrite Hp, Hr. cbn [String.eqb negb].
  change (("linux" =? "linux")%string) with true. cbn [negb].
  now destruct (Cpu.prior st).
Qed.

(** C3 (as amended).  On Linux, when [/proc/stat] is read, a prior sample
    is stored and the total delta is positive, the usage returned is
    [100 * (1 - idleDelta / totalDelta)] clamped to [0, 100], where
    [idleDelta] counts the I/O-wait ticks as idle; when the total delta
    is not positive the usage returned is 0; and the two successive
    samples idle = 100, total = 1000 and idle = 150, total = 1100
    (iowait 0) give the usage 50. *)
Theorem calculateCpuUsage_delta :
  (forall env st prev cpuInfo,
     Effects.platform env = "linux"%string ->
     Effects.readFileSync env "/proc/stat" = Ok cpuInfo ->
     Cpu.prior st = Some (Cpu.read_sample prev) ->
     gt (totalDelta (Cpu.read_sample cpuInfo) (Cpu.read_sample prev)) (Num 0)
       = true ->
     exists usage,
       Effects.outcome (fst (Cpu.calculateCpuUsage env st)) = Ok usage /\
       equiv usage
             (formula_usage
                (idleDelta (Cpu.read_sample cpuInfo) (Cpu.read_sample prev))
                (totalDelta (Cpu.read_sample cpuInfo) (Cpu.read_sample prev))))
  /\
  (forall env st prev cpuInfo,
     Effects.platform env = "linux"%string ->
     Effects.readFileSync env "/proc/stat" = Ok cpuInfo ->
     Cpu.prior st = Some (Cpu.read_sample prev) ->
     gt (totalDelta (Cpu.read_sample cpuInfo) (Cpu.read_sample prev)) (Num 0)
       = false ->
     Effects.outcome (fst (Cpu.calculateCpuUsage env st)) = Ok (Num 0))
  /\
  (let first := Samples.host "linux" 1000 Samples.half
                  (Ok Samples.df_output) (Ok Samples.stat_1000) in
   let second := Samples.host "linux" 6000 Samples.half
                   (Ok Samples.df_output) (Ok Samples.stat_1100) in
   let seeded := snd (Cpu.calculateCpuUsage first Cpu.initial) in
   Cpu.lastCpuUsage seeded =
     Some {| Cpu.total := Num 1000; Cpu.idle := Num 100; Cpu.iowait := Num 0 |} /\
   Cpu.read_sample Samples.stat_1100 =
     {| Cpu.total := Num 1100; Cpu.idle := Num 150; Cpu.iowait := Num 0 |} /\
   exists usage,
     Effects.outcome (fst (Cpu.calculateCpuUsage second seeded)) = Ok usage /\
     equiv usage (Num 50)).
Proof.
  split; [|split].
  - intros env st prev cpuInfo Hp Hr Hprior Hgt.
    rewrite (calculateCpuUsage_linux_read _ _ _ Hp Hr), Hprior.
    eexists. split; [reflexivity|].
    destruct (read_sample_finite cpuInfo) as (? & ? & ?).
    destruct (read_sample_finite prev) as (? & ? & ?).
    now apply delta_usage_formula_equiv.
  - intros env st prev cpuInfo Hp Hr Hprior Hgt.
    rewrite (calculateCpuUsage_linux_read _ _ _ Hp Hr), Hprior.
    cbn [fst Effects.outcome]. unfold Cpu.delta_usage.
    change (Cpu.totalDiff_of (Cpu.read_sample cpuInfo) (Cpu.read_sample prev))
      with (totalDelta (Cpu.read_sample cpuInfo) (Cpu.read_sample prev)).
    rewrite Hgt. reflexivity.
  - cbv zeta. split; [reflexivity|]. split; [reflexivity|].
    eexists. split; [vm_compute; reflexivity|]. reflexivity.
Qed.

Lemma calculateCpuUsage_delta_witness :
  (exists usage,
     Effects.outcome
       (fst (Cpu.calculateCpuUsage
               (Samples.host "linux" 6000 Samples.half
                  (Ok Samples.df_output) (Ok Samples.stat_1100))
               {| Cpu.lastCpuUsage := Some (Cpu.read_sample Samples.stat_1000);
                  Cpu.lastMeasureTime := Some 1000%Z |})) = Ok usage /\
     equiv usage
       (formula_usage
          (idleDelta (Cpu.read_sample Samples.stat_1100)
                     (Cpu.read_sample Samples.stat_1000))
          (totalDelta (Cpu.read_sample Samples.stat_1100)
                      (Cpu.read_sample Samples.stat_1000)))) /\
  Effects.outcome
    (fst (Cpu.calculateCpuUsage
            (Samples.host "linux" 6000 Samples.half
               (Ok Samples.df_output) (Ok Samples.stat_900))
            {| Cpu.lastCpuUsage := Some (Cpu.read_sample Samples.stat_1000);
               Cpu.lastMeasureTime := Some 1000%Z |})) = Ok (Num 0).
Proof.
  split.
  - apply (proj1 calculateCpuUsage_delta
             (Samples.host "linux" 6000 Samples.half
                (Ok Samples.df_output) (Ok Samples.stat_1100))
             {| Cpu.lastCpuUsage := Some (Cpu.read_sample Samples.stat_1000);
                Cpu.lastMeasureTime := Some 1000%Z |}
             Samples.stat_1000 Samples.stat_1100); reflexivity.
  - apply (proj1 (proj2 calculateCpuUsage_delta)
             (Samples.host "linux" 6000 Samples.half
                (Ok Samples.df_output) (Ok Samples.stat_900))
             {| Cpu.lastCpuUsage := Some (Cpu.read_sample Samples.stat_1000);
                Cpu.lastMeasureTime := Some 1000%Z |}
             Samples.stat_1000 Samples.stat_900); reflexivity.
Defined.

(** C3 (counterexample).  A prior sample idle = 100, total = 1000 is
    followed by idle = 50, total = 900: the deltas are -50 and -100, the
    formula gives 50, and the usage returned is 0. *)
Lemma negative_total_delta_returns_zero :
  let env := Samples.host "linux" 6000 Samples.half
               (Ok Samples.df_output) (Ok Samples.stat_900) in
  let st := {| Cpu.lastCpuUsage := Some (Cpu.read_sample Samples.stat_1000);
               Cpu.lastMeasureTime := Some 1000%Z |} in
  let cur := Cpu.read_sample Samples.stat_900 in
  let last := Cpu.read_sample Samples.stat_1000 in
  Cpu.prior st = Some last /\
  Effects.outcome (fst (Cpu.calculateCpuUsage env st)) = Ok (Num 0) /\
  equiv (formula_usage (idleDelta cur last) (totalDelta cur last)) (Num 50) /\
  ~ equiv (Num 0) (formula_usage (idleDelta cur last) (totalDelta cur last)).
Proof.
  cbv zeta. split; [reflexivity|]. split; [reflexivity|].
  split; [reflexivity|]. vm_compute. discriminate.
Qed.

(** C4 (as amended).  On Linux, when reading [/proc/stat] fails, the
    stored sample and its time are left as they were, whatever they are,
    and the caller gets the load-average fallback
    [min(100, loadavg[0] * 10)], not a failure: the value the CPU probe
    then returns has no [error] key. *)
Theorem failed_read_keeps_sample_returns_fallback env st message :
  Effects.platform env = "linux"%string ->
  Effects.readFileSync env "/proc/stat" = Throw message ->
  Cpu.calculateCpuUsage env st =
    ((Ok (formula_fallback env), [ReadFileSync "/proc/stat"]), st) /\
  snd (Cpu.collectCpuInfo env st) = st /\
  exists v, Effects.outcome (fst (Cpu.collectCpuInfo env st)) = Ok v /\
            JsValue.has_key "error" v = false.
Proof.
  intros Hp Hr.
  assert (H : Cpu.calculateCpuUsage env st =
              ((Ok (formula_fallback env), [ReadFileSync "/proc/stat"]), st)).
  { unfold Cpu.calculateCpuUsage, Effects.readFile. rewrite Hp, Hr.
    reflexivity. }
  split; [exact H|].
  unfold Cpu.collectCpuInfo. rewrite H. split; [reflexivity|].
  eexists. split; reflexivity.
Qed.

Lemma failed_read_keeps_sample_returns_fallback_witness :
  let env := Samples.host "linux" 6000 Samples.half
               (Ok Samples.df_output) Samples.stat_missing in
  let st := {| Cpu.lastCpuUsage := Some (Cpu.read_sample Samples.stat_1000);
               Cpu.lastMeasureTime := Some 1000%Z |} in
  Cpu.calculateCpuUsage env st =
    ((Ok (formula_fallback env), [ReadFileSync "/proc/stat"]), st) /\
  snd (Cpu.collectCpuInfo env st) = st /\
  exists v, Effects.outcome (fst (Cpu.collectCpuInfo env st)) = Ok v /\
            JsValue.has_key "error" v = false.
Proof.
  cbv zeta.
  apply (failed_read_keeps_sample_returns_fallback
           (Samples.host "linux" 6000 Samples.half
              (Ok Samples.df_output) Samples.stat_missing)
           {| Cpu.lastCpuUsage := Some (Cpu.read_sample Samples.stat_1000);
              Cpu.lastMeasureTime := Some 1000%Z |}
           "ENOENT: no such file or directory, open '/proc/stat'");
    reflexivity.
Defined.

(** C4 (counterexample).  A sample is stored and [/proc/stat] cannot be
    read: [calculateCpuUsage] returns the number 5 (the load average 0.5
    times 10), and the CPU probe returns an object with a [usage] and
    without an [error]: no failure reaches the caller. *)
Lemma failed_read_surfaces_no_failure :
  let env := Samples.host "linux" 6000 Samples.half
               (Ok Samples.df_output) Samples.stat_missing in
  let st := {| Cpu.lastCpuUsage := Some (Cpu.read_sample Samples.stat_1000);
               Cpu.lastMeasureTime := Some 1000%Z |} in
  Effects.readFileSync env "/proc/stat" = Samples.stat_missing /\
  (exists usage,
     Effects.outcome (fst (Cpu.calculateCpuUsage env st)) = Ok usage /\
     equiv usage (Num 5)) /\
  exists v, Effects.outcome (fst (Cpu.collectCpuInfo env st)) = Ok v /\
            JsValue.get v "error" = VUndefined /\
            exists usage, JsValue.get v "usage" = VNum usage /\
                          equiv usage (Num 5).
Proof.
  cbv zeta. split; [reflexivity|]. split.
  - eexists. split; [vm_compute; reflexivity|]. reflexivity.
  - eexists. split; [vm_compute; reflexivity|]. split; [reflexivity|].
    eexists. split; reflexivity.
Qed.

(** C5 (the defect).  On a platform other than Linux the load average
    times 10 is returned as it is: with a load average of 15 the usage is
    150, where [min(100, loadavg[0] * 10)] is 100; the CPU probe reports
    that 150 as its [usage]. *)
Theorem nonlinux_fallback_is_not_clamped :
  let env := Samples.host "darwin" 6000 15
               (Ok Samples.df_output) Samples.stat_missing in
  (exists usage,
     Cpu.calculateCpuUsage env Cpu.initial = ((Ok usage, []), Cpu.initial) /\
     equiv usage (Num 150)) /\
  equiv (formula_fallback env) (Num 100) /\
  exists v, Effects.outcome (fst (Cpu.collectCpuInfo env Cpu.initial)) = Ok v /\
            exists reported, JsValue.get v "usage" = VNum reported /\
                             equiv reported (Num 150).
Proof.
  cbv zeta. split.
  - eexists. split; [vm_compute; reflexivity|]. reflexivity.
  - split; [reflexivity|]. eexists. split; [vm_compute; reflexivity|].
    eexists. split; reflexivity.
Qed.

(** What holds of the fallback (C5): on Linux, a call without a prior
    sample returns [min(100, loadavg[0] * 10)] and stores the sample it
    read; on another platform the product is returned without the
    [min]. *)
Lemma fallback_paths env st :
  (forall cpuInfo,
     Effects.platform env = "linux"%string ->
     Effects.readFileSync env "/proc/stat" = Ok cpuInfo ->
     Cpu.prior st = None ->
     Cpu.calculateCpuUsage env st =
       ((Ok (formula_fallback env), [ReadFileSync "/proc/stat"]),
        {| Cpu.lastCpuUsage := Some (Cpu.read_sample cpuInfo);
           Cpu.lastMeasureTime := Some (Effects.Date_now env) |})) /\
  (String.eqb (Effects.platform env) "linux" = false ->
   Cpu.calculateCpuUsage env st =
     ((Ok (mul (Cpu.load1 env) (of_Z 10)), []), st)).
Proof.
  split.
  - intros cpuInfo Hp Hr Hprior.
    rewrite (calculateCpuUsage_linux_read _ _ _ Hp Hr), Hprior. reflexivity.
  - intros Hp. unfold Cpu.calculateCpuUsage. rewrite Hp. reflexivity.
Qed.

(** Rounding to [d] decimals keeps a number within [0, 100]. *)
Lemma rounded_range d q :
  0 <= q -> q <= 100 -> 0 <= rounded d q /\ rounded d q <= 100.
Proof.
  intros H0 H100. unfold rounded.
  destruct (Qltb q 0) eqn:E; [apply Qltb_true in E; lra|].
  unfold scaled.
  set (p := (10 ^ Z.of_nat d)%Z).
  assert (Hp : (0 < p)%Z) by (apply Z.pow_pos_nonneg; lia).
  assert (HpQ : 0 < inject_Z p) by (rewrite Zlt_Qlt in Hp; exact Hp).
  set (n := Qfloor (q * inject_Z p + (1 # 2))).
  assert (Hn0 : (0 <= n)%Z).
  { change 0%Z with (Qfloor 0). apply Qfloor_resp_le. nra. }
  assert (Hn100 : (n <= 100 * p)%Z).
  { assert (Hlt : (n < 100 * p + 1)%Z).
    { rewrite Zlt_Qlt. apply Qle_lt_trans with (q * inject_Z p + (1 # 2)).
      - apply Qfloor_le.
      - rewrite inject_Z_plus, inject_Z_mult.
        change (inject_Z 100) with 100. change (inject_Z 1) with 1. nra. }
    lia. }
  rewrite Z2N.id by exact Hn0.
  split.
  - apply Qle_shift_div_l; [exact HpQ|]. rewrite Zle_Qle in Hn0.
    change (inject_Z 0) with 0 in Hn0. lra.
  - apply Qle_shift_div_r; [exact HpQ|]. rewrite Zle_Qle in Hn100.
    rewrite inject_Z_mult in Hn100. change (inject_Z 100) with 100 in Hn100.
    exact Hn100.
Qed.

Lemma parseFloat_toFixed_range d q :
  0 <= q -> q <= 100 -> in_percent_range (parseFloat (toFixed d (Num q))).
Proof.
  intros H0 H100.
  destruct (DigitFacts.parseFloat_toFixed d q) as (r & -> & Hr).
  pose proof (rounded_range d q H0 H100) as [Hlo Hhi].
  unfold in_percent_range. rewrite Hr. split; assumption.
Qed.

Lemma core_usage_range cpu : in_percent_range (Cpu.core_usage cpu).
Proof.
  unfold Cpu.core_usage, Cpu.times_values.
  destruct (cpu_times_of cpu) as [u n s i r]. cbn [fold_left t_user t_nice t_sys t_idle t_irq].
  unfold add, of_Z.
  set (tot := 0 + inject_Z (Z.of_N u) + inject_Z (Z.of_N n) + inject_Z (Z.of_N s)
              + inject_Z (Z.of_N i) + inject_Z (Z.of_N r)).
  assert (Hu : 0 <= inject_Z (Z.of_N u)) by (change 0 with (inject_Z 0); rewrite <- Zle_Qle; lia).
  assert (Hn : 0 <= inject_Z (Z.of_N n)) by (change 0 with (inject_Z 0); rewrite <- Zle_Qle; lia).
  assert (Hs : 0 <= inject_Z (Z.of_N s)) by (change 0 with (inject_Z 0); rewrite <- Zle_Qle; lia).
  assert (Hi : 0 <= inject_Z (Z.of_N i)) by (change 0 with (inject_Z 0); rewrite <- Zle_Qle; lia).
  assert (Hr : 0 <= inject_Z (Z.of_N r)) by (change 0 with (inject_Z 0); rewrite <- Zle_Qle; lia).
  assert (Hidle : inject_Z (Z.of_N i) <= tot) by (unfold tot; lra).
  unfold gt, lt. destruct (Qltb 0 tot) eqn:Epos.
  - apply Qltb_true in Epos.
    unfold sub, neg, add, div. rewrite (Qcompare_Gt _ _ Epos). unfold mul.
    set (x := (tot + - inject_Z (Z.of_N i)) / tot).
    assert (Hx0 : 0 <= x).
    { unfold x. apply Qle_shift_div_l; [exact Epos|]. lra. }
    assert (Hx1 : x <= 1).
    { unfold x. apply Qle_shift_div_r; [exact Epos|]. lra. }
    unfold min, lt.
    destruct (Qltb (x * inject_Z 100) (inject_Z 100)) eqn:E.
    + apply parseFloat_toFixed_range; change (inject_Z 100) with 100; lra.
    + apply parseFloat_toFixed_range; change (inject_Z 100) with 100; lra.
  - unfold min, lt.
    destruct (Qltb 0 (inject_Z 100)) eqn:E.
    + apply parseFloat_toFixed_range; lra.
    + apply parseFloat_toFixed_range; change (inject_Z 100) with 100; lra.
Qed.

Lemma core_usage_idle_core cpu :
  ticks cpu = 0%N -> equiv (Cpu.core_usage cpu) (Num 0).
Proof.
  unfold ticks, Cpu.core_usage, Cpu.times_values.
  destruct (cpu_times_of cpu) as [u n s i r].
  cbn [fold_left t_user t_nice t_sys t_idle t_irq]. intros H.
  assert (u = 0%N /\ n = 0%N /\ s = 0%N /\ i = 0%N /\ r = 0%N) as (-> & -> & -> & -> & ->)
    by lia.
  reflexivity.
Qed.

Lemma coreUsage_from_range cpus : forall index,
  Forall (fun c => in_percent_range (snd c)) (Cpu.coreUsage_from index cpus).
Proof.
  induction cpus as [|cpu cpus IH]; intros index; simpl; constructor.
  - apply core_usage_range.
  - apply IH.
Qed.

Lemma calculateCpuUsage_returns env st :
  exists usage t st', Cpu.calculateCpuUsage env st = ((Ok usage, t), st').
Proof.
  unfold Cpu.calculateCpuUsage.
  destruct (negb _); [do 3 eexists; reflexivity|].
  destruct (Effects.readFile env "/proc/stat") as [[cpuInfo|message] t].
  - destruct (Cpu.prior st); do 3 eexists; reflexivity.
  - do 3 eexists; reflexivity.
Qed.

(** C10.  The divisions of the CPU collector are guarded: on Linux, with
    a prior sample stored and [/proc/stat] read, a total delta that is
    not positive gives the usage 0; a core whose tick counts sum to zero
    has the usage 0; and whatever the host answers, the probe returns a
    value, and every element of its [coreUsage] list has a [usage]
    between 0 and 100. *)
Theorem cpu_divisions_guarded :
  (forall env st last cpuInfo,
     Effects.platform env = "linux"%string ->
     Effects.readFileSync env "/proc/stat" = Ok cpuInfo ->
     Cpu.prior st = Some last ->
     gt (totalDelta (Cpu.read_sample cpuInfo) last) (Num 0) = false ->
     Effects.outcome (fst (Cpu.calculateCpuUsage env st)) = Ok (Num 0)) /\
  (forall cpu, ticks cpu = 0%N -> equiv (Cpu.core_usage cpu) (Num 0)) /\
  (forall env st,
     exists v, Effects.outcome (fst (Cpu.collectCpuInfo env st)) = Ok v /\
     exists items, JsValue.get v "coreUsage" = VArr items /\
       length items = length (Effects.os_cpus env) /\
       forall item, In item items ->
         exists usage, JsValue.get item "usage" = VNum usage /\
                       in_percent_range usage).
Proof.
  split; [|split].
  - intros env st last cpuInfo Hp Hr Hprior Hgt.
    rewrite (calculateCpuUsage_linux_read _ _ _ Hp Hr), Hprior.
    unfold Cpu.delta_usage.
    change (Cpu.totalDiff_of (Cpu.read_sample cpuInfo) last)
      with (totalDelta (Cpu.read_sample cpuInfo) last).
    rewrite Hgt. reflexivity.
  - exact core_usage_idle_core.
  - intros env st.
    destruct (calculateCpuUsage_returns env st) as (usage & t & st' & H).
    unfold Cpu.collectCpuInfo. rewrite H.
    eexists. split; [reflexivity|].
    eexists. split; [reflexivity|]. split.
    + rewrite length_map. unfold Cpu.coreUsage_of.
      generalize 0%nat. induction (Effects.os_cpus env); intros k; simpl; auto.
    + intros item Hin. apply in_map_iff in Hin. destruct Hin as (c & <- & Hc).
      exists (snd c). split; [reflexivity|].
      pose proof (coreUsage_from_range (Effects.os_cpus env) 0) as Hall.
      rewrite Forall_forall in Hall. now apply Hall.
Qed.

Lemma cpu_divisions_guarded_witness :
  Effects.outcome
    (fst (Cpu.calculateCpuUsage
            (Samples.host "linux" 6000 Samples.half
               (Ok Samples.df_output) (Ok Samples.stat_900))
            {| Cpu.lastCpuUsage := Some (Cpu.read_sample Samples.stat_1000);
               Cpu.lastMeasureTime := Some 1000%Z |})) = Ok (Num 0) /\
  equiv (Cpu.core_usage
           {| cpu_model := "idle"; cpu_speed := 0;
              cpu_times_of := {| t_user := 0; t_nice := 0; t_sys := 0;
                                 t_idle := 0; t_irq := 0 |} |}) (Num 0).
Proof.
  split.
  - apply (proj1 cpu_divisions_guarded
             (Samples.host "linux" 6000 Samples.half
                (Ok Samples.df_output) (Ok Samples.stat_900))
             {| Cpu.lastCpuUsage := Some (Cpu.read_sample Samples.stat_1000);
                Cpu.lastMeasureTime := Some 1000%Z |}
             (Cpu.read_sample Samples.stat_1000) Samples.stat_900);
      reflexivity.
  - apply (proj1 (proj2 cpu_divisions_guarded)). reflexivity.
Defined.

End CpuFacts.

(** ** The Android probe *)

Module AndroidFacts.
Import JsString JsValue Effects AndroidSpec.

Lemma collectAndroidInfo_off_linux env st :
  Effects.platform env <> "linux"%string ->
  Android.androidCache st = VNull ->
  Android.collectAndroidInfo env st =
    ((Ok (unavailable ("Android features not available on "
                       ++ Effects.platform env)), []), st).
Proof.
  intros Hp Hc. apply String.eqb_neq in Hp.
  unfold Android.collectAndroidInfo, Android.collectAndroidInfo_start,
    Android.cache_valid.
  rewrite Hc, Hp. reflexivity.
Qed.

Lemma successive_calls_off_linux hosts : forall st,
  Android.androidCache st = VNull ->
  (forall env, In env hosts -> Effects.platform env <> "linux"%string) ->
  Forall2 (fun env r =>
             exists reason,
               r = (Ok (unavailable reason), []) /\ reason <> EmptyString)
          hosts (successive_calls hosts st).
Proof.
  induction hosts as [|env rest IH]; intros st Hc Hp; cbn [successive_calls].
  - constructor.
  - rewrite (collectAndroidInfo_off_linux env st (Hp env (or_introl eq_refl)) Hc).
    constructor.
    + eexists. split; [reflexivity|]. discriminate.
    + apply IH; [exact Hc|]. intros e He. apply Hp. now right.
Qed.

(** C8.  On a host whose platform is not ["linux"], every call of
    [collectAndroidInfo()], from the start of the process on, returns
    [{ available: false, reason }] with a non-empty [reason] and makes no
    call to [child_process] or [fs]. *)
Theorem android_short_circuit (hosts : list Env) :
  (forall env, In env hosts -> Effects.platform env <> "linux"%string) ->
  Forall2 (fun env r =>
             exists reason,
               r = (Ok (unavailable reason), []) /\ reason <> EmptyString)
          hosts (successive_calls hosts Android.initial).
Proof.
  intros Hp. now apply successive_calls_off_linux.
Qed.

Lemma android_short_circuit_witness :
  let mac now := Samples.host "darwin" now Samples.half
                   Samples.df_fails Samples.stat_missing in
  Forall2 (fun env r =>
             exists reason,
               r = (Ok (unavailable reason), []) /\ reason <> EmptyString)
          [mac 1000%Z; mac 2000%Z; mac 9000%Z]
          (successive_calls [mac 1000%Z; mac 2000%Z; mac 9000%Z] Android.initial).
Proof.
  cbv zeta. apply android_short_circuit.
  intros env [<-|[<-|[<-|[]]]]; discriminate.
Defined.

End AndroidFacts.

(** ** The caches *)

Module CacheFacts.
Import JsString JsValue Effects AndroidSpec.
Local Open Scope Z_scope.

Lemma isTermuxApiAvailable_returns env :
  exists b, Android.isTermuxApiAvailable env =
            (Ok b, [ExecSync "which termux-battery-status"]).
Proof.
  unfold Android.isTermuxApiAvailable, Effects.try_catch, Effects.bind,
    Effects.exec, Effects.ret.
  destruct (Effects.execSync env "which termux-battery-status");
    eexists; reflexivity.
Qed.









Lemma collectDiskInfo_hit env st :
  Disk.cache_valid st (Effects.Date_now env) = true ->
  Disk.collectDiskInfo env st = ((Ok (Disk.diskCache st), []), st).
Proof. intros H. unfold Disk.collectDiskInfo. now rewrite H. Qed.

Lemma collectDiskInfo_miss env st :
  Disk.cache_valid st (Effects.Date_now env) = false ->
  exists command,
    Effects.trace (fst (Disk.collectDiskInfo env st)) = [ExecSync command] /\
    match Effects.execSync env command with
    | Throw message =>
        snd (Disk.collectDiskInfo env st) = st /\
        exists error,
          Effects.outcome (fst (Disk.collectDiskInfo env st))
            = Ok (VArr [Disk.failure error message])
    | Ok output =>
        exists disks,
          Effects.outcome (fst (Disk.collectDiskInfo env st)) = Ok (VArr disks) /\
          snd (Disk.collectDiskInfo env st)
            = {| Disk.diskCache := VArr disks;
                 Disk.diskCacheTime := Effects.Date_now env |}
    end.
Proof.
  intros H. unfold Disk.collectDiskInfo, Effects.exec. rewrite H.
  destruct (String.eqb _ _).
  - exists Disk.wmic_command.
    destruct (Effects.execSync env Disk.wmic_command) as [output|message].
    + split; [reflexivity|]. eexists. split; reflexivity.
    + split; [reflexivity|]. split; [reflexivity|]. eexists. reflexivity.
  - exists "df -kP"%string.
    destruct (Effects.execSync env "df -kP") as [output|message].
    + split; [reflexivity|]. eexists. split; reflexivity.
    + split; [reflexivity|]. split; [reflexivity|]. eexists. reflexivity.
Qed.

Lemma collectAndroidInfo_miss env st :
  Android.cache_valid st (Effects.Date_now env) = false ->
  Effects.platform env = "linux"%string ->
  exists v,
    Effects.outcome (fst (Android.collectAndroidInfo env st)) = Ok v /\
    snd (Android.collectAndroidInfo env st)
      = {| Android.androidCache := v;
           Android.androidCacheTime := Effects.Date_now env |}.
Proof.
  intros H Hp.
  unfold Android.collectAndroidInfo, Android.collectAndroidInfo_start.
  rewrite H, Hp. cbn [String.eqb negb].
  change (("linux" =? "linux")%string) with true. cbn [negb].
  destruct (Android.getBatteryInfo env) as [battery t1].
  destruct (Android.getThermalInfo env) as [thermal t2].
  destruct (Android.getDeviceInfo env) as [device t3].
  unfold Android.collectAndroidInfo_resume.
  destruct (isTermuxApiAvailable_returns env) as [b ->].
  eexists. split; reflexivity.
Qed.

Lemma collectNetworkInfo_miss env st :
  Network.cache_valid st (Effects.Date_now env) = false ->
  exists v,
    Effects.outcome (fst (Network.collectNetworkInfo env st)) = Ok v /\
    snd (Network.collectNetworkInfo env st)
      = {| Network.networkCache := v;
           Network.networkCacheTime := Effects.Date_now env |}.
Proof.
  intros H. unfold Network.collectNetworkInfo. rewrite H.
  assert (Hl : exists i t, Network.parseLinuxNetworkStats env = (Ok i, t)).
  { unfold Network.parseLinuxNetworkStats, Effects.try_catch, Effects.bind,
      Effects.readFile.
    destruct (Effects.readFileSync env "/proc/net/dev");
      do 2 eexists; reflexivity. }
  assert (Hw : exists i t, Network.parseWindowsNetworkStats env = (Ok i, t)).
  { unfold Network.parseWindowsNetworkStats, Effects.try_catch, Effects.bind,
      Effects.exec.
    destruct (Effects.execSync env "netstat -e"); do 2 eexists; reflexivity. }
  destruct Hl as (il & tl & ->). destruct Hw as (iw & tw & ->).
  destruct (String.eqb (Effects.platform env) "linux");
    [|destruct (String.eqb (Effects.platform env) "win32")];
    eexists; split; reflexivity.
Qed.

(** C2 (as amended).  The disk, network and Android probes are the ones
    with a cache.  While a stored entry is within its TTL window, a fetch
    returns it, makes no external call and leaves the cache as it is.  A
    fetch of the disk probe that the cache does not serve makes exactly
    one external call; when that call succeeds its result is stored with
    the current time; when it fails, the failure payload is returned and
    the cache is left as it was: a failure is not stored.  A fetch of the
    network probe, or of the Android probe on Linux, that the cache does
    not serve stores the value it returns, the failure objects of the
    Android sub-probes within it. *)
Theorem cache_stores_successes_only env :
  (forall st,
     Disk.cache_valid st (Effects.Date_now env) = true ->
     Disk.collectDiskInfo env st = ((Ok (Disk.diskCache st), []), st)) /\
  (forall st,
     Network.cache_valid st (Effects.Date_now env) = true ->
     Network.collectNetworkInfo env st
       = ((Ok (Network.networkCache st), []), st)) /\
  (forall st,
     Android.cache_valid st (Effects.Date_now env) = true ->
     Android.collectAndroidInfo env st
       = ((Ok (Android.androidCache st), []), st)) /\
  (forall st,
     Disk.cache_valid st (Effects.Date_now env) = false ->
     exists command,
       Effects.trace (fst (Disk.collectDiskInfo env st)) = [ExecSync command] /\
       match Effects.execSync env command with
       | Throw message =>
           snd (Disk.collectDiskInfo env st) = st /\
           exists error,
             Effects.outcome (fst (Disk.collectDiskInfo env st))
               = Ok (VArr [Disk.failure error message])
       | Ok output =>
           exists disks,
             Effects.outcome (fst (Disk.collectDiskInfo env st))
               = Ok (VArr disks) /\
             snd (Disk.collectDiskInfo env st)
               = {| Disk.diskCache := VArr disks;
                    Disk.diskCacheTime := Effects.Date_now env |}
       end) /\
  (forall st,
     Network.cache_valid st (Effects.Date_now env) = false ->
     exists v,
       Effects.outcome (fst (Network.collectNetworkInfo env st)) = Ok v /\
       snd (Network.collectNetworkInfo env st)
         = {| Network.networkCache := v;
              Network.networkCacheTime := Effects.Date_now env |}) /\
  (forall st,
     Android.cache_valid st (Effects.Date_now env) = false ->
     Effects.platform env = "linux"%string ->
     exists v,
       Effects.outcome (fst (Android.collectAndroidInfo env st)) = Ok v /\
       snd (Android.collectAndroidInfo env st)
         = {| Android.androidCache := v;
              Android.androidCacheTime := Effects.Date_now env |}).
Proof.
  repeat apply conj.
  - apply collectDiskInfo_hit.
  - intros st H. unfold Network.collectNetworkInfo. now rewrite H.
  - intros st H.
    unfold Android.collectAndroidInfo, Android.collectAndroidInfo_start.
    now rewrite H.
  - apply collectDiskInfo_miss.
  - apply collectNetworkInfo_miss.
  - apply collectAndroidInfo_miss.
Qed.

Lemma cache_stores_successes_only_witness :
  let env := Samples.host "linux" 40000 Samples.half
               (Ok Samples.df_output) (Ok Samples.stat_1000) in
  let st := {| Disk.diskCache := VArr []; Disk.diskCacheTime := 39000 |} in
  Disk.collectDiskInfo env st = ((Ok (Disk.diskCache st), []), st).
Proof.
  cbv zeta.
  apply (proj1 (cache_stores_successes_only
                  (Samples.host "linux" 40000 Samples.half
                     (Ok Samples.df_output) (Ok Samples.stat_1000)))
           {| Disk.diskCache := VArr []; Disk.diskCacheTime := 39000 |}).
  reflexivity.
Defined.

(** C2 (counterexample).  [df -kP] fails; the failure is returned and
    the cache stays empty; one millisecond later, well within the 30 s of
    the TTL, a second fetch runs [df -kP] again. *)
Lemma failed_read_is_fetched_again_within_ttl :
  let env1 := Samples.host "linux" 100000 Samples.half
                Samples.df_fails (Ok Samples.stat_1000) in
  let env2 := Samples.host "linux" 100001 Samples.half
                Samples.df_fails (Ok Samples.stat_1000) in
  let first := Disk.collectDiskInfo env1 Disk.initial in
  let second := Disk.collectDiskInfo env2 (snd first) in
  Effects.outcome (fst first)
    = Ok (VArr [Disk.failure "Failed to collect disk information"
                             "Command failed: df -kP"]) /\
  snd first = Disk.initial /\
  Effects.Date_now env2 - Effects.Date_now env1 < Disk.DISK_CACHE_TTL /\
  Effects.trace (fst second) = [ExecSync "df -kP"].
Proof.
  cbv zeta. repeat split.
Qed.

End CacheFacts.

(** ** The aggregator *)

Module ServerFacts.
Import JsString JsValue JsConv Effects Server.

(** An array in a slot raises no warning, whatever it holds. *)
Lemma check_key_array env warnings key items :
  check_key env warnings (key, VArr items) = warnings.
Proof.
  unfold check_key. cbn [JsValue.get].
  change (String.eqb "error" "length") with false. cbn [JsValue.truthy].
  now rewrite !andb_false_r.
Qed.

(** [meta.status] is ["ok"] exactly when no warning was raised, and
    ["partial"] otherwise; [meta.warnings] lists the warnings. *)
Lemma status_reflects_warnings env r :
  let warnings := warnings_of env (metrics_of env r) in
  (warnings = [] ->
   status_of (respond env r) = VStr "ok" /\
   warnings_in (respond env r) = VUndefined) /\
  (warnings <> [] ->
   status_of (respond env r) = VStr "partial" /\
   warnings_in (respond env r) = VArr (map VStr warnings)).
Proof.
  cbv zeta. unfold status_of, warnings_in, respond.
  set (ws := warnings_of env (metrics_of env r)).
  unfold metrics_of. cbn [JsValue.set String.eqb Ascii.eqb Bool.eqb].
  cbn [JsValue.get JsValue.assoc String.eqb Ascii.eqb Bool.eqb].
  unfold meta_of.
  cbn [JsValue.get JsValue.assoc String.eqb Ascii.eqb Bool.eqb].
  split; intros H.
  - rewrite H. split; reflexivity.
  - destruct ws; [congruence|]. split; reflexivity.
Qed.

(** When the six promises are rejected, the six slots hold an [error]
    and six warnings are raised, one for each domain. *)
Lemma six_rejections_six_warnings env a b c d e f :
  let r := {| host := Rejected a; memory := Rejected b; cpu := Rejected c;
              disk := Rejected d; network := Rejected e;
              android := Rejected f |} in
  warnings_of env (metrics_of env r) =
    [ "host: Failed to collect host info";
      "memory: Failed to collect memory info";
      "cpu: Failed to collect CPU info";
      "disk: Failed to collect disk info";
      "network: Failed to collect network info";
      "android: Failed to collect Android info" ] /\
  status_of (respond env r) = VStr "partial".
Proof.
  cbv zeta. split; reflexivity.
Qed.

(** When only the network slot holds a failure object and no other slot
    has a truthy [error], there is exactly one warning, the one of the
    network. *)
Lemma network_failure_one_warning env h m c d a message :
  JsValue.truthy (JsValue.get h "error") = false ->
  JsValue.truthy (JsValue.get m "error") = false ->
  JsValue.truthy (JsValue.get c "error") = false ->
  JsValue.truthy (JsValue.get d "error") = false ->
  JsValue.truthy (JsValue.get a "error") = false ->
  let r := {| host := Fulfilled h; memory := Fulfilled m; cpu := Fulfilled c;
              disk := Fulfilled d;
              network := Fulfilled (Network.catch_payload message);
              android := Fulfilled a |} in
  warnings_of env (metrics_of env r)
    = ["network: Failed to collect network information"] /\
  status_of (respond env r) = VStr "partial".
Proof.
  intros Hh Hm Hc Hd Ha. cbv zeta.
  assert (Hw : warnings_of env
                 (metrics_of env
                    {| host := Fulfilled h; memory := Fulfilled m;
                       cpu := Fulfilled c; disk := Fulfilled d;
                       network := Fulfilled (Network.catch_payload message);
                       android := Fulfilled a |})
               = ["network: Failed to collect network information"]).
  { unfold warnings_of, metrics_of, check_key, slot.
    cbn [fold_left host memory cpu disk network android].
    rewrite Hh, Hm, Hc, Hd, Ha. reflexivity. }
  split; [exact Hw|].
  apply status_reflects_warnings. rewrite Hw. discriminate.
Qed.

(** What a rejected promise leaves in a slot, and what the [catch] of
    every collector but the disk one returns, is an object with an
    [error] key. *)
Lemma other_failures_are_objects message :
  (forall reason error,
     JsValue.has_key "error" (slot (Rejected reason) error) = true) /\
  Forall (fun v => JsValue.is_object v = true /\
                   JsValue.has_key "error" v = true /\
                   JsValue.get v "message" = VStr message)
         [ Host.catch_payload message; Memory.catch_payload message;
           Cpu.catch_payload message; Network.catch_payload message;
           Android.catch_payload message ].
Proof.
  split; [reflexivity|]. repeat constructor.
Qed.

(** C6 (the defect).  On a Linux host where [df -kP] fails, the disk
    probe returns an array that wraps its failure object, and that array
    is what the [disk] slot of the response holds: the slot's value is not
    an object and has no [error] key. *)
Theorem disk_failure_slot_is_an_array :
  let env := Samples.host "linux" 100000 Samples.half
               Samples.df_fails (Ok Samples.stat_1000) in
  let failed := VArr [Disk.failure "Failed to collect disk information"
                                   "Command failed: df -kP"] in
  fst (Disk.collectDiskInfo env Disk.initial)
    = (Ok failed, [ExecSync "df -kP"]) /\
  let response := fst (fst (metrics_handler env Server.initial)) in
  JsValue.get response "disk" = failed /\
  JsValue.is_object (JsValue.get response "disk") = false /\
  JsValue.has_key "error" (JsValue.get response "disk") = false /\
  JsValue.get (JsValue.get response "disk") "error" = VUndefined.
Proof.
  cbv zeta. split; [reflexivity|].
  split; [vm_compute; reflexivity|]. repeat split.
Qed.

(** C1 (the defect).  On a Linux host where [df -kP] fails and the
    other probes work, the [disk] slot holds the failure of the disk
    probe, yet no warning is raised and [meta.status] is ["ok"].  And
    when each of the six slots holds what the [catch] of its collector
    returns, five warnings are raised, none of them for the disk. *)
Theorem disk_failure_raises_no_warning :
  (let env := Samples.host "linux" 100000 Samples.half
                Samples.df_fails (Ok Samples.stat_1000) in
   let response := fst (fst (metrics_handler env Server.initial)) in
   JsValue.get response "disk" = Disk.catch_payload "Command failed: df -kP" /\
   warnings_in response = VUndefined /\
   status_of response = VStr "ok") /\
  (forall env message,
     let r := {| host := Fulfilled (Host.catch_payload message);
                 memory := Fulfilled (Memory.catch_payload message);
                 cpu := Fulfilled (Cpu.catch_payload message);
                 disk := Fulfilled (Disk.catch_payload message);
                 network := Fulfilled (Network.catch_payload message);
                 android := Fulfilled (Android.catch_payload message) |} in
     warnings_of env (metrics_of env r) =
       [ "host: Failed to collect host information";
         "memory: Failed to collect memory information";
         "cpu: Failed to collect CPU information";
         "network: Failed to collect network information";
         "android: Failed to collect Android information" ] /\
     status_of (respond env r) = VStr "partial").
Proof.
  split.
  - cbv zeta. split; [vm_compute; reflexivity|]. split; vm_compute; reflexivity.
  - intros env message. cbv zeta. split; reflexivity.
Qed.

End ServerFacts.

(** ** Strings *)

Module StringFacts.
Import JsString StringSpec.
Local Open Scope string_scope.

Lemma split_ws_from_nonempty s : forall b, split_ws_from b s <> [].
Proof.
  induction s as [|c s IH]; intros b; cbn [split_ws_from]; [discriminate|].
  destruct (is_ws c).
  - destruct b; [apply IH|discriminate].
  - destruct (split_ws_from false s); discriminate.
Qed.

Lemma split_ws_from_token t : forall b r,
  is_token t = true ->
  split_ws_from b (t ++ r)
  = match split_ws_from false r with
    | h :: tl => (t ++ h) :: tl
    | [] => [t]
    end.
Proof.
  induction t as [|c t IH]; intros b r Ht; [discriminate|].
  unfold is_token in Ht. cbn in Ht. apply andb_prop in Ht as [Hc Ht].
  apply negb_true_iff in Hc.
  cbn [String.append split_ws_from]. rewrite Hc.
  destruct t as [|c' t'].
  - cbn [String.append]. destruct (split_ws_from false r); reflexivity.
  - rewrite (IH false r) by (unfold is_token; exact Ht).
    destruct (split_ws_from false r); reflexivity.
Qed.

Lemma split_ws_from_blanks n : forall r,
  split_ws_from true (repeat_char " " n ++ r) = split_ws_from true r.
Proof.
  induction n as [|n IH]; intros r; [reflexivity|].
  cbn [repeat_char String.append split_ws_from].
  change (is_ws " ") with true. cbv iota. apply IH.
Qed.

Lemma layout_starts_with_token first others :
  is_token first = true ->
  exists c s, layout first others = String c s /\ is_ws c = false.
Proof.
  intros Ht. destruct first as [|c s]; [discriminate|].
  unfold is_token in Ht. cbn in Ht. apply andb_prop in Ht as [Hc _].
  apply negb_true_iff in Hc.
  destruct others as [|[n col] rest]; cbn [layout String.append];
    eexists; eexists; split; try reflexivity; exact Hc.
Qed.

Lemma split_ws_layout others : forall first,
  is_token first = true ->
  Forall (fun c => is_token (snd c) = true) others ->
  split_ws (layout first others) = first :: map snd others.
Proof.
  unfold split_ws.
  induction others as [|[n col] rest IH]; intros first Hf Ho.
  - cbn [layout map]. rewrite <- (DigitFacts.append_empty_r first) at 1.
    rewrite split_ws_from_token by exact Hf. cbn [split_ws_from].
    now rewrite DigitFacts.append_empty_r.
  - inversion Ho as [|x l Hcol Hrest]; subst. cbn [snd] in Hcol.
    cbn [layout map snd]. rewrite split_ws_from_token by exact Hf.
    cbn [String.append split_ws_from]. change (is_ws " ") with true.
    cbv iota. rewrite split_ws_from_blanks.
    assert (Hs : split_ws_from true (layout col rest)
                 = split_ws_from false (layout col rest)).
    { destruct (layout_starts_with_token col rest Hcol) as (c & s & E & Hc).
      rewrite E. cbn [split_ws_from]. now rewrite Hc. }
    rewrite Hs, (IH col Hcol Hrest). now rewrite DigitFacts.append_empty_r.
Qed.

Lemma trimStart_layout first others r :
  is_token first = true ->
  trimStart (layout first others ++ r) = layout first others ++ r.
Proof.
  intros Ht. destruct (layout_starts_with_token first others Ht)
    as (c & s & -> & Hc).
  cbn [String.append trimStart]. now rewrite Hc.
Qed.

Lemma append_assoc (a b c : string) : (a ++ b) ++ c = a ++ (b ++ c).
Proof. induction a as [|x a IH]; cbn; [reflexivity|now rewrite IH]. Qed.

Lemma is_empty_app a b : is_empty (a ++ b) = is_empty a && is_empty b.
Proof. destruct a; reflexivity. Qed.

Lemma trimEnd_token_app t : forall r,
  is_token t = true -> trimEnd (t ++ r) = t ++ trimEnd r.
Proof.
  induction t as [|c t IH]; intros r Ht; [discriminate|].
  unfold is_token in Ht. cbn in Ht. apply andb_prop in Ht as [Hc Ht].
  apply negb_true_iff in Hc.
  cbn [String.append trimEnd]. rewrite Hc. cbn [andb].
  destruct t as [|c' t']; [reflexivity|].
  now rewrite (IH r) by (unfold is_token; exact Ht).
Qed.

Lemma trimEnd_blanks n : forall s,
  is_empty (trimEnd s) = false ->
  trimEnd (repeat_char " " n ++ s) = repeat_char " " n ++ trimEnd s.
Proof.
  induction n as [|n IH]; intros s Hs; [reflexivity|].
  cbn [repeat_char String.append trimEnd]. rewrite (IH s Hs).
  rewrite is_empty_app, Hs, andb_false_r, andb_false_r. reflexivity.
Qed.

Lemma trimEnd_layout_app others : forall first r,
  is_token first = true ->
  Forall (fun c => is_token (snd c) = true) others ->
  trimEnd (layout first others ++ r) = layout first others ++ trimEnd r.
Proof.
  induction others as [|[n col] rest IH]; intros first r Hf Ho.
  - cbn [layout]. now apply trimEnd_token_app.
  - inversion Ho as [|x l Hcol Hrest]; subst. cbn [snd] in Hcol.
    cbn [layout]. rewrite !append_assoc.
    rewrite trimEnd_token_app by exact Hf. f_equal.
    cbn [String.append]. rewrite ?append_assoc.
    assert (Hne : is_empty (trimEnd (layout col rest ++ r)) = false).
    { rewrite (IH col r Hcol Hrest), is_empty_app.
      destruct (layout_starts_with_token col rest Hcol) as (c & s & -> & _).
      reflexivity. }
    cbn [trimEnd]. rewrite trimEnd_blanks by exact Hne.
    rewrite is_empty_app, Hne, !andb_false_r.
    now rewrite (IH col r Hcol Hrest).
Qed.

(** A row of columns is left as it is by [trim]. *)
Lemma trim_layout first others :
  is_token first = true ->
  Forall (fun c => is_token (snd c) = true) others ->
  trim (layout first others) = layout first others.
Proof.
  intros Hf Ho. unfold trim.
  rewrite <- (DigitFacts.append_empty_r (layout first others)) at 1.
  rewrite trimStart_layout by exact Hf.
  rewrite trimEnd_layout_app by assumption.
  apply DigitFacts.append_empty_r.
Qed.

Lemma ws_free_free_of_LF s : ws_free s = true -> free_of LF s = true.
Proof.
  induction s as [|c s IH]; [reflexivity|]. cbn [ws_free free_of].
  intros H. apply andb_prop in H as [Hc Hs]. rewrite (IH Hs), andb_true_r.
  destruct (Ascii.eqb c LF) eqn:E; [|reflexivity].
  apply Ascii.eqb_eq in E. subst c. discriminate Hc.
Qed.

Lemma free_of_app c a b :
  free_of c (a ++ b) = free_of c a && free_of c b.
Proof.
  induction a as [|x a IH]; [reflexivity|]. cbn [String.append free_of].
  now rewrite IH, andb_assoc.
Qed.

Lemma free_of_LF_blanks n : free_of LF (repeat_char " " n) = true.
Proof. induction n as [|n IH]; [reflexivity|]. cbn [repeat_char free_of]. exact IH. Qed.

Lemma free_of_LF_layout others : forall first,
  is_token first = true ->
  Forall (fun c => is_token (snd c) = true) others ->
  free_of LF (layout first others) = true.
Proof.
  induction others as [|[n col] rest IH]; intros first Hf Ho.
  - cbn [layout]. apply ws_free_free_of_LF.
    unfold is_token in Hf. now apply andb_prop in Hf as [_ Hf].
  - inversion Ho as [|x l Hcol Hrest]; subst. cbn [snd] in Hcol.
    cbn [layout]. rewrite free_of_app.
    assert (H1 : free_of LF first = true).
    { apply ws_free_free_of_LF. unfold is_token in Hf.
      now apply andb_prop in Hf as [_ Hf]. }
    rewrite H1. cbn [String.append free_of andb].
    change (negb (Ascii.eqb " " LF)) with true. cbn [andb].
    now rewrite free_of_app, free_of_LF_blanks, (IH col Hcol Hrest).
Qed.

Lemma split_first_line l : forall r,
  free_of LF l = true ->
  hd EmptyString (split LF (l ++ String LF r)) = l.
Proof.
  induction l as [|c l IH]; intros r Hl.
  - cbn [String.append split]. now rewrite Ascii.eqb_refl.
  - cbn [free_of] in Hl. apply andb_prop in Hl as [Hc Hl].
    apply negb_true_iff in Hc.
    cbn [String.append split]. rewrite Hc.
    specialize (IH r Hl).
    destruct (split LF (l ++ String LF r)) as [|h t]; cbn [hd] in *;
      now rewrite IH.
Qed.

Lemma split_only_line l :
  free_of LF l = true -> split LF l = [l].
Proof.
  induction l as [|c l IH]; intros Hl; [reflexivity|].
  cbn [free_of] in Hl. apply andb_prop in Hl as [Hc Hl].
  apply negb_true_iff in Hc. cbn [split]. rewrite Hc, (IH Hl). reflexivity.
Qed.

(** The first line of a text that starts with a row of columns is that
    row, whatever follows it. *)
Lemma first_line_of_text first others more :
  is_token first = true ->
  Forall (fun c => is_token (snd c) = true) others ->
  hd EmptyString (split LF (trim (unlines (layout first others :: more))))
  = layout first others.
Proof.
  intros Hf Ho. unfold trim. cbn [unlines].
  rewrite trimStart_layout by exact Hf.
  rewrite trimEnd_layout_app by assumption.
  pose proof (free_of_LF_layout others first Hf Ho) as Hfree.
  cbn [trimEnd]. destruct (is_ws LF && is_empty (trimEnd (unlines more))).
  - rewrite DigitFacts.append_empty_r, split_only_line by exact Hfree.
    reflexivity.
  - now apply split_first_line.
Qed.

End StringFacts.

(** ** Reading the listings back *)

Module ParseFacts.
Import JsString JsParse JsValue JsNum StringSpec ParseSpec StringFacts.
Local Open Scope string_scope.

Lemma uint_ws_free u : ws_free (DecimalString.NilEmpty.string_of_uint u) = true.
Proof. induction u; cbn; auto. Qed.

Lemma uint_free_of_percent u :
  free_of "%" (DecimalString.NilEmpty.string_of_uint u) = true.
Proof. induction u; cbn; auto. Qed.

Lemma digits_is_token n : is_token (digits_of_N n) = true.
Proof.
  unfold is_token, digits_of_N. rewrite uint_ws_free, andb_true_r.
  destruct (DigitFacts.to_uint_digits n) as [k Hk].
  destruct (N.to_uint n); try discriminate Hk; reflexivity.
Qed.

Lemma ws_free_app a b : ws_free (a ++ b) = ws_free a && ws_free b.
Proof.
  induction a as [|c a IH]; [reflexivity|]. cbn [String.append ws_free].
  now rewrite IH, andb_assoc.
Qed.

Lemma percent_is_token n : is_token (digits_of_N n ++ "%") = true.
Proof.
  pose proof (digits_is_token n) as H. unfold is_token in *.
  apply andb_prop in H as [Hne Hws].
  rewrite ws_free_app, Hws. rewrite is_empty_app.
  apply negb_true_iff in Hne. rewrite Hne. reflexivity.
Qed.

Lemma digits_no_hex_prefix n :
  strip_hex_prefix (digits_of_N n) = (10%N, digits_of_N n).
Proof.
  unfold digits_of_N.
  destruct (N.to_uint n) as [|u|u|u|u|u|u|u|u|u|u]; try reflexivity.
  destruct u; reflexivity.
Qed.

(** [parseInt] reads back the digits of a number. *)
Lemma parseInt_digits n :
  parseInt (Some (digits_of_N n)) = of_Z (Z.of_N n).
Proof.
  unfold parseInt.
  destruct (DigitFacts.digits_head n EmptyString) as (Htrim & Hsign & _).
  rewrite DigitFacts.append_empty_r in Htrim, Hsign.
  rewrite Htrim, Hsign, digits_no_hex_prefix.
  rewrite <- (DigitFacts.append_empty_r (digits_of_N n)).
  rewrite DigitFacts.digits_of_N_parsed.
  destruct (DigitFacts.to_uint_digits n) as [k ->]. reflexivity.
Qed.

Lemma remove_first_end c s :
  free_of c s = true ->
  remove_first c (s ++ String c EmptyString) = s.
Proof.
  induction s as [|a s IH]; intros H.
  - cbn. now rewrite Ascii.eqb_refl.
  - cbn [free_of] in H. apply andb_prop in H as [Ha Hs].
    apply negb_true_iff in Ha. cbn [String.append remove_first].
    now rewrite Ha, (IH Hs).
Qed.

Lemma parseInt_percent n :
  parseInt (Some (remove_first "%" (digits_of_N n ++ "%"))) = of_Z (Z.of_N n).
Proof.
  rewrite remove_first_end by apply uint_free_of_percent.
  apply parseInt_digits.
Qed.


(** X1.  A line of [df -kP] laid out in six columns, whose filesystem
    and mountpoint are not skipped and whose counts are below 2^53, adds
    one entry that carries the filesystem and the mountpoint as they are,
    the three sizes in bytes (the 1 KiB blocks of the listing times 1024)
    and the percentage of the capacity column as a number, whatever the
    number of blanks between the columns. *)
Theorem parseDfOutput_line_reads_row
  gap filesystem size used available capacity mountpoint disks :
  is_token filesystem = true ->
  is_token mountpoint = true ->
  Disk.is_special filesystem mountpoint = false ->
  forallb exact [size; used; available; capacity] = true ->
  exists entry,
    Disk.parseDfOutput_line disks
      (df_row gap filesystem size used available capacity mountpoint)
      = (disks ++ [entry])%list /\
    JsValue.get entry "filesystem" = VStr filesystem /\
    JsValue.get entry "mountpoint" = VStr mountpoint /\
    JsValue.get entry "sizeBytes"
      = VNum (mul (of_Z (Z.of_N size)) (of_Z 1024)) /\
    JsValue.get entry "usedBytes"
      = VNum (mul (of_Z (Z.of_N used)) (of_Z 1024)) /\
    JsValue.get entry "availableBytes"
      = VNum (mul (of_Z (Z.of_N available)) (of_Z 1024)) /\
    JsValue.get entry "usagePercent" = VNum (of_Z (Z.of_N capacity)).
Proof.
  intros Hfs Hmp Hsp _.
  assert (Hcols : Forall (fun c : nat * string => is_token (snd c) = true)
                    [ (gap 0%nat, digits_of_N size);
                      (gap 1%nat, digits_of_N used);
                      (gap 2%nat, digits_of_N available);
                      (gap 3%nat, digits_of_N capacity ++ "%");
                      (gap 4%nat, mountpoint) ]).
  { repeat constructor; cbn [snd];
      auto using digits_is_token, percent_is_token. }
  unfold Disk.parseDfOutput_line, df_row.
  rewrite (trim_layout _ _ Hfs Hcols), (split_ws_layout _ _ Hfs Hcols).
  cbn [map snd length Nat.leb]. rewrite Hsp.
  eexists. split; [reflexivity|].
  unfold Disk.df_entry, Disk.kb.
  rewrite !parseInt_digits, parseInt_percent.
  repeat split.
Qed.

Lemma parseDfOutput_line_reads_row_witness :
  exists entry,
    Disk.parseDfOutput_line []
      (df_row (fun _ => 3%nat) "/dev/sda1" 61255492 12345678 45678901 22 "/")
      = [entry] /\
    JsValue.get entry "sizeBytes"
      = VNum (mul (of_Z 61255492) (of_Z 1024)) /\
    JsValue.get entry "usagePercent" = VNum (of_Z 22).
Proof.
  destruct (parseDfOutput_line_reads_row (fun _ => 3%nat) "/dev/sda1"
              61255492 12345678 45678901 22 "/" []
              eq_refl eq_refl eq_refl eq_refl)
    as (entry & H & _ & _ & Hsize & _ & _ & Hpct).
  exists entry. repeat split; assumption.
Defined.

(** X2.  From a [/proc/stat] whose first line is [cpu] followed by at
    least seven counters, the sample read has the sum of the first seven
    counters (user, nice, system, idle, iowait, irq, softirq) as its
    total, the fourth as idle and the fifth as iowait; further counters
    of that line and the other lines of the file do not count. *)
Theorem read_sample_of_counters
  user nice system idle iowait irq softirq extras more :
  let s := Cpu.read_sample
             (unlines (stat_line (user :: nice :: system :: idle :: iowait
                                  :: irq :: softirq :: extras) :: more)) in
  equiv (Cpu.total s)
        (of_Z (Z.of_N (user + nice + system + idle + iowait + irq + softirq)))
  /\ Cpu.idle s = of_Z (Z.of_N idle)
  /\ Cpu.iowait s = of_Z (Z.of_N iowait).
Proof.
  cbv zeta. unfold Cpu.read_sample, Cpu.cpuLine_of, stat_line.
  set (cols := (1%nat, digits_of_N user)
               :: map (fun n => (0%nat, digits_of_N n))
                      (nice :: system :: idle :: iowait :: irq :: softirq
                       :: extras)).
  assert (Hcols : Forall (fun c : nat * string => is_token (snd c) = true) cols).
  { unfold cols. constructor; [apply digits_is_token|].
    apply Forall_map, Forall_forall. intros n _. apply digits_is_token. }
  rewrite (first_line_of_text "cpu" cols more eq_refl Hcols).
  rewrite (split_ws_layout cols "cpu" eq_refl Hcols).
  unfold cols. cbn [map snd Cpu.slice_1_8 skipn firstn fold_left nth_error
                    Cpu.total Cpu.idle Cpu.iowait].
  rewrite !parseInt_digits. repeat split.
  - unfold equiv, add, of_Z.
    rewrite !N2Z.inj_add, !inject_Z_plus. ring.
  - destruct iowait; reflexivity.
Qed.

End ParseFacts.

(** ** Human-readable sizes *)

Module SizeFacts.
Import JsString JsValue JsNum NumFacts.
Local Open Scope Q_scope.

Lemma formatSize_loop_spec fuel : forall size idx,
  (idx + fuel = 4)%nat -> 0 <= size ->
  exists s i,
    Disk.formatSize_loop fuel (Num size) idx = (Num s, i) /\
    (idx <= i <= 4)%nat /\
    size == s * inject_Z (1024 ^ Z.of_nat (i - idx)) /\
    ((i < 4)%nat -> s < 1024) /\
    ((idx < i)%nat -> 1 <= s) /\
    0 <= s.
Proof.
  induction fuel as [|fuel IH]; intros size idx Hfuel Hpos.
  - exists size, idx. cbn [Disk.formatSize_loop].
    rewrite Nat.sub_diag. repeat split; try lia; try lra.
    change (inject_Z (1024 ^ Z.of_nat 0)) with 1. ring.
  - cbn [Disk.formatSize_loop].
    assert (Hidx : (idx <? length Disk.units - 1)%nat = true)
      by (apply Nat.ltb_lt; cbn; lia).
    rewrite Hidx, andb_true_r. unfold ge, lt, of_Z.
    destruct (Qltb size (inject_Z 1024)) eqn:E; cbn [negb].
    + apply Qltb_true in E. change (inject_Z 1024) with 1024 in E.
      exists size, idx. rewrite Nat.sub_diag.
      repeat split; try lia; try lra.
      change (inject_Z (1024 ^ Z.of_nat 0)) with 1. ring.
    + apply Qltb_false in E. change (inject_Z 1024) with 1024 in E.
      unfold div. change (inject_Z 1024 ?= 0) with Gt. cbv iota.
      destruct (IH (size / inject_Z 1024) (S idx)) as (s & i & Hrun & Hi & Heq & Hlt & Hge & Hs0).
      { lia. }
      { change (inject_Z 1024) with 1024. apply Qle_shift_div_l; lra. }
      exists s, i. split; [exact Hrun|].
      assert (Hdiv : 1 <= size / 1024) by (apply Qle_shift_div_l; lra).
      change (inject_Z 1024) with 1024 in Heq.
      repeat split; try lia; auto.
      * replace (i - idx)%nat with (S (i - S idx)) by lia.
        rewrite Nat2Z.inj_succ, Z.pow_succ_r by lia.
        rewrite inject_Z_mult. change (inject_Z 1024) with 1024.
        assert (H : size == size / 1024 * 1024) by (field).
        rewrite H, Heq. ring.
      * intros _. destruct (Nat.eq_dec i (S idx)) as [->|Hne].
        -- rewrite Nat.sub_diag in Heq.
           change (inject_Z (1024 ^ Z.of_nat 0)) with 1 in Heq. lra.
        -- apply Hge. lia.
Qed.


Lemma unit_of_index i :
  (i <= 4)%nat ->
  exists unit, nth_error Disk.units i = Some unit /\
               nth i Disk.units "undefined"%string = unit /\
               nth i Network.units "undefined"%string = unit.
Proof.
  intros H.
  destruct i as [|[|[|[|[|i]]]]]; try lia; eexists; repeat split.
Qed.

(** Rounding to [d] decimals keeps a number between the whole numbers
    that enclose it. *)
Lemma rounded_bounds d q a b :
  (0 <= a)%Z -> inject_Z a <= q -> q <= inject_Z b ->
  inject_Z a <= NumSpec.rounded d q /\ NumSpec.rounded d q <= inject_Z b.
Proof.
  intros Ha Hlo Hhi. unfold NumSpec.rounded.
  assert (Hq : 0 <= q).
  { apply Qle_trans with (inject_Z a); [|exact Hlo].
    change 0 with (inject_Z 0). now rewrite <- Zle_Qle. }
  destruct (Qltb q 0) eqn:E; [apply Qltb_true in E; lra|].
  unfold scaled.
  set (p := (10 ^ Z.of_nat d)%Z).
  assert (Hp : (0 < p)%Z) by (apply Z.pow_pos_nonneg; lia).
  assert (HpQ : 0 < inject_Z p) by (rewrite Zlt_Qlt in Hp; exact Hp).
  set (n := Qfloor (q * inject_Z p + (1 # 2))).
  assert (Hna : (a * p <= n)%Z).
  { rewrite <- (Qfloor_Z (a * p)). apply Qfloor_resp_le.
    rewrite inject_Z_mult. nra. }
  assert (Hnb : (n <= b * p)%Z).
  { assert (Hlt : (n < b * p + 1)%Z).
    { rewrite Zlt_Qlt. apply Qle_lt_trans with (q * inject_Z p + (1 # 2)).
      - apply Qfloor_le.
      - rewrite inject_Z_plus, inject_Z_mult. change (inject_Z 1) with 1. nra. }
    lia. }
  assert (Hn0 : (0 <= n)%Z) by nia.
  rewrite Z2N.id by exact Hn0.
  split.
  - apply Qle_shift_div_l; [exact HpQ|]. rewrite Zle_Qle in Hna.
    rewrite inject_Z_mult in Hna. exact Hna.
  - apply Qle_shift_div_r; [exact HpQ|]. rewrite Zle_Qle in Hnb.
    rewrite inject_Z_mult in Hnb. exact Hnb.
Qed.

(** What [toFixed(1)] prints for a quotient of the loop. *)
Lemma printed_bounds s (i : nat) :
  0 <= s -> ((i < 4)%nat -> s < 1024) -> ((0 < i)%nat -> 1 <= s) ->
  exists printed,
    JsParse.parseFloat (toFixed 1 (Num s)) = Num printed /\
    printed == NumSpec.rounded 1 s /\
    ((i < 4)%nat -> printed <= 1024) /\
    ((0 < i)%nat -> 1 <= printed).
Proof.
  intros H0 Hlt Hge.
  destruct (DigitFacts.parseFloat_toFixed 1 s) as (printed & Hp & Hr).
  exists printed. split; [exact Hp|]. split; [exact Hr|]. split.
  - intros Hi. rewrite Hr.
    apply (rounded_bounds 1 s 0 1024); [lia|exact H0|].
    change (inject_Z 1024) with 1024. specialize (Hlt Hi). lra.
  - intros Hi. rewrite Hr. specialize (Hge Hi).
    destruct (Qlt_le_dec s 1024) as [Hs|Hs].
    + apply (rounded_bounds 1 s 1 1024); [lia|exact Hge|].
      change (inject_Z 1024) with 1024. lra.
    + apply Qle_trans with (inject_Z 1024); [discriminate|].
      apply (rounded_bounds 1 s 1024 (Qceiling s)); [lia|exact Hs|].
      apply Qle_ceiling.
Qed.

(** X3.  For a whole number of bytes below 2^53, [formatSize] prints the
    quotient of the bytes by a power of 1024, rounded to one decimal,
    followed by the unit of that power.  The quotient is below 1024
    unless the unit is TB, the last one, and at least 1 unless the unit
    is B; the number printed is the quotient rounded, so it is at least 1
    unless the unit is B and at most 1024 unless the unit is TB: the
    rounding can bring it to 1024 itself. *)
Theorem formatSize_picks_unit (bytes : N) :
  ParseSpec.exact bytes = true ->
  exists s i unit printed,
    Disk.formatSize (of_Z (Z.of_N bytes)) = (toFixed 1 (Num s) ++ unit)%string /\
    nth_error Disk.units i = Some unit /\
    inject_Z (Z.of_N bytes) == s * inject_Z (1024 ^ Z.of_nat i) /\
    ((i < 4)%nat -> s < 1024) /\
    ((0 < i)%nat -> 1 <= s) /\
    JsParse.parseFloat (toFixed 1 (Num s)) = Num printed /\
    printed == NumSpec.rounded 1 s /\
    ((i < 4)%nat -> printed <= 1024) /\
    ((0 < i)%nat -> 1 <= printed).
Proof.
  intros _.
  assert (Hpos : 0 <= inject_Z (Z.of_N bytes)).
  { change 0 with (inject_Z 0). rewrite <- Zle_Qle. lia. }
  destruct (formatSize_loop_spec 4 (inject_Z (Z.of_N bytes)) 0 eq_refl Hpos)
    as (s & i & Hrun & Hi & Heq & Hlt & Hge & Hs0).
  destruct (unit_of_index i) as (unit & Hnth & Hunit & _); [lia|].
  destruct (printed_bounds s i Hs0 Hlt Hge) as (printed & Hp & Hr & Hhi & Hlo).
  exists s, i, unit, printed. unfold Disk.formatSize, of_Z.
  change (length Disk.units - 1)%nat with 4%nat. rewrite Hrun, Hunit.
  rewrite Nat.sub_0_r in Heq. repeat split; assumption.
Qed.

Lemma formatSize_picks_unit_witness :
  Disk.formatSize (of_Z 1048575) = "1024.0KB"%string /\
  exists s i unit printed,
    Disk.formatSize (of_Z (Z.of_N 1048575))
      = (toFixed 1 (Num s) ++ unit)%string /\
    nth_error Disk.units i = Some unit /\
    inject_Z (Z.of_N 1048575) == s * inject_Z (1024 ^ Z.of_nat i) /\
    ((i < 4)%nat -> s < 1024) /\
    ((0 < i)%nat -> 1 <= s) /\
    JsParse.parseFloat (toFixed 1 (Num s)) = Num printed /\
    printed == NumSpec.rounded 1 s /\
    ((i < 4)%nat -> printed <= 1024) /\
    ((0 < i)%nat -> 1 <= printed).
Proof.
  split; [vm_compute; reflexivity|].
  apply (formatSize_picks_unit 1048575). reflexivity.
Defined.

(** X4.  [formatBytes] prints zero as [0 B].  For a whole number of
    bytes below 2^53 that is not zero it prints the quotient of the bytes
    by a power of 1024, rounded to one decimal, a blank, and the unit of
    that power; the quotient is below 1024 unless the unit is TB and at
    least 1 unless the unit is B, and the number printed, the quotient
    rounded, is at least 1 unless the unit is B and at most 1024 unless
    the unit is TB. *)
Theorem formatBytes_picks_unit (bytes : N) :
  ParseSpec.exact bytes = true ->
  (bytes = 0%N -> Network.formatBytes (of_Z (Z.of_N bytes)) = "0 B"%string) /\
  (bytes <> 0%N ->
   exists s i unit printed,
     Network.formatBytes (of_Z (Z.of_N bytes))
       = (toFixed 1 (Num s) ++ " " ++ unit)%string /\
     nth_error Network.units i = Some unit /\
     inject_Z (Z.of_N bytes) == s * inject_Z (1024 ^ Z.of_nat i) /\
     ((i < 4)%nat -> s < 1024) /\
     ((0 < i)%nat -> 1 <= s) /\
     JsParse.parseFloat (toFixed 1 (Num s)) = Num printed /\
     printed == NumSpec.rounded 1 s /\
     ((i < 4)%nat -> printed <= 1024) /\
     ((0 < i)%nat -> 1 <= printed)).
Proof.
  intros _. split.
  - intros ->. reflexivity.
  - intros Hne.
    assert (Hpos : 0 < inject_Z (Z.of_N bytes)).
    { change 0 with (inject_Z 0). rewrite <- Zlt_Qlt. lia. }
    unfold Network.formatBytes, strict_eq, of_Z.
    destruct (Qeq_bool (inject_Z (Z.of_N bytes)) 0) eqn:E;
      [apply Qeq_bool_iff in E; lra|].
    destruct (formatSize_loop_spec 4 (inject_Z (Z.of_N bytes)) 0 eq_refl)
      as (s & i & Hrun & Hi & Heq & Hlt & Hge & Hs0); [lra|].
    destruct (unit_of_index i) as (unit & Hnth & _ & Hunit); [lia|].
    destruct (printed_bounds s i Hs0 Hlt Hge) as (printed & Hp & Hr & Hhi & Hlo).
    exists s, i, unit, printed.
    change (length Network.units - 1)%nat with 4%nat. rewrite Hrun, Hunit.
    rewrite Nat.sub_0_r in Heq. repeat split; assumption.
Qed.

Lemma formatBytes_picks_unit_witness :
  Network.formatBytes (of_Z 0) = "0 B"%string /\
  Network.formatBytes (of_Z 1048575) = "1024.0 KB"%string /\
  exists s i unit printed,
    Network.formatBytes (of_Z (Z.of_N 1048575))
      = (toFixed 1 (Num s) ++ " " ++ unit)%string /\
    nth_error Network.units i = Some unit /\
    inject_Z (Z.of_N 1048575) == s * inject_Z (1024 ^ Z.of_nat i) /\
    ((i < 4)%nat -> s < 1024) /\
    ((0 < i)%nat -> 1 <= s) /\
    JsParse.parseFloat (toFixed 1 (Num s)) = Num printed /\
    printed == NumSpec.rounded 1 s /\
    ((i < 4)%nat -> printed <= 1024) /\
    ((0 < i)%nat -> 1 <= printed).
Proof.
  split; [|split].
  - apply (proj1 (formatBytes_picks_unit 0 eq_refl)). reflexivity.
  - vm_compute. reflexivity.
  - apply (proj2 (formatBytes_picks_unit 1048575 eq_refl)). discriminate.
Defined.

End SizeFacts.

(** ** The disk listing as a whole *)

Module DiskListFacts.
Import JsString JsValue Effects StringSpec.

Lemma fold_parseDfOutput_line_acc lines : forall disks,
  fold_left Disk.parseDfOutput_line lines disks
  = disks ++ fold_left Disk.parseDfOutput_line lines [].
Proof.
  induction lines as [|line lines IH]; intros disks; cbn [fold_left].
  - now rewrite app_nil_r.
  - rewrite (IH (Disk.parseDfOutput_line disks line)),
            (IH (Disk.parseDfOutput_line [] line)).
    rewrite app_assoc. f_equal.
    unfold Disk.parseDfOutput_line.
    destruct (6 <=? _)%nat; [|now rewrite app_nil_r].
    destruct (split_ws (trim line)) as [|a [|b [|c [|d [|e [|f rest]]]]]];
      try now rewrite app_nil_r.
    destruct (Disk.is_special a f); [now rewrite app_nil_r|reflexivity].
Qed.

Lemma parseDfOutput_line_grows disks line :
  length (Disk.parseDfOutput_line disks line) <= S (length disks).
Proof.
  unfold Disk.parseDfOutput_line.
  destruct (6 <=? _)%nat; [|lia].
  destruct (split_ws (trim line)) as [|a [|b [|c [|d [|e [|f rest]]]]]];
    try lia.
  destruct (Disk.is_special a f); [lia|]. rewrite length_app. cbn. lia.
Qed.

Lemma fold_parseDfOutput_line_length lines : forall disks,
  length (fold_left Disk.parseDfOutput_line lines disks)
  <= length disks + length lines.
Proof.
  induction lines as [|line lines IH]; intros disks; cbn [fold_left length].
  - lia.
  - specialize (IH (Disk.parseDfOutput_line disks line)).
    pose proof (parseDfOutput_line_grows disks line). lia.
Qed.

(** X5.  The lines of a listing are parsed one by one and in order: the
    entries of two runs of lines put together are the entries of the
    first run followed by those of the second. *)
Theorem parseDfOutput_lines_app (lines1 lines2 : list string) :
  Disk.parseDfOutput_lines (lines1 ++ lines2)
  = Disk.parseDfOutput_lines lines1 ++ Disk.parseDfOutput_lines lines2.
Proof.
  unfold Disk.parseDfOutput_lines. rewrite fold_left_app.
  apply fold_parseDfOutput_line_acc.
Qed.

(** X6.  The first line of the output, the header, is never parsed: an
    output of one line gives no entry, and the result never has more
    entries than the output has lines after the first. *)
Theorem parseDfOutput_skips_header (output : string) :
  (free_of LF (trim output) = true -> Disk.parseDfOutput output = []) /\
  length (Disk.parseDfOutput output)
    <= length (split LF (trim output)) - 1.
Proof.
  split.
  - intros H. unfold Disk.parseDfOutput.
    now rewrite (StringFacts.split_only_line _ H).
  - unfold Disk.parseDfOutput, Disk.parseDfOutput_lines.
    pose proof (fold_parseDfOutput_line_length
                  (skipn 1 (split LF (trim output))) []) as H.
    rewrite length_skipn in H. cbn [length] in H. lia.
Qed.

Lemma parseDfOutput_skips_header_witness :
  Disk.parseDfOutput
    "Filesystem     1024-blocks     Used Available Capacity Mounted on" = [].
Proof.
  apply (proj1 (parseDfOutput_skips_header
    "Filesystem     1024-blocks     Used Available Capacity Mounted on")).
  reflexivity.
Defined.

End DiskListFacts.

(** ** Fetching again *)

Module RefetchFacts.
Import JsString JsValue Effects CacheSpec.
Local Open Scope Z_scope.

Lemma disk_store env st output :
  Disk.cache_valid st (Date_now env) = false ->
  execSync env (disk_command env) = Ok output ->
  exists disks,
    Disk.collectDiskInfo env st
    = ((Ok (VArr disks), [ExecSync (disk_command env)]),
       {| Disk.diskCache := VArr disks; Disk.diskCacheTime := Date_now env |}).
Proof.
  intros Hmiss Hrun. unfold Disk.collectDiskInfo, disk_command, exec in *.
  rewrite Hmiss.
  destruct (String.eqb (platform env) "win32"); rewrite Hrun;
    eexists; reflexivity.
Qed.

Lemma disk_refetch env1 env2 st output :
  Disk.cache_valid st (Date_now env1) = false ->
  execSync env1 (disk_command env1) = Ok output ->
  Date_now env2 - Date_now env1 < Disk.DISK_CACHE_TTL ->
  Disk.collectDiskInfo env2 (snd (Disk.collectDiskInfo env1 st))
  = ((fst (fst (Disk.collectDiskInfo env1 st)), []),
     snd (Disk.collectDiskInfo env1 st)).
Proof.
  intros Hmiss Hrun Hage.
  destruct (disk_store env1 st output Hmiss Hrun) as [disks ->].
  cbn [fst snd]. unfold Disk.collectDiskInfo, Disk.cache_valid.
  cbn [Disk.diskCache Disk.diskCacheTime JsValue.truthy andb].
  apply Z.ltb_lt in Hage. now rewrite Hage.
Qed.

(** X7.  After a fetch of the disk probe ran its command with success,
    every fetch less than 30 s later (by the clock) returns the very same
    value without any external call and leaves the cache as it is; a
    fetch 30 s later or more runs the command of its platform again. *)
Theorem disk_fetch_again env1 env2 st output :
  Disk.cache_valid st (Date_now env1) = false ->
  execSync env1 (disk_command env1) = Ok output ->
  let first := Disk.collectDiskInfo env1 st in
  let second := Disk.collectDiskInfo env2 (snd first) in
  (Date_now env2 - Date_now env1 < 30000 ->
   second = ((fst (fst first), []), snd first)) /\
  (30000 <= Date_now env2 - Date_now env1 ->
   Effects.trace (fst second) = [ExecSync (disk_command env2)]).
Proof.
  intros Hmiss Hrun. cbv zeta. split.
  - intros Hage. now apply (disk_refetch env1 env2 st output).
  - intros Hage.
    destruct (disk_store env1 st output Hmiss Hrun) as [disks ->].
    cbn [fst snd]. unfold Disk.collectDiskInfo, Disk.cache_valid, disk_command, exec.
    cbn [Disk.diskCache Disk.diskCacheTime JsValue.truthy andb].
    assert (H : (Date_now env2 - Date_now env1 <? Disk.DISK_CACHE_TTL) = false)
      by (apply Z.ltb_ge; exact Hage).
    rewrite H.
    destruct (String.eqb (platform env2) "win32").
    + destruct (execSync env2 Disk.wmic_command); reflexivity.
    + destruct (execSync env2 "df -kP"); reflexivity.
Qed.

Lemma disk_fetch_again_witness :
  let env1 := Samples.host "linux" 100000 Samples.half
                (Ok Samples.df_output) (Ok Samples.stat_1000) in
  let env2 := Samples.host "linux" 129999 Samples.half
                Samples.df_fails (Ok Samples.stat_1000) in
  let env3 := Samples.host "linux" 130000 Samples.half
                Samples.df_fails (Ok Samples.stat_1000) in
  let first := Disk.collectDiskInfo env1 Disk.initial in
  Disk.collectDiskInfo env2 (snd first) = ((fst (fst first), []), snd first) /\
  Effects.trace (fst (Disk.collectDiskInfo env3 (snd first)))
    = [ExecSync "df -kP"].
Proof.
  cbv zeta. split.
  - apply (proj1 (disk_fetch_again
             (Samples.host "linux" 100000 Samples.half
                (Ok Samples.df_output) (Ok Samples.stat_1000))
             (Samples.host "linux" 129999 Samples.half
                Samples.df_fails (Ok Samples.stat_1000))
             Disk.initial Samples.df_output eq_refl eq_refl)).
    reflexivity.
  - apply (proj2 (disk_fetch_again
             (Samples.host "linux" 100000 Samples.half
                (Ok Samples.df_output) (Ok Samples.stat_1000))
             (Samples.host "linux" 130000 Samples.half
                Samples.df_fails (Ok Samples.stat_1000))
             Disk.initial Samples.df_output eq_refl eq_refl)).
    discriminate.
Defined.


Lemma network_store env st :
  Network.cache_valid st (Date_now env) = false ->
  exists fields t,
    Network.collectNetworkInfo env st
    = ((Ok (VObj fields), t),
       {| Network.networkCache := VObj fields;
          Network.networkCacheTime := Date_now env |}) /\
    (length t <= 1)%nat /\
    (String.eqb (platform env) "linux" = false ->
     String.eqb (platform env) "win32" = false ->
     fields = [] /\ t = []).
Proof.
  intros H. unfold Network.collectNetworkInfo. rewrite H.
  destruct (String.eqb (platform env) "linux").
  - unfold Network.parseLinuxNetworkStats, try_catch, bind, readFile.
    destruct (readFileSync env "/proc/net/dev");
      do 2 eexists; (split; [reflexivity|]); split; cbn; try lia;
      discriminate.
  - destruct (String.eqb (platform env) "win32").
    + unfold Network.parseWindowsNetworkStats, try_catch, bind, exec.
      destruct (execSync env "netstat -e");
        do 2 eexists; (split; [reflexivity|]); split; cbn; try lia;
        discriminate.
    + do 2 eexists. split; [reflexivity|]. split; [cbn; lia|].
      intros _ _. split; reflexivity.
Qed.

Lemma network_refetch env1 env2 st :
  Network.cache_valid st (Date_now env1) = false ->
  Date_now env2 - Date_now env1 < Network.NETWORK_CACHE_TTL ->
  Network.collectNetworkInfo env2 (snd (Network.collectNetworkInfo env1 st))
  = ((fst (fst (Network.collectNetworkInfo env1 st)), []),
     snd (Network.collectNetworkInfo env1 st)).
Proof.
  intros Hmiss Hage.
  destruct (network_store env1 st Hmiss) as (fields & t & -> & _).
  cbn [fst snd]. unfold Network.collectNetworkInfo, Network.cache_valid.
  cbn [Network.networkCache Network.networkCacheTime JsValue.truthy andb].
  apply Z.ltb_lt in Hage. now rewrite Hage.
Qed.

Lemma android_store env st :
  Android.cache_valid st (Date_now env) = false ->
  platform env = "linux"%string ->
  exists fields t,
    Android.collectAndroidInfo env st
    = ((Ok (VObj fields), t),
       {| Android.androidCache := VObj fields;
          Android.androidCacheTime := Date_now env |}) /\
    JsValue.assoc "available" fields = VBool true /\
    JsValue.assoc "error" fields = VUndefined.
Proof.
  intros H Hp.
  unfold Android.collectAndroidInfo, Android.collectAndroidInfo_start.
  rewrite H, Hp. change (negb ("linux" =? "linux")%string) with false.
  cbv iota.
  destruct (Android.getBatteryInfo env) as [battery t1].
  destruct (Android.getThermalInfo env) as [thermal t2].
  destruct (Android.getDeviceInfo env) as [device t3].
  unfold Android.collectAndroidInfo_resume.
  destruct (CacheFacts.isTermuxApiAvailable_returns env) as [b ->].
  do 2 eexists. split; [reflexivity|]. split; reflexivity.
Qed.

Lemma android_refetch env1 env2 st :
  Android.cache_valid st (Date_now env1) = false ->
  platform env1 = "linux"%string ->
  Date_now env2 - Date_now env1 < Android.ANDROID_CACHE_TTL ->
  Android.collectAndroidInfo env2 (snd (Android.collectAndroidInfo env1 st))
  = ((fst (fst (Android.collectAndroidInfo env1 st)), []),
     snd (Android.collectAndroidInfo env1 st)).
Proof.
  intros Hmiss Hp Hage.
  destruct (android_store env1 st Hmiss Hp) as (fields & t & -> & _).
  cbn [fst snd].
  unfold Android.collectAndroidInfo, Android.collectAndroidInfo_start,
    Android.cache_valid.
  cbn [Android.androidCache Android.androidCacheTime JsValue.truthy andb].
  apply Z.ltb_lt in Hage. now rewrite Hage.
Qed.

(** X8.  A fetch of the network probe that its cache does not serve
    makes at most one external call (none on a platform other than Linux
    and Windows, where the result is the empty object) and stores what it
    returns; every fetch less than 2 s later returns the very same value
    without any external call. *)
Theorem network_fetch_again env1 env2 st :
  Network.cache_valid st (Date_now env1) = false ->
  let first := Network.collectNetworkInfo env1 st in
  (length (Effects.trace (fst first)) <= 1)%nat /\
  (String.eqb (platform env1) "linux" = false ->
   String.eqb (platform env1) "win32" = false ->
   fst first = (Ok (VObj []), [])) /\
  (Date_now env2 - Date_now env1 < 2000 ->
   Network.collectNetworkInfo env2 (snd first)
   = ((fst (fst first), []), snd first)).
Proof.
  intros Hmiss. cbv zeta. split; [|split].
  - destruct (network_store env1 st Hmiss) as (fields & t & -> & Hlen & _).
    exact Hlen.
  - intros Hl Hw.
    destruct (network_store env1 st Hmiss) as (fields & t & -> & _ & Hother).
    destruct (Hother Hl Hw) as [-> ->]. reflexivity.
  - intros Hage. now apply network_refetch.
Qed.

Lemma network_fetch_again_witness :
  let env1 := Samples.host "linux" 100000 Samples.half
                (Ok Samples.df_output) (Ok Samples.stat_1000) in
  let env2 := Samples.host "linux" 101999 Samples.half
                (Ok Samples.df_output) (Ok Samples.stat_1000) in
  let first := Network.collectNetworkInfo env1 Network.initial in
  Network.collectNetworkInfo env2 (snd first)
  = ((fst (fst first), []), snd first).
Proof.
  cbv zeta.
  apply (proj2 (proj2 (network_fetch_again
           (Samples.host "linux" 100000 Samples.half
              (Ok Samples.df_output) (Ok Samples.stat_1000))
           (Samples.host "linux" 101999 Samples.half
              (Ok Samples.df_output) (Ok Samples.stat_1000))
           Network.initial eq_refl))).
  reflexivity.
Defined.

(** X9.  On Linux, a fetch of the Android probe that its cache does not
    serve returns an object with [available: true] and without an
    [error] key, and stores it; every fetch less than 5 s later returns
    the very same value without any external call. *)
Theorem android_fetch_again env1 env2 st :
  Android.cache_valid st (Date_now env1) = false ->
  platform env1 = "linux"%string ->
  let first := Android.collectAndroidInfo env1 st in
  (exists v, Effects.outcome (fst first) = Ok v /\
             JsValue.get v "available" = VBool true /\
             JsValue.get v "error" = VUndefined) /\
  (Date_now env2 - Date_now env1 < 5000 ->
   Android.collectAndroidInfo env2 (snd first)
   = ((fst (fst first), []), snd first)).
Proof.
  intros Hmiss Hp. cbv zeta. split.
  - destruct (android_store env1 st Hmiss Hp) as (fields & t & -> & Ha & He).
    eexists. split; [reflexivity|]. split; assumption.
  - intros Hage. now apply android_refetch.
Qed.

Lemma android_fetch_again_witness :
  let env1 := Samples.host "linux" 100000 Samples.half
                (Ok Samples.df_output) (Ok Samples.stat_1000) in
  let env2 := Samples.host "linux" 104999 Samples.half
                (Ok Samples.df_output) (Ok Samples.stat_1000) in
  let first := Android.collectAndroidInfo env1 Android.initial in
  Android.collectAndroidInfo env2 (snd first)
  = ((fst (fst first), []), snd first).
Proof.
  cbv zeta.
  apply (proj2 (android_fetch_again
           (Samples.host "linux" 100000 Samples.half
              (Ok Samples.df_output) (Ok Samples.stat_1000))
           (Samples.host "linux" 104999 Samples.half
              (Ok Samples.df_output) (Ok Samples.stat_1000))
           Android.initial eq_refl eq_refl)).
  reflexivity.
Defined.

End RefetchFacts.

(** ** The CPU usage as a whole *)

Module UsageFacts.
Import JsString JsParse JsValue Effects JsNum NumSpec NumFacts CpuSpec UsageSpec.
Local Open Scope Q_scope.

Lemma clamp_range x : nan_or_percent (Cpu.clamp x).
Proof.
  unfold nan_or_percent, Cpu.clamp, of_Z.
  destruct x as [| | |q]; [left; reflexivity| | |]; right.
  - vm_compute. split; discriminate.
  - vm_compute. split; discriminate.
  - unfold min, max, lt.
    destruct (Qltb q (inject_Z 100)) eqn:E1.
    + apply Qltb_true in E1. change (inject_Z 100) with 100 in E1.
      destruct (Qltb 0 q) eqn:E2.
      * apply Qltb_true in E2. cbn. split; lra.
      * cbn. split; lra.
    + destruct (Qltb 0 (inject_Z 100)) eqn:E2; cbn;
        change (inject_Z 100) with 100; split; lra.
Qed.

Lemma load_fallback_range env :
  (let '(l1, _, _) := os_loadavg env in 0 <= l1) ->
  in_percent_range (Cpu.load_fallback env).
Proof.
  unfold Cpu.load_fallback, Cpu.load1.
  destruct (os_loadavg env) as [[l1 l5] l15]. intros H.
  unfold mul, of_Z, min, lt.
  destruct (Qltb (l1 * inject_Z 10) (inject_Z 100)) eqn:E; cbn.
  - apply Qltb_true in E. change (inject_Z 100) with 100 in E.
    change (inject_Z 10) with 10 in *. split; lra.
  - change (inject_Z 100) with 100. split; lra.
Qed.

Lemma calculateCpuUsage_range env st :
  platform env = "linux"%string ->
  (let '(l1, _, _) := os_loadavg env in 0 <= l1) ->
  exists usage,
    Effects.outcome (fst (Cpu.calculateCpuUsage env st)) = Ok usage /\
    nan_or_percent usage.
Proof.
  intros Hp Hload. unfold Cpu.calculateCpuUsage, readFile. rewrite Hp.
  change (negb ("linux" =? "linux")%string) with false. cbv iota.
  destruct (readFileSync env "/proc/stat") as [cpuInfo|message].
  - destruct (Cpu.prior st) as [last|]; eexists; (split; [reflexivity|]).
    + apply clamp_range.
    + right. now apply load_fallback_range.
  - eexists. split; [reflexivity|]. right. now apply load_fallback_range.
Qed.

(** X10.  On Linux, with a load average that is not negative, whatever
    the state and whatever [/proc/stat] holds or whether it can be read,
    [calculateCpuUsage] returns a number that is [NaN] or between 0 and
    100. *)
Theorem calculateCpuUsage_bounded env st :
  platform env = "linux"%string ->
  (let '(l1, _, _) := os_loadavg env in 0 <= l1) ->
  exists usage,
    Effects.outcome (fst (Cpu.calculateCpuUsage env st)) = Ok usage /\
    nan_or_percent usage.
Proof. exact (calculateCpuUsage_range env st). Qed.

Lemma calculateCpuUsage_bounded_witness :
  exists usage,
    Effects.outcome
      (fst (Cpu.calculateCpuUsage
              (Samples.host "linux" 6000 Samples.half
                 (Ok Samples.df_output) (Ok Samples.stat_1100))
              {| Cpu.lastCpuUsage := Some (Cpu.read_sample Samples.stat_1000);
                 Cpu.lastMeasureTime := Some 1000%Z |})) = Ok usage /\
    nan_or_percent usage.
Proof.
  apply calculateCpuUsage_bounded; [reflexivity|]. cbn. discriminate.
Defined.

(** X11.  On Linux, two calls of [calculateCpuUsage] that both read
    [/proc/stat], the first at a clock other than 0: the second returns
    the clamped delta usage of the two samples read, whatever the state
    before the first call was. *)
Theorem calculateCpuUsage_twice env1 env2 st info1 info2 :
  platform env1 = "linux"%string ->
  platform env2 = "linux"%string ->
  readFileSync env1 "/proc/stat" = Ok info1 ->
  readFileSync env2 "/proc/stat" = Ok info2 ->
  Date_now env1 <> 0%Z ->
  Effects.outcome
    (fst (Cpu.calculateCpuUsage env2 (snd (Cpu.calculateCpuUsage env1 st))))
  = Ok (Cpu.clamp (Cpu.delta_usage (Cpu.read_sample info2)
                                   (Cpu.read_sample info1))).
Proof.
  intros Hp1 Hp2 Hr1 Hr2 Hclock.
  rewrite (CpuFacts.calculateCpuUsage_linux_read env1 st info1 Hp1 Hr1).
  cbn [snd].
  rewrite (CpuFacts.calculateCpuUsage_linux_read env2 _ info2 Hp2 Hr2).
  unfold Cpu.prior. cbn [Cpu.lastCpuUsage Cpu.lastMeasureTime].
  apply Z.eqb_neq in Hclock. rewrite Hclock. reflexivity.
Qed.

Lemma calculateCpuUsage_twice_witness :
  Effects.outcome
    (fst (Cpu.calculateCpuUsage
            (Samples.host "linux" 6000 Samples.half
               (Ok Samples.df_output) (Ok Samples.stat_1100))
            (snd (Cpu.calculateCpuUsage
                    (Samples.host "linux" 1000 Samples.half
                       (Ok Samples.df_output) (Ok Samples.stat_1000))
                    Cpu.initial))))
  = Ok (Cpu.clamp (Cpu.delta_usage (Cpu.read_sample Samples.stat_1100)
                                   (Cpu.read_sample Samples.stat_1000))).
Proof.
  apply calculateCpuUsage_twice; try reflexivity. discriminate.
Defined.

Lemma sum_core_usage cores : forall acc,
  0 <= acc ->
  Forall (fun c : nat * jsnum => in_percent_range (snd c)) cores ->
  exists s,
    fold_left (fun sum core => add sum (snd core)) cores (Num acc) = Num s /\
    acc <= s /\ s <= acc + 100 * inject_Z (Z.of_nat (length cores)).
Proof.
  induction cores as [|[i u] cores IH]; intros acc Hacc Hall.
  - exists acc. cbn [fold_left length]. split; [reflexivity|].
    change (inject_Z (Z.of_nat 0)) with 0. split; lra.
  - inversion Hall as [|x l Hu Hrest]; subst. cbn [snd] in Hu.
    destruct u as [| | |q]; try contradiction. destruct Hu as [Hq0 Hq1].
    cbn [fold_left snd add].
    destruct (IH (acc + q)) as (s & Hs & Hlo & Hhi); [lra|exact Hrest|].
    exists s. split; [exact Hs|].
    cbn [length]. rewrite Nat2Z.inj_succ, <- Z.add_1_r, inject_Z_plus.
    change (inject_Z 1) with 1. split; lra.
Qed.

Lemma with_core_average_range usage cpus :
  nan_or_percent usage ->
  nan_or_percent (Cpu.with_core_average usage (Cpu.coreUsage_of cpus)).
Proof.
  intros Hu. unfold Cpu.with_core_average.
  destruct (strict_eq usage (Num 0) && (0 <? length (Cpu.coreUsage_of cpus))%nat)
    eqn:E; [|exact Hu].
  apply andb_prop in E as [_ Hlen]. apply Nat.ltb_lt in Hlen.
  destruct (sum_core_usage (Cpu.coreUsage_of cpus) 0)
    as (s & -> & Hlo & Hhi);
    [lra|apply CpuFacts.coreUsage_from_range|].
  right. unfold div, of_Z.
  set (n := inject_Z (Z.of_nat (length (Cpu.coreUsage_of cpus)))) in *.
  assert (Hn : 0 < n).
  { unfold n. change 0 with (inject_Z 0). rewrite <- Zlt_Qlt. lia. }
  rewrite (Qcompare_Gt _ _ Hn). cbn. split.
  - apply Qle_shift_div_l; lra.
  - apply Qle_shift_div_r; lra.
Qed.

Lemma parseFloat_toFixed_nan_or_percent d x :
  nan_or_percent x -> nan_or_percent (parseFloat (toFixed d x)).
Proof.
  intros [->|H]; [left; reflexivity|].
  destruct x as [| | |q]; try contradiction. destruct H as [H0 H1].
  right. now apply CpuFacts.parseFloat_toFixed_range.
Qed.

(** X12.  On Linux, with a load average that is not negative, the
    [usage] that the CPU probe reports is [NaN] or between 0 and 100,
    also when it is the average of the per-core usages that replaces a
    measured usage of 0. *)
Theorem collectCpuInfo_usage_bounded env st :
  platform env = "linux"%string ->
  (let '(l1, _, _) := os_loadavg env in 0 <= l1) ->
  exists v usage,
    Effects.outcome (fst (Cpu.collectCpuInfo env st)) = Ok v /\
    usage_of v = Some usage /\
    nan_or_percent usage.
Proof.
  intros Hp Hload.
  destruct (calculateCpuUsage_range env st Hp Hload) as (u & Hu & Hrange).
  destruct (CpuFacts.calculateCpuUsage_returns env st) as (u' & t & st' & H).
  rewrite H in Hu. cbn in Hu. injection Hu as ->.
  unfold Cpu.collectCpuInfo. rewrite H.
  eexists. eexists. split; [reflexivity|]. split; [reflexivity|].
  apply parseFloat_toFixed_nan_or_percent.
  now apply with_core_average_range.
Qed.

Lemma collectCpuInfo_usage_bounded_witness :
  exists v usage,
    Effects.outcome
      (fst (Cpu.collectCpuInfo
              (Samples.host "linux" 6000 Samples.half
                 (Ok Samples.df_output) (Ok Samples.stat_1100))
              {| Cpu.lastCpuUsage := Some (Cpu.read_sample Samples.stat_1000);
                 Cpu.lastMeasureTime := Some 1000%Z |})) = Ok v /\
    usage_of v = Some usage /\
    nan_or_percent usage.
Proof.
  apply collectCpuInfo_usage_bounded; [reflexivity|]. cbn. discriminate.
Defined.

End UsageFacts.

(** ** The network interfaces *)

Module InterfaceFacts.
Import JsString JsParse JsValue Effects NetworkSpec.

Lemma put_names name s interfaces :
  forall k, In k (map fst (Network.put name s interfaces))
            <-> In k (map fst interfaces)
                \/ (k = name /\ name <> "__proto__"%string).
Proof.
  induction interfaces as [|[n s'] rest IH]; intros k; cbn [Network.put].
  - destruct (String.eqb name "__proto__") eqn:E.
    + apply String.eqb_eq in E. cbn. intuition.
    + apply String.eqb_neq in E. cbn. intuition.
  - destruct (String.eqb n name) eqn:E.
    + apply String.eqb_eq in E. subst n. cbn. intuition.
    + cbn [map fst In]. rewrite IH. intuition.
Qed.

Lemma put_NoDup name s interfaces :
  NoDup (map fst interfaces) ->
  NoDup (map fst (Network.put name s interfaces)).
Proof.
  induction interfaces as [|[n s'] rest IH]; intros H; cbn [Network.put].
  - destruct (String.eqb name "__proto__"); cbn; [constructor|].
    constructor; [intros []|constructor].
  - cbn [map fst] in H. inversion H as [|x l Hn Hrest]; subst.
    destruct (String.eqb n name) eqn:E.
    + apply String.eqb_eq in E. subst n. cbn [map fst]. now constructor.
    + apply String.eqb_neq in E. cbn [map fst]. constructor.
      * rewrite put_names. intros [Hin|[-> _]]; [contradiction|congruence].
      * now apply IH.
Qed.

Lemma proc_net_dev_line_named interfaces line :
  well_named (map fst interfaces) ->
  well_named (map fst (Network.proc_net_dev_line interfaces line)).
Proof.
  intros (Hnd & Hlo & Hproto). unfold Network.proc_net_dev_line.
  destruct (17 <=? _)%nat; [|now repeat split].
  destruct (String.eqb (remove_first ":" _) "lo") eqn:E; [now repeat split|].
  cbn [orb]. destruct (String.eqb (nth 1 _ _) "0"); [now repeat split|].
  split; [|split].
  - now apply put_NoDup.
  - rewrite put_names. intros [H|[H _]]; [contradiction|].
    apply String.eqb_neq in E. congruence.
  - rewrite put_names. intros [H|[H1 H2]]; [contradiction|congruence].
Qed.

Lemma fold_proc_net_dev_line_named lines : forall interfaces,
  well_named (map fst interfaces) ->
  well_named (map fst (fold_left Network.proc_net_dev_line lines interfaces)).
Proof.
  induction lines as [|line lines IH]; intros interfaces H; cbn [fold_left].
  - exact H.
  - apply IH. now apply proc_net_dev_line_named.
Qed.

Lemma set_fresh k v fields :
  k <> "__proto__"%string ->
  ~ In k (map fst fields) -> JsValue.set k v fields = fields ++ [(k, v)].
Proof.
  intros Hk.
  induction fields as [|[k' v'] rest IH]; intros H; cbn [JsValue.set].
  - apply String.eqb_neq in Hk. now rewrite Hk.
  - cbn [map fst In] in H.
    destruct (String.eqb k' k) eqn:E.
    + apply String.eqb_eq in E. tauto.
    + cbn [app]. rewrite IH by tauto. reflexivity.
Qed.

Lemma formatted_names interfaces : forall acc,
  NoDup (map fst acc ++ map fst interfaces) ->
  ~ In "__proto__"%string (map fst interfaces) ->
  map fst (fold_left (fun acc entry =>
                        JsValue.set (fst entry)
                                    (Network.formatted (snd entry)) acc)
                     interfaces acc)
  = map fst acc ++ map fst interfaces.
Proof.
  induction interfaces as [|[n s] rest IH]; intros acc H Hproto;
    cbn [fold_left map fst snd].
  - now rewrite app_nil_r.
  - assert (Hfresh : ~ In n (map fst acc)).
    { intros Hin. apply NoDup_remove_2 in H. apply H.
      apply in_or_app. now left. }
    cbn [map fst In] in Hproto.
    rewrite set_fresh; [|intros ->; tauto|exact Hfresh].
    rewrite IH; rewrite ?map_app; cbn [map fst]; rewrite <- ?app_assoc;
      cbn [app]; [reflexivity|exact H|tauto].
Qed.

(** X13.  On Linux, a fetch of the network probe that its cache does not
    serve reads [/proc/net/dev] once and returns an object whose keys are
    distinct interface names, none of them [lo]; when the file cannot be
    read the object is empty, and no failure is returned. *)
Theorem collectNetworkInfo_linux env st :
  Network.cache_valid st (Date_now env) = false ->
  platform env = "linux"%string ->
  exists fields,
    fst (Network.collectNetworkInfo env st)
      = (Ok (VObj fields), [ReadFileSync "/proc/net/dev"]) /\
    NoDup (map fst fields) /\
    ~ In "lo"%string (map fst fields) /\
    (forall message,
       readFileSync env "/proc/net/dev" = Throw message -> fields = []).
Proof.
  intros Hmiss Hp. unfold Network.collectNetworkInfo. rewrite Hmiss, Hp.
  change (("linux" =? "linux")%string) with true. cbv iota.
  unfold Network.parseLinuxNetworkStats, try_catch, bind, readFile.
  destruct (readFileSync env "/proc/net/dev") as [data|message].
  - cbn [ret fst app].
    set (l := fold_left Network.proc_net_dev_line _ []).
    assert (Hl : well_named (map fst l)).
    { apply fold_proc_net_dev_line_named.
      split; [constructor|split; intros []]. }
    destruct Hl as (Hnd & Hlo & Hproto).
    eexists. split; [reflexivity|].
    rewrite (formatted_names l []) by assumption. cbn [map app].
    repeat split; try assumption. discriminate.
  - cbn [ret fst app fold_left]. eexists. split; [reflexivity|].
    repeat split; [constructor|intros []].
Qed.

Lemma collectNetworkInfo_linux_witness :
  exists fields,
    fst (Network.collectNetworkInfo
           (Samples.host "linux" 100000 Samples.half
              (Ok Samples.df_output) (Ok Samples.stat_1000))
           Network.initial)
      = (Ok (VObj fields), [ReadFileSync "/proc/net/dev"]) /\
    NoDup (map fst fields) /\
    ~ In "lo"%string (map fst fields) /\
    (forall message,
       readFileSync (Samples.host "linux" 100000 Samples.half
                       (Ok Samples.df_output) (Ok Samples.stat_1000))
                    "/proc/net/dev" = Throw message -> fields = []).
Proof.
  apply collectNetworkInfo_linux; reflexivity.
Defined.

Lemma netstat_no_bytes lines : forall rx_bytes,
  Forall (fun line => includes line "Bytes" = false) lines ->
  fold_left Network.netstat_line lines rx_bytes = rx_bytes.
Proof.
  induction lines as [|line lines IH]; intros rx_bytes H; cbn [fold_left].
  - reflexivity.
  - inversion H as [|x l Hline Hrest]; subst.
    unfold Network.netstat_line at 2. rewrite Hline. now apply IH.
Qed.

(** X14.  On Windows, a fetch of the network probe that its cache does
    not serve never fails: it runs [netstat -e] once and reports the one
    interface [default], whose transmitted counters are all 0 and whose
    received bytes are 0 when the command fails and when no line of its
    output holds the word [Bytes]. *)
Theorem collectNetworkInfo_win32 env st :
  Network.cache_valid st (Date_now env) = false ->
  platform env = "win32"%string ->
  exists entry rx_bytes,
    fst (Network.collectNetworkInfo env st)
      = (Ok (VObj [("default", entry)]), [ExecSync "netstat -e"]) /\
    reported entry "rx" "bytes" = VNum rx_bytes /\
    reported entry "tx" "bytes" = VNum (Num 0) /\
    reported entry "tx" "packets" = VNum (Num 0) /\
    reported entry "tx" "errors" = VNum (Num 0) /\
    reported entry "tx" "dropped" = VNum (Num 0) /\
    (forall message,
       execSync env "netstat -e" = Throw message -> rx_bytes = Num 0) /\
    (forall output,
       execSync env "netstat -e" = Ok output ->
       Forall (fun line => includes line "Bytes" = false)
              (split LF (trim output)) ->
       rx_bytes = Num 0).
Proof.
  intros Hmiss Hwin. unfold Network.collectNetworkInfo. rewrite Hmiss, Hwin.
  change (("win32" =? "linux")%string) with false.
  change (("win32" =? "win32")%string) with true. cbv iota.
  unfold Network.parseWindowsNetworkStats, try_catch, bind, exec, ret.
  destruct (execSync env "netstat -e") as [output|message0].
  - eexists. eexists. split; [reflexivity|].
    do 5 (split; [reflexivity|]). split; [discriminate|].
    intros output' Hout Hnone. injection Hout as <-.
    now apply netstat_no_bytes.
  - eexists. exists (Num 0). split; [reflexivity|].
    do 5 (split; [reflexivity|]). split; [reflexivity|discriminate].
Qed.

Lemma collectNetworkInfo_win32_witness :
  exists entry,
    fst (Network.collectNetworkInfo
           (Samples.host "win32" 100000 Samples.half
              (Ok Samples.df_output) (Ok Samples.stat_1000))
           Network.initial)
      = (Ok (VObj [("default", entry)]), [ExecSync "netstat -e"]) /\
    reported entry "rx" "bytes" = VNum (Num 0) /\
    reported entry "tx" "bytes" = VNum (Num 0).
Proof.
  destruct (collectNetworkInfo_win32
              (Samples.host "win32" 100000 Samples.half
                 (Ok Samples.df_output) (Ok Samples.stat_1000))
              Network.initial eq_refl eq_refl)
    as (entry & rx_bytes & Hrun & Hrx & Htx & _ & _ & _ & Hzero & _).
  exists entry. split; [exact Hrun|]. split; [|exact Htx].
  rewrite Hrx. f_equal.
  apply (Hzero "Command failed: netstat -e"). reflexivity.
Defined.

End InterfaceFacts.

(** ** The lines of [/proc/net/dev] *)

Module NetRowFacts.
Import JsString JsNum JsParse StringSpec ParseSpec StringFacts ParseFacts.
Local Open Scope string_scope.

Lemma trimStart_blanks n s : trimStart (repeat_char " " n ++ s) = trimStart s.
Proof. induction n as [|n IH]; [reflexivity|exact IH]. Qed.

Lemma digits_of_N_zero n : String.eqb (digits_of_N n) "0" = N.eqb n 0.
Proof.
  destruct (N.eqb n 0) eqn:E.
  - apply N.eqb_eq in E. subst n. reflexivity.
  - apply String.eqb_neq. intros H. apply N.eqb_neq in E. apply E.
    apply DecimalN.Unsigned.to_uint_inj.
    assert (Hs : DecimalString.NilEmpty.uint_of_string (digits_of_N n)
                 = DecimalString.NilEmpty.uint_of_string (digits_of_N 0))
      by (now rewrite H).
    unfold digits_of_N in Hs.
    rewrite !DecimalString.NilEmpty.usu in Hs. now injection Hs.
Qed.

Lemma name_colon_is_token name :
  is_token name = true -> is_token (name ++ ":") = true.
Proof.
  unfold is_token. intros H. apply andb_prop in H as [Hne Hws].
  rewrite ws_free_app, Hws. destruct name; [discriminate|reflexivity].
Qed.

Lemma counters_are_tokens (counters : list (nat * N)) :
  Forall (fun c => is_token (snd c) = true)
         (map (fun c => (fst c, digits_of_N (snd c))) counters).
Proof.
  induction counters as [|c cs IH]; constructor; [|exact IH].
  apply digits_is_token.
Qed.

Lemma field_of_counter name (counters : list (nat * N)) i :
  (i < length counters)%nat ->
  Network.field
    ((name ++ ":")
       :: map snd (map (fun c => (fst c, digits_of_N (snd c))) counters))
    (S i)
  = counter counters i.
Proof.
  intros Hi. unfold Network.field, counter. cbn [nth_error].
  rewrite map_map. cbn [snd].
  rewrite (nth_error_nth' _ EmptyString)
    by (now rewrite length_map).
  rewrite (nth_indep _ EmptyString (digits_of_N (snd (0%nat, 0%N))))
    by (now rewrite length_map).
  rewrite (map_nth (fun c : nat * N => digits_of_N (snd c))).
  apply parseInt_digits.
Qed.

Lemma put_proto s interfaces :
  existsb (fun e => String.eqb (fst e) "__proto__") interfaces = false ->
  Network.put "__proto__" s interfaces = interfaces.
Proof.
  induction interfaces as [|[n s'] rest IH]; intros H; cbn [Network.put].
  - reflexivity.
  - cbn [existsb fst] in H. apply orb_false_elim in H as [Hn Hrest].
    rewrite Hn, (IH Hrest). reflexivity.
Qed.

(** X15.  A line of [/proc/net/dev] with the name of an interface, a
    colon, and at least sixteen counters below 2^53, read into an object
    that has no key [__proto__] of its own: the interface is left out
    when its name is [lo], when its first counter, the bytes received, is
    0, whatever it has transmitted, and when its name is [__proto__],
    which an assignment does not record; otherwise it is recorded with
    columns 1 to 4 as the received and columns 9 to 12 as the
    transmitted bytes, packets, errors and drops. *)
Theorem proc_net_dev_line_reads_row indent name counters interfaces :
  is_token name = true ->
  free_of ":" name = true ->
  (16 <= length counters)%nat ->
  forallb (fun c => exact (snd c)) counters = true ->
  existsb (fun e => String.eqb (fst e) "__proto__") interfaces = false ->
  Network.proc_net_dev_line interfaces (net_dev_row indent name counters)
  = if String.eqb name "lo"
       || N.eqb (snd (nth 0 counters (0%nat, 0%N))) 0
       || String.eqb name "__proto__"
    then interfaces
    else Network.put name
           {| Network.rx :=
                {| Network.bytes := counter counters 0;
                   Network.packets := counter counters 1;
                   Network.errors := counter counters 2;
                   Network.dropped := counter counters 3 |};
              Network.tx :=
                {| Network.bytes := counter counters 8;
                   Network.packets := counter counters 9;
                   Network.errors := counter counters 10;
                   Network.dropped := counter counters 11 |} |}
           interfaces.
Proof.
  intros Hname Hcolon Hlen _ Hown.
  pose proof (name_colon_is_token name Hname) as Hfirst.
  pose proof (counters_are_tokens counters) as Hcols.
  unfold Network.proc_net_dev_line, net_dev_row, trim.
  rewrite trimStart_blanks.
  change (trimEnd (trimStart ?s)) with (trim s).
  rewrite trim_layout by assumption.
  rewrite split_ws_layout by assumption.
  assert (Hparts : (17 <=? length ((name ++ ":")
            :: map snd (map (fun c => (fst c, digits_of_N (snd c))) counters)))%nat
          = true).
  { apply Nat.leb_le. cbn [length]. rewrite !length_map. lia. }
  rewrite Hparts.
  rewrite !field_of_counter by lia.
  cbn [nth]. rewrite remove_first_end by exact Hcolon.
  assert (Hzero : String.eqb
            (nth 0 (map snd (map (fun c => (fst c, digits_of_N (snd c))) counters))
                 EmptyString) "0"
          = N.eqb (snd (nth 0 counters (0%nat, 0%N))) 0).
  { destruct counters as [|c cs]; [cbn in Hlen; lia|].
    cbn [map nth snd fst]. apply digits_of_N_zero. }
  rewrite Hzero.
  destruct (String.eqb name "lo" || N.eqb (snd (nth 0 counters (0%nat, 0%N))) 0);
    [reflexivity|].
  cbn [orb]. destruct (String.eqb name "__proto__") eqn:E; [|reflexivity].
  apply String.eqb_eq in E. subst name. now apply put_proto.
Qed.

Lemma proc_net_dev_line_reads_row_witness :
  Network.proc_net_dev_line []
    (net_dev_row 2 "wlan0"
       (map (fun n => (3%nat, n))
            [0; 0; 0; 0; 0; 0; 0; 0; 52000; 410; 0; 0; 0; 0; 0; 0]%N))
  = [].
Proof.
  apply (proc_net_dev_line_reads_row 2 "wlan0"
           (map (fun n => (3%nat, n))
              [0; 0; 0; 0; 0; 0; 0; 0; 52000; 410; 0; 0; 0; 0; 0; 0]%N) []);
    [reflexivity | reflexivity | cbn; lia | reflexivity | reflexivity].
Defined.

End NetRowFacts.

(** ** The Android sub-probes *)

Module SubProbeFacts.
Import JsString JsParse JsValue JsConv Effects ProbeSpec.

Lemma isTermuxApiAvailable_cases env :
  Android.isTermuxApiAvailable env
  = (Ok (match execSync env which with Ok _ => true | Throw _ => false end),
     [ExecSync which]).
Proof.
  unfold Android.isTermuxApiAvailable, try_catch, bind, exec, ret, which.
  destruct (execSync env "which termux-battery-status"); reflexivity.
Qed.

(** X16.  [getBatteryInfo] never throws.  Without the Termux tool it
    returns the failure [Termux API not available] after the one call
    that looked for the tool, and does not run [termux-battery-status];
    when the tool fails, or prints what [JSON.parse] rejects, it returns
    the failure [Failed to get battery information] with the message of
    that error. *)
Theorem getBatteryInfo_failures env :
  (exists v t, Android.getBatteryInfo env = (Ok v, t)) /\
  (forall message,
     execSync env which = Throw message ->
     Android.getBatteryInfo env
     = (Ok (Android.failure "Termux API not available"
              "Install termux-api package and Termux:API app"),
        [ExecSync which])) /\
  (forall found message,
     execSync env which = Ok found ->
     execSync env "termux-battery-status" = Throw message ->
     Android.getBatteryInfo env
     = (Ok (Android.failure "Failed to get battery information" message),
        [ExecSync which; ExecSync "termux-battery-status"])) /\
  (forall found output message,
     execSync env which = Ok found ->
     execSync env "termux-battery-status" = Ok output ->
     JSON_parse env output = Throw message ->
     Android.getBatteryInfo env
     = (Ok (Android.failure "Failed to get battery information" message),
        [ExecSync which; ExecSync "termux-battery-status"])).
Proof.
  unfold Android.getBatteryInfo. rewrite isTermuxApiAvailable_cases.
  unfold try_catch, bind, exec, ret, prop. cbn [negb app].
  repeat apply conj.
  - destruct (execSync env which); [|do 2 eexists; reflexivity].
    cbn [negb].
    destruct (execSync env "termux-battery-status");
      [|do 2 eexists; reflexivity].
    destruct (JSON_parse env a0) as [[]|]; do 2 eexists; reflexivity.
  - intros message ->. reflexivity.
  - intros found message -> ->. reflexivity.
  - intros found output message -> -> ->. reflexivity.
Qed.

Lemma getBatteryInfo_failures_witness :
  Android.getBatteryInfo
    (Samples.host "linux" 100000 Samples.half
       (Ok Samples.df_output) (Ok Samples.stat_1000))
  = (Ok (Android.failure "Termux API not available"
           "Install termux-api package and Termux:API app"),
     [ExecSync which]).
Proof.
  apply (proj1 (proj2 (getBatteryInfo_failures
           (Samples.host "linux" 100000 Samples.half
              (Ok Samples.df_output) (Ok Samples.stat_1000))))
           "Command failed: which termux-battery-status").
  reflexivity.
Defined.

Lemma thermal_zone_returns env data zone :
  exists data' t,
    Android.thermal_zone env data zone = (Ok data', t) /\
    (startsWith zone "thermal_zone" = false -> data' = data /\ t = []) /\
    (forall message,
       readFileSync env (Android.thermal_dir ++ "/" ++ zone ++ "/temp")%string
         = Throw message ->
       data' = data).
Proof.
  unfold Android.thermal_zone.
  destruct (startsWith zone "thermal_zone").
  - unfold try_catch, bind, exists_, readFile, ret.
    destruct (existsSync env _); cbn [app].
    + destruct (existsSync env _); cbn [app].
      * destruct (readFileSync env (Android.thermal_dir ++ "/" ++ zone ++ "/temp")%string).
        -- destruct (readFileSync env _);
             do 2 eexists; (split; [reflexivity|]); split; discriminate.
        -- do 2 eexists. split; [reflexivity|]. split; [discriminate|].
           reflexivity.
      * do 2 eexists. split; [reflexivity|]. split; [discriminate|]. reflexivity.
    + do 2 eexists. split; [reflexivity|]. split; [discriminate|]. reflexivity.
  - do 2 eexists. split; [reflexivity|]. split; [|reflexivity].
    intros _. split; reflexivity.
Qed.

Lemma thermal_zones_returns env zones : forall data,
  exists data' t,
    Android.thermal_zones env data zones = (Ok data', t) /\
    (forallb (fun zone => negb (startsWith zone "thermal_zone")) zones = true ->
     data' = data /\ t = []).
Proof.
  induction zones as [|zone zones IH]; intros data; cbn [Android.thermal_zones].
  - do 2 eexists. split; [reflexivity|]. intros _. split; reflexivity.
  - destruct (thermal_zone_returns env data zone) as (d1 & t1 & -> & Hskip & _).
    destruct (IH d1) as (d2 & t2 & H2 & Hskip2).
    unfold bind. rewrite H2. do 2 eexists. split; [reflexivity|].
    cbn [forallb]. intros H. apply andb_prop in H as [Hz Hzs].
    apply negb_true_iff in Hz.
    destruct (Hskip Hz) as [-> ->]. destruct (Hskip2 Hzs) as [-> ->].
    split; reflexivity.
Qed.

(** X17.  [getThermalInfo] never throws: a zone that cannot be read is
    skipped and leaves the zones read so far as they are, an entry of the
    directory whose name does not start with [thermal_zone] is not
    looked at, and when the directory exists but cannot be listed the
    result is the failure [Failed to get thermal information] with no
    zone. *)
Theorem getThermalInfo_skips env :
  (exists v t, Android.getThermalInfo env = (Ok v, t)) /\
  (forall data zone,
     exists data' t,
       Android.thermal_zone env data zone = (Ok data', t) /\
       (startsWith zone "thermal_zone" = false -> data' = data /\ t = []) /\
       (forall message,
          readFileSync env
            (Android.thermal_dir ++ "/" ++ zone ++ "/temp")%string
            = Throw message ->
          data' = data)) /\
  (forall message,
     existsSync env Android.thermal_dir = true ->
     readdirSync env Android.thermal_dir = Throw message ->
     Android.getThermalInfo env
     = (Ok (VObj [ ("error", VStr "Failed to get thermal information");
                   ("message", VStr message);
                   ("zones", VObj []);
                   ("count", VNum (Num 0)) ]),
        [ExistsSync Android.thermal_dir; ReaddirSync Android.thermal_dir])).
Proof.
  split; [|split].
  - unfold Android.getThermalInfo, try_catch, bind, exists_, readdir, ret.
    destruct (existsSync env Android.thermal_dir).
    + destruct (readdirSync env Android.thermal_dir) as [zones|message].
      * destruct (thermal_zones_returns env zones []) as (d & t & -> & _).
        destruct d; [rewrite isTermuxApiAvailable_cases;
                     destruct (execSync env which)|];
          do 2 eexists; reflexivity.
      * do 2 eexists; reflexivity.
    + cbn [Android.thermal_zones]. rewrite isTermuxApiAvailable_cases.
      destruct (execSync env which); do 2 eexists; reflexivity.
  - intros data zone. apply thermal_zone_returns.
  - intros message He Hr.
    unfold Android.getThermalInfo, try_catch, bind, exists_, readdir, ret.
    rewrite He, Hr. reflexivity.
Qed.

Lemma getThermalInfo_skips_witness :
  Android.getThermalInfo
    (with_locked_thermal
       (Samples.host "linux" 100000 Samples.half
          (Ok Samples.df_output) (Ok Samples.stat_1000)))
  = (Ok (VObj [ ("error", VStr "Failed to get thermal information");
                ("message",
                 VStr "EACCES: permission denied, scandir '/sys/class/thermal'");
                ("zones", VObj []);
                ("count", VNum (Num 0)) ]),
     [ExistsSync Android.thermal_dir; ReaddirSync Android.thermal_dir]).
Proof.
  apply (proj2 (proj2 (getThermalInfo_skips
           (with_locked_thermal
              (Samples.host "linux" 100000 Samples.half
                 (Ok Samples.df_output) (Ok Samples.stat_1000))))));
    reflexivity.
Defined.

(** X18.  [getDeviceInfo] never throws and returns an object.  The three
    Android properties are set together or not at all: when one [getprop]
    fails none of them is set, and without the Termux tool no [getprop]
    is run. *)
Theorem getDeviceInfo_all_or_nothing env :
  exists fields t,
    Android.getDeviceInfo env = (Ok (VObj fields), t) /\
    (JsValue.has_key "androidVersion" (VObj fields)
       = JsValue.has_key "model" (VObj fields)) /\
    (JsValue.has_key "model" (VObj fields)
       = JsValue.has_key "brand" (VObj fields)) /\
    (forall message,
       execSync env which = Throw message ->
       ~ In (ExecSync "getprop ro.build.version.release") t /\
       JsValue.has_key "androidVersion" (VObj fields) = false).
Proof.
  unfold Android.getDeviceInfo, Android.getprop.
  rewrite isTermuxApiAvailable_cases.
  unfold try_catch, bind, exists_, readFile, ret, exec.
  cbn [app String.append].
  destruct (execSync env which) as [found|message0].
  - destruct (execSync env "getprop ro.build.version.release");
      [destruct (execSync env "getprop ro.product.model");
       [destruct (execSync env "getprop ro.product.brand")|]|];
      cbn [app];
      destruct (existsSync env "/proc/version"); cbn [app];
      try destruct (readFileSync env "/proc/version");
      do 2 eexists; (split; [reflexivity|]);
      (split; [reflexivity|]); (split; [reflexivity|]); discriminate.
  - destruct (existsSync env "/proc/version"); cbn [app];
      try destruct (readFileSync env "/proc/version");
      do 2 eexists; (split; [reflexivity|]);
      (split; [reflexivity|]); (split; [reflexivity|]);
      intros m _; (split; [|reflexivity]);
      cbn; intuition discriminate.
Qed.

Lemma getDeviceInfo_all_or_nothing_witness :
  exists fields t,
    Android.getDeviceInfo
      (Samples.host "linux" 100000 Samples.half
         (Ok Samples.df_output) (Ok Samples.stat_1000))
    = (Ok (VObj fields), t) /\
    ~ In (ExecSync "getprop ro.build.version.release") t /\
    JsValue.has_key "androidVersion" (VObj fields) = false.
Proof.
  destruct (getDeviceInfo_all_or_nothing
              (Samples.host "linux" 100000 Samples.half
                 (Ok Samples.df_output) (Ok Samples.stat_1000)))
    as (fields & t & Hrun & _ & _ & Hnone).
  exists fields, t. split; [exact Hrun|].
  apply (Hnone "Command failed: which termux-battery-status"). reflexivity.
Defined.

End SubProbeFacts.

(** ** The Android probe over time *)

Module AndroidMoreFacts.
Import JsString JsValue Effects AndroidSpec ProbeSpec.

Lemma collectAndroidInfo_sound env st :
  sound_cache st ->
  (exists fields t,
     fst (Android.collectAndroidInfo env st) = (Ok (VObj fields), t) /\
     JsValue.assoc "error" fields = VUndefined) /\
  sound_cache (snd (Android.collectAndroidInfo env st)).
Proof.
  intros Hst.
  destruct (Android.cache_valid st (Date_now env)) eqn:Hvalid.
  - assert (H : Android.collectAndroidInfo env st
                = ((Ok (Android.androidCache st), []), st)).
    { unfold Android.collectAndroidInfo, Android.collectAndroidInfo_start.
      now rewrite Hvalid. }
    rewrite H. cbn [fst snd]. split; [|exact Hst].
    destruct Hst as [Hnull|(fields & Hc & He)].
    + unfold Android.cache_valid in Hvalid. rewrite Hnull in Hvalid.
      discriminate Hvalid.
    + rewrite Hc. now exists fields, [].
  - destruct (String.eqb (platform env) "linux") eqn:Hp.
    + apply String.eqb_eq in Hp.
      destruct (RefetchFacts.android_store env st Hvalid Hp)
        as (fields & t & -> & _ & He).
      cbn [fst snd]. split.
      * now exists fields, t.
      * right. now exists fields.
    + assert (H : Android.collectAndroidInfo env st
                  = ((Ok (unavailable ("Android features not available on "
                                        ++ platform env)), []), st)).
      { unfold Android.collectAndroidInfo, Android.collectAndroidInfo_start.
        now rewrite Hvalid, Hp. }
      rewrite H. cbn [fst snd]. split; [|exact Hst].
      do 2 eexists. split; reflexivity.
Qed.

Lemma successive_calls_sound hosts : forall st,
  sound_cache st ->
  Forall (fun r => exists fields t,
                     r = (Ok (VObj fields), t) /\
                     JsValue.assoc "error" fields = VUndefined)
         (successive_calls hosts st).
Proof.
  induction hosts as [|env hosts IH]; intros st Hst; cbn [successive_calls].
  - constructor.
  - destruct (collectAndroidInfo_sound env st Hst) as [Hr Hst'].
    destruct (Android.collectAndroidInfo env st) as [r st'].
    cbn [fst snd] in *. constructor; [exact Hr|]. now apply IH.
Qed.

(** X19.  From the start of the process on, on whatever hosts, every
    call of [collectAndroidInfo()] is fulfilled with an object that has
    no [error] key: the failures of the sub-probes stay inside the
    [battery], [thermal] and [device] fields, and the [catch] of the
    collector is never reached. *)
Theorem collectAndroidInfo_never_fails (hosts : list Env) :
  Forall (fun r => exists fields t,
                     r = (Ok (VObj fields), t) /\
                     JsValue.get (VObj fields) "error" = VUndefined)
         (successive_calls hosts Android.initial).
Proof.
  apply successive_calls_sound. now left.
Qed.

End AndroidMoreFacts.

(** ** The response as a whole *)

Module ResponseFacts.
Import JsString JsValue JsConv Effects Server ResponseSpec.
Local Open Scope Z_scope.

(** X20.  The number of warnings of a response is the number of slots
    whose value has a truthy [error] or whose promise was rejected, and
    [meta.status] is ["ok"] exactly when there is none. *)
Theorem warnings_count_slots env r :
  length (warnings_of env (metrics_of env r))
    = length (filter warns (slots r)) /\
  (status_of (respond env r) = VStr "ok"
   <-> forallb (fun s => negb (warns s)) (slots r) = true).
Proof.
  assert (Hlen : length (warnings_of env (metrics_of env r))
                 = length (filter warns (slots r))).
  { unfold warnings_of, metrics_of, check_key, slots.
    cbn [fold_left String.eqb Ascii.eqb Bool.eqb negb andb].
    destruct r as [h m c d n a]. cbn [host memory cpu disk network android].
    destruct h, m, c, d, n, a;
      cbn [slot filter warns JsValue.get JsValue.assoc String.eqb Ascii.eqb
           Bool.eqb JsValue.truthy is_empty negb andb];
      repeat match goal with
             | |- context [JsValue.truthy (JsValue.get ?v "error")] =>
                 destruct (JsValue.truthy (JsValue.get v "error"))
             end; reflexivity. }
  split; [exact Hlen|].
  pose proof (ServerFacts.status_reflects_warnings env r) as [Hok Hpartial].
  cbv zeta in Hok, Hpartial.
  assert (Hall : forall l, forallb (fun s => negb (warns s)) l = true
                           <-> filter warns l = []).
  { induction l as [|s l IH]; cbn [forallb filter]; [tauto|].
    destruct (warns s); cbn [negb andb]; [|exact IH].
    split; discriminate. }
  rewrite Hall. split.
  - intros Hstatus.
    destruct (warnings_of env (metrics_of env r)) eqn:E.
    + try rewrite E in Hlen.
      destruct (filter warns (slots r)) eqn:F; [reflexivity|].
      try rewrite F in Hlen. discriminate Hlen.
    + destruct Hpartial as [H _]; [try rewrite E; discriminate|]. congruence.
  - intros Hnone. rewrite Hnone in Hlen.
    destruct (warnings_of env (metrics_of env r)) eqn:E;
      [|try rewrite E in Hlen; discriminate Hlen].
    apply Hok. try rewrite E. reflexivity.
Qed.

(** X21.  On Linux, a request whose three caches were empty or expired
    and whose [df -kP] succeeded is followed, less than 2 s later, by a
    request that makes one external call only, the read of [/proc/stat]
    by the CPU probe, and whose [disk], [network] and [android] slots are
    those of the first response. *)
Theorem second_request_reads_cpu_only env1 env2 st output :
  platform env1 = "linux"%string ->
  platform env2 = "linux"%string ->
  Disk.cache_valid (disk_state st) (Date_now env1) = false ->
  Network.cache_valid (network_state st) (Date_now env1) = false ->
  Android.cache_valid (android_state st) (Date_now env1) = false ->
  execSync env1 "df -kP" = Ok output ->
  Date_now env2 - Date_now env1 < 2000 ->
  let '(response1, _, st1) := metrics_handler env1 st in
  let '(response2, calls2, _) := metrics_handler env2 st1 in
  calls2 = [ReadFileSync "/proc/stat"] /\
  JsValue.get response2 "disk" = JsValue.get response1 "disk" /\
  JsValue.get response2 "network" = JsValue.get response1 "network" /\
  JsValue.get response2 "android" = JsValue.get response1 "android".
Proof.
  intros Hp1 Hp2 Hd Hn Ha Hdf Hage.
  assert (Hcmd : execSync env1 (CacheSpec.disk_command env1) = Ok output).
  { unfold CacheSpec.disk_command. rewrite Hp1. exact Hdf. }
  pose proof (RefetchFacts.disk_refetch env1 env2 _ output Hd Hcmd) as Hd2.
  pose proof (RefetchFacts.network_refetch env1 env2 _ Hn) as Hn2.
  pose proof (RefetchFacts.android_refetch env1 env2 _ Ha Hp1) as Ha2.
  unfold Disk.DISK_CACHE_TTL, Network.NETWORK_CACHE_TTL,
    Android.ANDROID_CACHE_TTL in *.
  specialize (Hd2 ltac:(lia)). specialize (Hn2 ltac:(lia)).
  specialize (Ha2 ltac:(lia)).
  unfold metrics_handler.
  destruct (Cpu.collectCpuInfo env1 (cpu_state st)) as [[c1 tc1] cs1] eqn:Ec1.
  destruct (Disk.collectDiskInfo env1 (disk_state st)) as [[d1 td1] ds1].
  destruct (Network.collectNetworkInfo env1 (network_state st))
    as [[n1 tn1] ns1].
  destruct (Android.collectAndroidInfo env1 (android_state st))
    as [[a1 ta1] as1].
  cbn [fst snd] in Hd2, Hn2, Ha2.
  cbn [Host.collectHostInfo Memory.collectMemoryInfo try_catch ret
       cpu_state disk_state network_state android_state].
  rewrite Hd2, Hn2, Ha2.
  destruct (CpuFacts.calculateCpuUsage_returns env2 cs1) as (u & t & st' & Hu).
  assert (Ht : t = [ReadFileSync "/proc/stat"]).
  { unfold Cpu.calculateCpuUsage, readFile in Hu. rewrite Hp2 in Hu.
    change (negb ("linux" =? "linux")%string) with false in Hu. cbv iota in Hu.
    destruct (readFileSync env2 "/proc/stat");
      [destruct (Cpu.prior cs1)|]; now inversion Hu. }
  subst t.
  unfold Cpu.collectCpuInfo. rewrite Hu.
  cbn [try_catch bind ret app]. repeat split.
Qed.

Lemma second_request_reads_cpu_only_witness :
  let '(response1, _, st1) :=
    metrics_handler (Samples.host "linux" 100000 Samples.half
                       (Ok Samples.df_output) (Ok Samples.stat_1000))
                    Server.initial in
  let '(response2, calls2, _) :=
    metrics_handler (Samples.host "linux" 101000 Samples.half
                       (Ok Samples.df_output) (Ok Samples.stat_1100))
                    st1 in
  calls2 = [ReadFileSync "/proc/stat"] /\
  JsValue.get response2 "disk" = JsValue.get response1 "disk" /\
  JsValue.get response2 "network" = JsValue.get response1 "network" /\
  JsValue.get response2 "android" = JsValue.get response1 "android".
Proof.
  apply (second_request_reads_cpu_only
           (Samples.host "linux" 100000 Samples.half
              (Ok Samples.df_output) (Ok Samples.stat_1000))
           (Samples.host "linux" 101000 Samples.half
              (Ok Samples.df_output) (Ok Samples.stat_1100))
           Server.initial Samples.df_output);
    reflexivity.
Defined.

End ResponseFacts.

(** ** The authentication middleware *)

Module AuthFacts.
Import JsString JsValue StringSpec.
Local Open Scope string_scope.

Lemma split_free sep s : free_of sep s = true -> split sep s = [s].
Proof.
  induction s as [|c s IH]; intros H; [reflexivity|].
  cbn [free_of] in H. apply andb_prop in H as [Hc Hs].
  apply negb_true_iff in Hc. cbn [split]. now rewrite Hc, (IH Hs).
Qed.

Lemma split_app sep a : forall b,
  free_of sep a = true ->
  split sep (a ++ String sep b) = a :: split sep b.
Proof.
  induction a as [|c a IH]; intros b H.
  - cbn [String.append split]. now rewrite Ascii.eqb_refl.
  - cbn [free_of] in H. apply andb_prop in H as [Hc Ha].
    apply negb_true_iff in Hc. cbn [String.append split].
    now rewrite Hc, (IH b Ha).
Qed.

Lemma split_pieces_free sep s : Forall (fun p => free_of sep p = true) (split sep s).
Proof.
  induction s as [|c s IH]; cbn [split].
  - repeat constructor.
  - destruct (Ascii.eqb c sep) eqn:E.
    + constructor; [reflexivity|exact IH].
    + destruct (split sep s) as [|h t]; [repeat constructor; cbn; now rewrite E|].
      inversion IH as [|x l Hh Ht]; subst. constructor; [|exact Ht].
      cbn [free_of]. now rewrite E, Hh.
Qed.

(** X22.  With a token configured that is not empty and has no blank,
    a request passes when the second blank-separated word of its
    [authorization] header is that token, whatever the first word is
    ([Bearer] or anything else without a blank) and whatever follows the
    token after a blank. *)
Theorem authenticateToken_accepts token scheme rest :
  is_empty token = false ->
  free_of " " token = true ->
  free_of " " scheme = true ->
  Auth.authenticateToken (Some token) (Some (scheme ++ " " ++ token)) = Auth.Next /\
  Auth.authenticateToken (Some token)
    (Some (scheme ++ " " ++ token ++ " " ++ rest)) = Auth.Next.
Proof.
  intros Hne Htok Hscheme.
  unfold Auth.authenticateToken, Auth.token_of. rewrite Hne.
  assert (Hh : forall tail, is_empty (scheme ++ " " ++ tail) = false)
    by (intros tail; destruct scheme; reflexivity).
  rewrite !Hh. cbn [String.append].
  rewrite !(split_app " " scheme _ Hscheme).
  rewrite (split_free " " token Htok), (split_app " " token rest Htok).
  cbn [nth_error]. now rewrite Hne, String.eqb_refl.
Qed.

Lemma authenticateToken_accepts_witness :
  Auth.authenticateToken (Some "s3cret") (Some ("Bearer" ++ " " ++ "s3cret"))
    = Auth.Next /\
  Auth.authenticateToken (Some "s3cret")
    (Some ("Bearer" ++ " " ++ "s3cret" ++ " " ++ "trailing words")) = Auth.Next.
Proof.
  apply (authenticateToken_accepts "s3cret" "Bearer" "trailing words"); reflexivity.
Defined.

(** X23.  Without a configured token, or with an empty one, every
    request passes.  With a token configured, a request without an
    [authorization] header is answered 401, and when the configured
    token contains a blank every request is answered 401: no header can
    match it. *)
Theorem authenticateToken_rejects token :
  (forall authorization,
     Auth.authenticateToken None authorization = Auth.Next /\
     Auth.authenticateToken (Some EmptyString) authorization = Auth.Next) /\
  (is_empty token = false ->
   Auth.authenticateToken (Some token) None = Auth.unauthorized) /\
  (is_empty token = false ->
   free_of " " token = false ->
   forall authorization,
     Auth.authenticateToken (Some token) authorization = Auth.unauthorized).
Proof.
  split; [|split].
  - intros authorization. split; reflexivity.
  - intros Hne. unfold Auth.authenticateToken. now rewrite Hne.
  - intros Hne Hblank authorization.
    unfold Auth.authenticateToken, Auth.token_of. rewrite Hne.
    destruct authorization as [h|]; [|reflexivity].
    destruct (is_empty h) eqn:Eh; [now rewrite Eh|].
    destruct (nth_error (split " " h) 1) as [t|] eqn:Et; [|reflexivity].
    destruct (String.eqb t token) eqn:E; [|now rewrite orb_true_r].
    apply String.eqb_eq in E. subst t.
    apply nth_error_In in Et.
    pose proof (split_pieces_free " " h) as Hall.
    rewrite Forall_forall in Hall. specialize (Hall token Et). congruence.
Qed.

Lemma authenticateToken_rejects_witness :
  Auth.authenticateToken (Some "two words") (Some "Bearer two words")
    = Auth.unauthorized.
Proof.
  apply (proj2 (proj2 (authenticateToken_rejects "two words")));
    reflexivity.
Defined.

End AuthFacts.

(** ** The memory probe *)

Module MemoryFacts.
Import JsString JsParse JsValue Effects JsNum NumFacts CpuSpec.
Local Open Scope Q_scope.

(** X24.  [collectMemoryInfo] makes no external call and returns the
    used memory as total minus free.  With no memory reported at all the
    [usage] is the number 0, the division being guarded; otherwise it is
    a string with two decimals, which reads back as a number between 0
    and 100 when the free memory does not exceed the total. *)
Theorem collectMemoryInfo_usage env :
  exists v,
    Memory.collectMemoryInfo env = (Ok v, []) /\
    JsValue.get v "used"
      = VNum (sub (of_Z (Z.of_N (os_totalmem env)))
                  (of_Z (Z.of_N (os_freemem env)))) /\
    (os_totalmem env = 0%N -> JsValue.get v "usage" = VNum (Num 0)) /\
    ((0 < os_totalmem env)%N -> (os_freemem env <= os_totalmem env)%N ->
     exists text, JsValue.get v "usage" = VStr text /\
                  in_percent_range (parseFloat text)).
Proof.
  unfold Memory.collectMemoryInfo, try_catch, ret.
  eexists. split; [reflexivity|]. split; [reflexivity|].
  cbn [JsValue.get JsValue.assoc String.eqb Ascii.eqb Bool.eqb].
  unfold gt, lt, of_Z. split.
  - intros ->. reflexivity.
  - intros Hpos Hfree.
    set (t := inject_Z (Z.of_N (os_totalmem env))).
    set (f := inject_Z (Z.of_N (os_freemem env))).
    assert (Ht : 0 < t).
    { unfold t. change 0 with (inject_Z 0). rewrite <- Zlt_Qlt. lia. }
    assert (Hf0 : 0 <= f).
    { unfold f. change 0 with (inject_Z 0). rewrite <- Zle_Qle. lia. }
    assert (Hft : f <= t).
    { unfold f, t. rewrite <- Zle_Qle. lia. }
    assert (E : Qltb 0 t = true) by (now apply Qltb_true).
    rewrite E. eexists. split; [reflexivity|].
    unfold sub, neg, add, div. rewrite (Qcompare_Gt _ _ Ht). unfold mul.
    apply CpuFacts.parseFloat_toFixed_range.
    + assert (0 <= (t + - f) / t) by (apply Qle_shift_div_l; lra).
      change (inject_Z 100) with 100. lra.
    + assert ((t + - f) / t <= 1) by (apply Qle_shift_div_r; lra).
      change (inject_Z 100) with 100. lra.
Qed.

Lemma collectMemoryInfo_usage_witness :
  exists text,
    JsValue.get
      (match fst (Memory.collectMemoryInfo
                    (Samples.host "linux" 100000 Samples.half
                       (Ok Samples.df_output) (Ok Samples.stat_1000)))
       with Ok v => v | Throw _ => VUndefined end) "usage" = VStr text /\
    in_percent_range (parseFloat text).
Proof.
  destruct (collectMemoryInfo_usage
              (Samples.host "linux" 100000 Samples.half
                 (Ok Samples.df_output) (Ok Samples.stat_1000)))
    as (v & Hv & _ & _ & Husage).
  rewrite Hv. cbn [fst]. apply Husage; cbn; lia.
Defined.

End MemoryFacts.
